(** * pretext-cli: manifest resolution and the preview session

    A shallow embedding of [pretext/utils.py] and of the two commands of
    [pretext/cli.py] that call into it ([build] and [view]), with the
    properties of the project's specification proved or refuted on it.

    Python values are modelled as follows.
    - [str] is [string]; a character is one of the 256 code points of
      [ascii] (the Latin-1 range).
    - a call that may raise returns an [outcome].
    - [os.path] is [posixpath]: the separator is the slash.
    - an lxml element is a rose tree carrying its tag, text, children and
      tail.
    - a [dict] from [str] to [str] is a [gmap string string]. *)

From Stdlib Require Import ZArith Lia List Bool Ascii String.
From stdpp Require Import base option list gmap strings.

Import ListNotations.
Local Open Scope Z_scope.

(** ** Python values every module shares *)

Module Py.

(** The exceptions that the modelled code can raise. *)
Inductive exn : Type :=
| AttributeError (msg : string)
| TypeError (msg : string)
| XPathEvalError
| XMLSyntaxError
| FileNotFoundError (path : string)
| IndexError
| KeyboardInterrupt
| RecursionError
| RuntimeError (msg : string)
| ValueError (msg : string).

(** The result of a call. [Uninterpreted] marks a call that leaves what
    this development interprets: an XPath outside the fragment of
    [Lxml.parse_xpath], an ElementPath that is not made of tag names, or
    a [join] on a thread that was not asked to stop, which does not
    return. *)
Inductive outcome (A : Type) : Type :=
| Returns (a : A)
| Raises (e : exn)
| Uninterpreted.

Arguments Returns {A} a.
Arguments Raises {A} e.
Arguments Uninterpreted {A}.

Definition bind {A B : Type} (m : outcome A) (k : A -> outcome B) : outcome B :=
  match m with
  | Returns a => k a
  | Raises e => Raises e
  | Uninterpreted => Uninterpreted
  end.

(** The character [chr(34)], the double quote. *)
Definition dquote : ascii := ascii_of_nat 34.

(** [str.isspace] on one character of the Latin-1 range: the code points
    9-13, 28-32, 133 and 160. *)
Definition isspace (c : ascii) : bool :=
  let n := nat_of_ascii c in
  ((9 <=? n) && (n <=? 13) || (28 <=? n) && (n <=? 32)
   || (n =? 133) || (n =? 160))%nat.

(** [s.lstrip()] *)
Fixpoint lstrip (s : string) : string :=
  match s with
  | EmptyString => EmptyString
  | String c s' => if isspace c then lstrip s' else s
  end.

(** [s.rstrip()] *)
Fixpoint rstrip (s : string) : string :=
  match s with
  | EmptyString => EmptyString
  | String c s' =>
      match rstrip s' with
      | EmptyString => if isspace c then EmptyString else String c EmptyString
      | r => String c r
      end
  end.

(** [s.strip()] *)
Definition strip (s : string) : string := rstrip (lstrip s).

(** [s.rfind(c)] for a one-character [c]: the index of the last
    occurrence, [-1] when there is none. *)
Fixpoint rfind (c : ascii) (s : string) : Z :=
  match s with
  | EmptyString => -1
  | String a s' =>
      let r := rfind c s' in
      if 0 <=? r then r + 1 else if Ascii.eqb a c then 0 else -1
  end.

(** [s[:i]] for [0 <= i]. *)
Definition slice_to (i : Z) (s : string) : string :=
  substring 0 (Z.to_nat i) s.

(** [c * n] for a one-character [c]. *)
Fixpoint str_mul (c : ascii) (n : nat) : string :=
  match n with
  | O => EmptyString
  | S k => String c (str_mul c k)
  end.

(** [s.rstrip(c)] for a one-character [c]. *)
Fixpoint rstrip_char (c : ascii) (s : string) : string :=
  match s with
  | EmptyString => EmptyString
  | String a s' =>
      match rstrip_char c s' with
      | EmptyString => if Ascii.eqb a c then EmptyString else String a EmptyString
      | r => String a r
      end
  end.

(** [s.startswith(c)] and [s.endswith(c)] for a one-character [c]. *)
Definition startswith (c : ascii) (s : string) : bool :=
  match s with
  | String a _ => Ascii.eqb a c
  | EmptyString => false
  end.

Fixpoint endswith (c : ascii) (s : string) : bool :=
  match s with
  | EmptyString => false
  | String a EmptyString => Ascii.eqb a c
  | String _ s' => endswith c s'
  end.

(** [s.split(c)] for a one-character [c]. *)
Fixpoint split (c : ascii) (s : string) : list string :=
  match s with
  | EmptyString => [EmptyString]
  | String a s' =>
      let r := split c s' in
      if Ascii.eqb a c then EmptyString :: r
      else match r with
           | [] => [String a EmptyString]
           | h :: t => String a h :: t
           end
  end.

(** [c in s] for a one-character [c]. *)
Fixpoint contains (c : ascii) (s : string) : bool :=
  match s with
  | EmptyString => false
  | String a s' => Ascii.eqb a c || contains c s'
  end.

(** [s.lstrip(c)] for a one-character [c]. *)
Fixpoint lstrip_char (c : ascii) (s : string) : string :=
  match s with
  | EmptyString => EmptyString
  | String a s' => if Ascii.eqb a c then lstrip_char c s' else s
  end.

(** [s.rstrip('\r\n')]: the carriage returns and line feeds at the end
    are dropped. *)
Fixpoint rstrip_crlf (s : string) : string :=
  match s with
  | EmptyString => EmptyString
  | String a s' =>
      match rstrip_crlf s' with
      | EmptyString =>
          if ((nat_of_ascii a =? 13) || (nat_of_ascii a =? 10))%nat
          then EmptyString else String a EmptyString
      | r => String a r
      end
  end.

Definition prepend (c : ascii) (ws : list string) : list string :=
  match ws with
  | w :: rest => String c w :: rest
  | [] => [String c EmptyString]
  end.

(** [s.split()]: the maximal runs of characters that are not
    whitespace, in order. *)
Fixpoint words (s : string) : list string :=
  match s with
  | EmptyString => []
  | String c s' =>
      if isspace c then words s'
      else
        match s' with
        | EmptyString => [String c EmptyString]
        | String c' _ =>
            if isspace c' then String c EmptyString :: words s'
            else prepend c (words s')
        end
  end.

(** The records handed to the logger [ptxlogger]. *)
Inductive level : Type := DEBUG | INFO | WARNING | ERROR | CRITICAL.

Definition log_record : Type := (level * string)%type.

End Py.

(** ** [os.path] on POSIX *)

Module PosixPath.
Import Py.

Definition sep : ascii := "/"%char.

(** [posixpath.join(a, b)]:
    [if b.startswith(sep): path = b
     elif not path or path.endswith(sep): path += b
     else: path += sep + b] *)
Definition join (a b : string) : string :=
  if startswith sep b then b
  else if String.eqb a EmptyString || endswith sep a then a +:+ b
  else a +:+ String sep b.

(** [posixpath.dirname(p)]:
    [i = p.rfind(sep) + 1; head = p[:i]
     if head and head != sep*len(head): head = head.rstrip(sep)
     return head] *)
Definition dirname (p : string) : string :=
  let i := rfind sep p + 1 in
  let head := slice_to i p in
  if negb (String.eqb head EmptyString)
     && negb (String.eqb head (str_mul sep (String.length head)))
  then rstrip_char sep head
  else head.

End PosixPath.

(** ** The part of lxml that the sources call *)

Module Lxml.
Import Py.

(** An element as lxml presents it: [tag], [text] (the text before the
    first child, [None] when there is none), the children in document
    order, and [tail] (the text after the element's end tag). *)
#[warnings="-register-all"]
Inductive element : Type :=
| Element (tag : string) (text : option string)
          (children : list element) (tail : option string).

Definition tag (e : element) : string :=
  match e with Element t _ _ _ => t end.
Definition text (e : element) : option string :=
  match e with Element _ x _ _ => x end.
Definition children (e : element) : list element :=
  match e with Element _ _ c _ => c end.
Definition tail (e : element) : option string :=
  match e with Element _ _ _ x => x end.

(** A node of a query result: the element and the element it hangs
    under, which [getparent] gives back. *)
Record node : Type := Node { node_elem : element; node_parent : option element }.

Definition getparent (n : node) : option element := node_parent n.

Definition child_nodes (name : string) (n : node) : list node :=
  map (fun c => Node c (Some (node_elem n)))
      (List.filter (fun c => String.eqb (tag c) name) (children (node_elem n))).

(** One location step per name, each taken from every node selected so
    far, in document order. *)
Fixpoint select (steps : list string) (ctx : list node) : list node :=
  match steps with
  | [] => ctx
  | name :: rest => select rest (flat_map (child_nodes name) ctx)
  end.

(** The characters of the names that are interpreted: letters, digits,
    the hyphen and the underscore. *)
Definition is_name_char (c : ascii) : bool :=
  let n := nat_of_ascii c in
  ((48 <=? n) && (n <=? 57) || (65 <=? n) && (n <=? 90)
   || (97 <=? n) && (n <=? 122) || (n =? 45) || (n =? 95))%nat.

Fixpoint all_name_chars (s : string) : bool :=
  match s with
  | EmptyString => true
  | String c s' => is_name_char c && all_name_chars s'
  end.

Definition is_name (s : string) : bool :=
  negb (String.eqb s EmptyString) && all_name_chars s.

(** The ElementPaths that are interpreted: tag names separated by single
    slashes, such as [targets/target] and [output-dir], the form that
    the sources write out. A path with anything else in it ([.], [*],
    [//], a predicate, a namespace, a control character) is not. *)
Definition is_tag_path (path : string) : bool :=
  forallb is_name (split "/" path).

(** [e.findall(path)] for such a path. *)
Definition findall (path : string) (e : element) : list element :=
  map node_elem (select (split "/" path) [Node e None]).

(** [e.find(path)] for such a path: the first element selected, [None]
    when none is. For a path of another form the value is [None] as
    well and says nothing about lxml, which has [.], [*], [//], [..] and
    predicates and refuses the empty path. The sources call [find] with
    the paths [targets/target], [source], [output-dir] and [publication]
    written out; the one function that is handed a path by its caller,
    [update_from_project_xml], goes through [find_path]. *)
Definition find (path : string) (e : element) : option element :=
  if is_tag_path path then head (findall path e) else None.

(** [e.find(path)] for any path: left [Uninterpreted] when the path is
    not made of tag names. *)
Definition find_path (path : string) (e : element) : outcome (option element) :=
  if is_tag_path path then Returns (find path e) else Uninterpreted.

(** The text nodes that are children of [e]: its [text] and the [tail]
    of each of its children. XPath's [text()] selects them. *)
Definition text_nodes (e : element) : list string :=
  option_list (text e) ++ flat_map (fun c => option_list (tail c)) (children e).

(** *** XPath

    The expressions that are interpreted are the relative location paths
    [name/.../name[text()=LIT]], with [LIT] a literal in double quotes.
    A string in which a literal is opened and never closed is no XPath
    at all: libxml2 refuses it and lxml raises [XPathEvalError]. Any other
    string is left [Uninterpreted]. Before any of this, lxml encodes the
    expression and refuses, with [ValueError], a string that XML cannot
    hold. *)

(** What lxml's [_utf8] accepts of the Latin-1 range: no code point
    below 32 other than the tab, the line feed and the carriage return. *)
Definition xml_compatible_char (c : ascii) : bool :=
  let n := nat_of_ascii c in
  ((32 <=? n) || (n =? 9) || (n =? 10) || (n =? 13))%nat.

Fixpoint xml_compatible (s : string) : bool :=
  match s with
  | EmptyString => true
  | String c s' => xml_compatible_char c && xml_compatible s'
  end.

Definition not_xml_compatible : string :=
  "All strings must be XML compatible: Unicode or ASCII, no NULL bytes or control characters".

Inductive xpath_expr : Type :=
| ChildrenWithText (steps : list string) (literal : string).

Inductive lex_state : Type := Outside | InDouble | InSingle.

(** Whether every literal of [s] is closed, reading from state [st]. *)
Fixpoint literals_closed (st : lex_state) (s : string) : bool :=
  match s with
  | EmptyString => match st with Outside => true | _ => false end
  | String c s' =>
      match st with
      | Outside =>
          if Ascii.eqb c dquote then literals_closed InDouble s'
          else if Ascii.eqb c "'"%char then literals_closed InSingle s'
          else literals_closed Outside s'
      | InDouble =>
          literals_closed (if Ascii.eqb c dquote then Outside else InDouble) s'
      | InSingle =>
          literals_closed (if Ascii.eqb c "'"%char then Outside else InSingle) s'
      end
  end.

(** [s] cut at the first [c]: what precedes it and what follows it. *)
Fixpoint cut (c : ascii) (s : string) : option (string * string) :=
  match s with
  | EmptyString => None
  | String a s' =>
      if Ascii.eqb a c then Some (EmptyString, s')
      else match cut c s' with
           | Some (l, r) => Some (String a l, r)
           | None => None
           end
  end.

(** [s] without the prefix [p], when it starts with it. *)
Fixpoint strip_prefix (p s : string) : option string :=
  match p, s with
  | EmptyString, _ => Some s
  | String a p', String b s' => if Ascii.eqb a b then strip_prefix p' s' else None
  | String _ _, EmptyString => None
  end.

Definition parse_xpath (expr : string) : outcome xpath_expr :=
  if negb (literals_closed Outside expr) then Raises XPathEvalError
  else
    match cut "[" expr with
    | None => Uninterpreted
    | Some (path, predicate) =>
        let steps := split "/" path in
        if negb (forallb is_name steps) then Uninterpreted
        else
          match strip_prefix (String.append "text()=" (String dquote EmptyString))
                             predicate with
          | None => Uninterpreted
          | Some after_quote =>
              match cut dquote after_quote with
              | Some (literal, rest) =>
                  if String.eqb rest "]"
                  then Returns (ChildrenWithText steps literal)
                  else Uninterpreted
              | None => Uninterpreted
              end
          end
    end.

(** A node set compared with a string is true when some node of the set
    has that string as its value. *)
Definition text_equals (literal : string) (n : node) : bool :=
  existsb (String.eqb literal) (text_nodes (node_elem n)).

(** [tree.xpath(expr)]: the expression is encoded first; a relative
    expression is evaluated from the root element, and the node set comes
    back in document order. *)
Definition xpath (expr : string) (root : element) : outcome (list node) :=
  if negb (xml_compatible expr) then Raises (ValueError not_xml_compatible)
  else
    bind (parse_xpath expr) (fun e =>
      match e with
      | ChildrenWithText steps literal =>
          Returns (List.filter (text_equals literal) (select steps [Node root None]))
      end).

End Lxml.

(** ** [pretext/utils.py] *)

Module Utils.
Import Py PosixPath Lxml.

Section ManifestLocator.

(** [os.path.isfile] on the file system the call runs against. *)
Variable isfile : string -> bool.

Definition manifest_name : string := "project.ptx".

(** The test of [project_path]'s first line. *)
Definition has_manifest (dirpath : string) : bool :=
  isfile (join dirpath manifest_name).

(** [project_path(dirpath)] run with [depth] stack frames; the call
    raises when the frames run out before a [return] is reached. *)
Fixpoint project_path_rec (depth : nat) (dirpath : string) : outcome (option string) :=
  match depth with
  | O => Raises RecursionError
  | S k =>
      if has_manifest dirpath then Returns (Some dirpath)
      else
        let parentpath := dirname dirpath in
        if String.eqb parentpath dirpath then Returns None
        else project_path_rec k parentpath
  end.

(** [project_path(dirpath)]. The interpreter's recursion limit is not
    modelled: the call is given one frame per character of the path and
    one more, which the ascent never uses up (see
    [LocatorFacts.project_path_rec_spec]). *)
Definition project_path (dirpath : string) : outcome (option string) :=
  project_path_rec (S (String.length dirpath)) dirpath.

(** The [n]-th directory of the ascent from [dirpath]. *)
Definition ascend (n : nat) (dirpath : string) : string :=
  Nat.iter n dirname dirpath.

End ManifestLocator.

(** *** The manifest document *)

(** What the functions below read from the disk: [os.path.isfile], and
    [ET.parse(path)] followed down to the root element. *)
Record filesystem : Type := Filesystem {
  isfile : string -> bool;
  parse : string -> outcome element
}.

Section ManifestStore.

Variable fs : filesystem.

(** [os.getcwd()] at the time the module was imported: the default of
    every [dirpath] parameter, evaluated once, when the [def] runs. *)
Variable import_cwd : string.

(** [ET.Element("project")] *)
Definition empty_project : element := Element "project" None [] None.

(** [os.path.join(d, name)] with [d] possibly [None]. *)
Definition join_opt (d : option string) (name : string) : outcome string :=
  match d with
  | Some d' => Returns (join d' name)
  | None => Raises (TypeError "expected str, bytes or os.PathLike object, not NoneType")
  end.

(** [project_xml(dirpath)], root element of the tree it returns. *)
Definition project_xml (dirpath : string) : outcome element :=
  bind (project_path (isfile fs) dirpath) (fun found =>
    match found with
    | None => Returns empty_project
    | Some _ =>
        bind (project_path (isfile fs) dirpath) (fun root =>
        bind (join_opt root manifest_name) (parse fs))
    end).

(** The XPath that [target_xml] builds:
    [f'targets/target/alias[text()="{alias}"]'] *)
Definition alias_xpath (alias : string) : string :=
  String.append "targets/target/alias[text()="
    (String dquote (String.append alias (String dquote "]"))).

Definition no_target_message (alias : string) : string :=
  String.append "No targets with alias "
    (String.append alias " found in project manifest file project.ptx.").

(** [matches[0]] *)
Definition first_item {A : Type} (l : list A) : outcome A :=
  match l with
  | x :: _ => Returns x
  | [] => Raises IndexError
  end.

(** [target_xml(alias, dirpath)]: the value returned and the records
    logged. [dirpath] is not used by the body: each [project_xml()] is
    called without argument. *)
Definition target_xml (alias : option string) (dirpath : string)
  : outcome (option element) * list log_record :=
  match alias with
  | None => (bind (project_xml import_cwd) (fun doc =>
               Returns (find "targets/target" doc)), [])
  | Some a =>
      let xpath_ := alias_xpath a in
      match bind (project_xml import_cwd) (xpath xpath_) with
      | Returns matches =>
          if (List.length matches =? 0)%nat
          then (Returns None, [(INFO, no_target_message a)])
          else (bind (project_xml import_cwd) (fun doc =>
                bind (xpath xpath_ doc) (fun again =>
                bind (first_item again) (fun n =>
                Returns (getparent n)))), [])
      | Raises e => (Raises e, [])
      | Uninterpreted => (Uninterpreted, [])
      end
  end.

(** [x.text.strip()] for [x] the result of a [find]. *)
Definition text_strip (x : option element) : outcome string :=
  match x with
  | None => Raises (AttributeError "'NoneType' object has no attribute 'text'")
  | Some e =>
      match text e with
      | None => Raises (AttributeError "'NoneType' object has no attribute 'strip'")
      | Some t => Returns (strip t)
      end
  end.

(** [update_from_project_xml(xpath, default)]. The path is the caller's:
    [project_xml().find(xpath)] is [find_path]. *)
Definition update_from_project_xml (xpath_ : string) (default : option string)
  : outcome (option string) :=
  bind (project_xml import_cwd) (fun doc =>
    bind (find_path xpath_ doc) (fun found =>
      match found with
      | Some custom => bind (text_strip (Some custom)) (fun t => Returns (Some t))
      | None => Returns default
      end)).

End ManifestStore.

(** *** [working_directory] *)

(** The process state that [os.getcwd] and [os.chdir] touch. A directory
    is named by the path that [os.getcwd] reports for it; [enterable]
    tells which paths [os.chdir] accepts at the moment. *)
Record process : Type := Process {
  cwd : string;
  enterable : string -> bool
}.

Definition getcwd (p : process) : string := cwd p.

Definition chdir (path : string) (p : process) : outcome unit * process :=
  if enterable p path
  then (Returns tt, Process path (enterable p))
  else (Raises (FileNotFoundError path), p).

(** [with working_directory(path): body]. The body is any code: it
    returns or raises, and leaves the process in a state of its choice.
    An exception raised by the [finally] clause replaces the body's. *)
Definition working_directory {A : Type} (path : string)
    (body : process -> outcome A * process) (p : process)
  : outcome A * process :=
  let current_directory := getcwd p in
  match chdir path p with
  | (Returns _, p1) =>
      let '(result, p2) := body p1 in
      match chdir current_directory p2 with
      | (Returns _, p3) => (result, p3)
      | (Raises e, p3) => (Raises e, p3)
      | (Uninterpreted, p3) => (Uninterpreted, p3)
      end
  | (Raises e, p1) => (Raises e, p1)
  | (Uninterpreted, p1) => (Uninterpreted, p1)
  end.

(** *** The preview server *)

(** What a handler writes to its socket. *)
Inductive wire : Type :=
| StatusLine (code : nat)
| HeaderLine (keyword value : string)
| EndOfHeaders
| Body (data : string).

(** The state of one [BaseHTTPRequestHandler] while it answers a
    request: [request_version] as [handle_one_request] and
    [parse_request] left it, [_headers_buffer], and what was written to
    [wfile]. *)
Record handler : Type := Handler {
  request_version : string;
  headers_buffer : list wire;
  wfile : list wire
}.

Definition buffer (x : wire) (h : handler) : handler :=
  Handler (request_version h) (headers_buffer h ++ [x]) (wfile h).

Definition is_http09 (h : handler) : bool :=
  String.eqb (request_version h) "HTTP/0.9".

(** [BaseHTTPRequestHandler.send_response_only]:
    [if self.request_version != 'HTTP/0.9': self._headers_buffer.append(...)] *)
Definition send_response_only (code : nat) (h : handler) : handler :=
  if is_http09 h then h else buffer (StatusLine code) h.

(** [BaseHTTPRequestHandler.send_header], under the same test. *)
Definition send_header (keyword value : string) (h : handler) : handler :=
  if is_http09 h then h else buffer (HeaderLine keyword value) h.

(** [BaseHTTPRequestHandler.flush_headers] *)
Definition flush_headers (h : handler) : handler :=
  Handler (request_version h) [] (wfile h ++ headers_buffer h).

(** [BaseHTTPRequestHandler.end_headers], which [SimpleHTTPRequestHandler]
    inherits:
    [if self.request_version != 'HTTP/0.9':
         self._headers_buffer.append(b"\r\n"); self.flush_headers()] *)
Definition base_end_headers (h : handler) : handler :=
  if is_http09 h then h else flush_headers (buffer EndOfHeaders h).

(** [RequestHandler.send_my_headers], in [serve_forever]. *)
Definition send_my_headers (h : handler) : handler :=
  let h1 := send_header "Cache-Control" "no-cache, no-store, must-revalidate" h in
  let h2 := send_header "Pragma" "no-cache" h1 in
  send_header "Expires" "0" h2.

(** [RequestHandler.end_headers], in [serve_forever]. *)
Definition end_headers (h : handler) : handler :=
  base_end_headers (send_my_headers h).

(** What the base classes decide to answer: the status code, their own
    headers and the body. *)
Record reply : Type := Reply {
  status : nat;
  server_string : string;
  date_string : string;
  own_headers : list (string * string);
  payload : string
}.

(** [BaseHTTPRequestHandler.send_response] *)
Definition send_response (r : reply) (h : handler) : handler :=
  send_header "Date" (date_string r)
    (send_header "Server" (server_string r) (send_response_only (status r) h)).

(** The head of every response that [http.server] writes, be it for a
    file, a directory listing, a redirect or an error page:
    [send_response], the headers of the base classes, then
    [self.end_headers()], the method of the class in use. *)
Definition announce (r : reply) (h : handler) : handler :=
  let h1 := send_response r h in
  let h2 := fold_left (fun acc kv => send_header (fst kv) (snd kv) acc) (own_headers r) h1 in
  end_headers h2.

(** [self.wfile.write(data)]; a body of no byte is written as such. *)
Definition write_body (data : string) (h : handler) : handler :=
  Handler (request_version h) (headers_buffer h) (wfile h ++ [Body data]).

(** The head, then the body. *)
Definition respond (r : reply) (h : handler) : handler :=
  write_body (payload r) (announce r h).

(** *** Reading the request *)

(** What the handler reads from the socket: the first line, decoded as
    ISO-8859-1, and whether [http.client.parse_headers] accepts the
    lines that follow it. *)
Record request : Type := Request {
  raw_requestline : string;
  headers_accepted : bool
}.

(** The errors that [handle_one_request] and [parse_request] answer
    through [send_error]: 414, 400, 505, 400, 400, 431 and 501. *)
Inductive refusal : Type :=
| RequestUriTooLong
| BadRequestVersion (version : string)
| InvalidHTTPVersion (base_version_number : string)
| BadRequestSyntax (requestline : string)
| BadHTTP09RequestType (command : string)
| RequestHeaderFieldsTooLarge
| UnsupportedMethod (command : string).

(** How [parse_request] ends: without a word on the line it returns
    [False] and nothing is sent; it sends an error, with
    [request_version] and [command] as they are at that point; or it
    returns [True]. *)
Inductive parsed : Type :=
| NoWords
| Refused (version : string) (command : option string) (why : refusal)
| Accepted (version command path : string).

(** [len(self.raw_requestline) > 65536] *)
Definition too_long (req : request) : bool :=
  65536 <? Z.of_nat (String.length (raw_requestline req)).

(** [BaseHTTPRequestHandler.default_request_version] *)
Definition default_request_version : string := "HTTP/0.9".

(** [(a, b) >= (c, d)] on pairs of integers. *)
Definition pair_ge (x y : Z * Z) : bool :=
  (fst y <? fst x) || ((fst x =? fst y) && (snd y <=? snd x)).

Section Server.

(** [int(s)] on a string; [None] stands for its [ValueError]. *)
Variable int : string -> option Z.

(** What [SimpleHTTPRequestHandler.send_head] answers for a path under
    the served directory, and what [send_error] puts together for an
    error: the status code, the headers of the base classes and the
    body. *)
Variable site : string -> reply.
Variable error_page : refusal -> reply.

(** The [try] block of [parse_request]:
    [if not version.startswith('HTTP/'): raise ValueError
     base_version_number = version.split('/', 1)[1]
     version_number = base_version_number.split(".")
     if len(version_number) != 2: raise ValueError
     version_number = int(version_number[0]), int(version_number[1])]
    with [None] for the [ValueError]. *)
Definition version_number (version : string) : option (string * (Z * Z)) :=
  if negb (String.prefix "HTTP/" version) then None
  else
    match cut "/" version with
    | None => None
    | Some (_, base_version_number) =>
        match split "." base_version_number with
        | [major; minor] =>
            match int major, int minor with
            | Some a, Some b => Some (base_version_number, (a, b))
            | _, _ => None
            end
        | _ => None
        end
    end.

(** [BaseHTTPRequestHandler.parse_request]. [close_connection] and the
    [Expect] header are left out: the class answers [100 Continue] only
    when its [protocol_version] is at least "HTTP/1.1", and it is
    "HTTP/1.0". *)
Definition parse_request (req : request) : parsed :=
  let requestline := rstrip_crlf (raw_requestline req) in
  let ws := words requestline in
  let n := List.length ws in
  if (n =? 0)%nat then NoWords
  else
    let checked : parsed + string :=
      if (3 <=? n)%nat
      then
        let version := List.last ws EmptyString in
        match version_number version with
        | None =>
            inl (Refused default_request_version None (BadRequestVersion version))
        | Some (base_version_number, number) =>
            if pair_ge number (2, 0)
            then inl (Refused default_request_version None
                              (InvalidHTTPVersion base_version_number))
            else inr version
        end
      else inr default_request_version in
    match checked with
    | inl refused => refused
    | inr version =>
        if negb ((2 <=? n) && (n <=? 3))%nat
        then Refused version None (BadRequestSyntax requestline)
        else
          let command := nth 0 ws EmptyString in
          let path := nth 1 ws EmptyString in
          if (n =? 2)%nat && negb (String.eqb command "GET")
          then Refused version None (BadHTTP09RequestType command)
          else
            let path' :=
              if String.prefix "//" path
              then String "/" (lstrip_char "/" path) else path in
            if headers_accepted req then Accepted version command path'
            else Refused version (Some command) RequestHeaderFieldsTooLarge
    end.

(** [BaseHTTPRequestHandler.send_error]: the head, then the body
    [if self.command != 'HEAD' and body]. *)
Definition send_error (why : refusal) (command : option string) (h : handler)
  : handler :=
  let h1 := announce (error_page why) h in
  match command with
  | Some c => if String.eqb c "HEAD" then h1 else write_body (payload (error_page why)) h1
  | None => write_body (payload (error_page why)) h1
  end.

(** [BaseHTTPRequestHandler.handle_one_request] in [RequestHandler]:
    what goes over the wire for one request. The class has [do_GET] and
    [do_HEAD], which differ by the body. *)
Definition handle (req : request) : list wire :=
  if too_long req
  then wfile (send_error RequestUriTooLong (Some EmptyString) (Handler EmptyString [] []))
  else if String.eqb (raw_requestline req) EmptyString then []
  else
    match parse_request req with
    | NoWords => []
    | Refused version command why => wfile (send_error why command (Handler version [] []))
    | Accepted version command path =>
        if String.eqb command "GET"
        then wfile (respond (site path) (Handler version [] []))
        else if String.eqb command "HEAD"
        then wfile (announce (site path) (Handler version [] []))
        else wfile (send_error (UnsupportedMethod command) (Some command)
                               (Handler version [] []))
    end.

End Server.

Definition no_cache_headers : list wire :=
  [HeaderLine "Cache-Control" "no-cache, no-store, must-revalidate";
   HeaderLine "Pragma" "no-cache";
   HeaderLine "Expires" "0"].

Definition wire_eqb (x y : wire) : bool :=
  match x, y with
  | StatusLine a, StatusLine b => (a =? b)%nat
  | HeaderLine k v, HeaderLine k' v' => String.eqb k k' && String.eqb v v'
  | EndOfHeaders, EndOfHeaders => true
  | Body a, Body b => String.eqb a b
  | _, _ => false
  end.

(** Whether a response carries the three headers. *)
Definition has_no_cache_headers (response : list wire) : bool :=
  forallb (fun x => existsb (wire_eqb x) response) no_cache_headers.

(** The socket of [TCPServer((binding, port), RequestHandler)]. *)
Record listener : Type := Listener {
  served_directory : string;
  host : string;
  port : Z;
  allow_reuse_address : bool
}.

(** [serve_forever(directory, binding, port)]: the socket on which the
    call serves until its thread ends. *)
Definition serve_forever (directory binding : string) (port_ : Z) : listener :=
  Listener directory binding port_ true.

(** *** The rebuild handler *)

Inductive event_type : Type := Created | Modified | Deleted | Moved | Closed | Opened.

(** A [watchdog.events.FileSystemEvent]. *)
Record fs_event : Type := FsEvent {
  kind : event_type;
  src_path : string;
  is_directory : bool
}.

(** The fields that [HTMLRebuildHandler.__init__] sets. *)
Record HTMLRebuildHandler : Type := RebuildHandler {
  ptxfile : string;
  output : string;
  stringparams : gmap string string
}.

(** One call of [build.html], with the content of the mapping at the
    time of the call. *)
Record build_call : Type := BuildCall {
  call_ptxfile : string;
  call_output : string;
  call_stringparams : gmap string string
}.

Section Rebuild.

(** [os.path.abspath], which resolves against the current directory. *)
Variable abspath : string -> string.

(** [build.html] of [pretext/build.py], which is not among the sources.
    It receives the handler's own [dict], not a copy: [build_html s o d]
    is the content of that [dict] when the call returns. *)
Variable build_html : string -> string -> gmap string string -> gmap string string.

(** [HTMLRebuildHandler.__init__(self, target)] *)
Definition HTMLRebuildHandler_init (target : element) : outcome HTMLRebuildHandler :=
  bind (text_strip (find "source" target)) (fun ptxfile_ =>
  bind (text_strip (find "output-dir" target)) (fun output_ =>
  bind (text_strip (find "publication" target)) (fun pub_relpath =>
    let pub_abspath := abspath pub_relpath in
    Returns (RebuildHandler ptxfile_ output_ {[ "publisher"%string := pub_abspath ]})))).

(** The observer's thread: the handler, the records logged and the calls
    of the builder so far. *)
Record watcher : Type := Watcher {
  bound : HTMLRebuildHandler;
  watch_log : list log_record;
  builds : list build_call
}.

(** [HTMLRebuildHandler.on_any_event(self, event)] *)
Definition on_any_event (event : fs_event) (w : watcher) : watcher :=
  let self := bound w in
  let log1 := watch_log w ++ [(INFO, "Changes to source found, rebuilding target..."%string)] in
  let call := BuildCall (ptxfile self) (output self) (stringparams self) in
  let after := build_html (ptxfile self) (output self) (stringparams self) in
  Watcher (RebuildHandler (ptxfile self) (output self) after) log1 (builds w ++ [call]).

(** The observer hands every event to [on_any_event], in order. *)
Definition dispatch (events : list fs_event) (w : watcher) : watcher :=
  fold_left (fun acc ev => on_any_event ev acc) events w.

End Rebuild.

(** *** The preview session *)

Inductive thread_state : Type := Unstarted | Alive | StopRequested | Terminated.

(** The calls that [run_server] makes on threads, observer and clock. *)
Inductive call : Type :=
| StartServerThread (l : listener)
| ObserverSchedule (h : HTMLRebuildHandler) (watched : string) (recursive : bool)
| ObserverStart
| Sleep
| ObserverStop
| ObserverJoin.

(** The state that [run_server] acts on: the records logged, the calls
    made so far, the daemon thread that serves (of which no handle is
    kept) with its socket, and the observer's thread. *)
Record session : Type := Session {
  logged : list log_record;
  calls : list call;
  listening : option listener;
  server_thread : thread_state;
  observer : thread_state
}.

Definition M (A : Type) : Type := session -> outcome A * session.

Definition ret {A : Type} (a : A) : M A := fun w => (Returns a, w).

Definition lift {A : Type} (o : outcome A) : M A := fun w => (o, w).

Definition seq {A B : Type} (m : M A) (k : A -> M B) : M B :=
  fun w =>
    match m w with
    | (Returns a, w') => k a w'
    | (Raises e, w') => (Raises e, w')
    | (Uninterpreted, w') => (Uninterpreted, w')
    end.

Notation "'let*' x ':=' m 'in' k" := (seq m (fun x => k))
  (at level 10, x name, m at level 100, k at level 200).
Notation "m ';;' k" := (seq m (fun _ => k))
  (at level 100, k at level 200, right associativity).

Definition log_info (msg : string) : M unit :=
  fun w => (Returns tt,
            Session (logged w ++ [(INFO, msg)]) (calls w)
                    (listening w) (server_thread w) (observer w)).

Definition made (c : call) (w : session) : session :=
  Session (logged w) (calls w ++ [c]) (listening w) (server_thread w) (observer w).

(** [threading.Thread(target=lambda: serve_forever(...), daemon=True).start()] *)
Definition start_server_thread (l : listener) : M unit :=
  fun w => let w' := made (StartServerThread l) w in
           (Returns tt, Session (logged w') (calls w') (Some l) Alive (observer w')).

Definition set_observer (st : thread_state) (w : session) : session :=
  Session (logged w) (calls w) (listening w) (server_thread w) st.

Definition observer_schedule (h : HTMLRebuildHandler) (watched : string)
    (recursive : bool) : M unit :=
  fun w => (Returns tt, made (ObserverSchedule h watched recursive) w).

Definition observer_start : M unit :=
  fun w => (Returns tt, set_observer Alive (made ObserverStart w)).

(** [observer.stop()] asks the thread to stop and returns at once. *)
Definition observer_stop : M unit :=
  fun w => (Returns tt,
            set_observer (match observer w with
                          | Alive => StopRequested
                          | st => st
                          end) (made ObserverStop w)).

(** [observer.join()] returns when the thread has ended. *)
Definition observer_join : M unit :=
  fun w =>
    match observer w with
    | Unstarted =>
        (Raises (RuntimeError "cannot join thread before it is started"), w)
    | Alive => (Uninterpreted, made ObserverJoin w)
    | StopRequested | Terminated =>
        (Returns tt, set_observer Terminated (made ObserverJoin w))
    end.

(** [time.sleep(1)] *)
Definition sleep : M unit := fun w => (Returns tt, made Sleep w).

(** [while True: time.sleep(1)], the operator's interruption arriving
    once the loop has slept [n] times. *)
Fixpoint sleep_until_interrupted (n : nat) : M unit :=
  match n with
  | O => lift (Raises KeyboardInterrupt)
  | S k => sleep ;; sleep_until_interrupted k
  end.

(** [try: body except KeyboardInterrupt: handler] *)
Definition try_except_interrupt (body handler : M unit) : M unit :=
  fun w =>
    match body w with
    | (Raises KeyboardInterrupt, w') => handler w'
    | r => r
    end.

Section PreviewSession.

Variable fs : filesystem.
Variable import_cwd : string.
Variable abspath : string -> string.

Definition build_located (directory : string) : string :=
  String.append "Your build located at `"
    (String.append directory "` may be previewed at").

Definition watching (where_ : string) : string :=
  String.append "Watching for changes in `" (String.append where_ "` ...").

(** The first statement under [if watch_target is not None], in the
    order Python evaluates it. *)
Definition watch_path (watch_target : element) : M string :=
  let* root := lift (project_path (isfile fs) import_cwd) in
  let* source := lift (text_strip (find "source" watch_target)) in
  lift (join_opt root (dirname source)).

Definition start_watch (watch_target : element) : M unit :=
  let* path_ := watch_path watch_target in
  log_info (watching (abspath path_)) ;;
  let* event_handler := lift (HTMLRebuildHandler_init abspath watch_target) in
  observer_schedule event_handler path_ true ;;
  observer_start.

(** [run_server(directory, binding, port, url, watch_target)] *)
Definition run_server (directory binding : string) (port_ : Z) (url : string)
    (watch_target : option element) (interrupt_after : nat) : M unit :=
  log_info (build_located directory) ;;
  log_info url ;;
  log_info "Use [Ctrl]+[C] to halt the server." ;;
  start_server_thread (serve_forever directory binding port_) ;;
  match watch_target with
  | Some t => start_watch t
  | None => ret tt
  end ;;
  try_except_interrupt
    (sleep_until_interrupted interrupt_after)
    (log_info "" ;;
     log_info "Closing server..." ;;
     match watch_target with
     | Some _ => observer_stop
     | None => ret tt
     end) ;;
  match watch_target with
  | Some _ => observer_join
  | None => ret tt
  end.

(** A positional argument of a call. *)
Inductive arg : Type :=
| ArgNone
| ArgStr (s : string)
| ArgInt (n : Z)
| ArgElement (e : element).

(** The required parameters of [run_server]; none has a default. *)
Definition run_server_parameters : list string :=
  ["directory"; "binding"; "port"; "url"; "watch_target"]%string.

Definition quoted (name : string) : string :=
  String.append "'" (String.append name "'").

(** Python binds positional arguments to parameters from the left and
    raises [TypeError] when a parameter without default is left over, or
    an argument is. *)
Definition bind_positional (fname : string) (params : list string)
    (args : list arg) : outcome (list arg) :=
  if (List.length args <? List.length params)%nat then
    Raises (TypeError
      (String.append fname
        (String.append "() missing required positional arguments: "
          (String.concat ", " (map quoted (drop (List.length args) params))))))
  else if (List.length params <? List.length args)%nat then
    Raises (TypeError (String.append fname "() takes fewer positional arguments"))
  else Returns args.

Definition as_str (a : arg) : outcome string :=
  match a with
  | ArgStr s => Returns s
  | _ => Raises (TypeError "expected str")
  end.

Definition as_int (a : arg) : outcome Z :=
  match a with
  | ArgInt n => Returns n
  | _ => Raises (TypeError "expected int")
  end.

Definition as_target (a : arg) : outcome (option element) :=
  match a with
  | ArgNone => Returns None
  | ArgElement e => Returns (Some e)
  | _ => Raises (AttributeError "object has no attribute 'find'")
  end.

(** A call [utils.run_server(a1, ..., an)] with positional arguments. *)
Definition call_run_server (args : list arg) (interrupt_after : nat) : M unit :=
  let* bound_ := lift (bind_positional "run_server" run_server_parameters args) in
  match bound_ with
  | [a1; a2; a3; a4; a5] =>
      let* directory := lift (as_str a1) in
      let* binding := lift (as_str a2) in
      let* port_ := lift (as_int a3) in
      let* url := lift (as_str a4) in
      let* watch_target := lift (as_target a5) in
      run_server directory binding port_ url watch_target interrupt_after
  | _ => lift (Raises (TypeError "run_server()"))
  end.

End PreviewSession.

End Utils.

(** ** [pretext/project.py]

    The module is imported by [cli.py] but is not among the sources. What
    [cli.py] needs of it is modelled from the specification. *)

Module Project.
Import Py Lxml Utils.

(** Modelled from the spec: the attributes of a Target (section 3), under
    the keyword names that [cli.py] passes to [Target(...)]. To be
    missing in [project.py]'s terms is to be [None]. *)
Record Target : Type := MkTarget {
  name : option string;
  format : option string;
  source : option string;
  output_dir : option string;
  publication : option string;
  xsl_path : option string;
  stringparams : gmap string string;
  xml_element : option element
}.

(** Modelled from the spec: the bind policy of section 4.4, and the
    address each policy listens on. [Project.view] is missing;
    "loopback only" is rendered as the host [localhost] and "all
    interfaces" as [0.0.0.0]. *)
Inductive access_policy : Type := Public | Private.

Definition loopback : string := "localhost".
Definition all_interfaces : string := "0.0.0.0".

Definition binding_of (access : access_policy) : string :=
  match access with
  | Private => loopback
  | Public => all_interfaces
  end.

Section Resolver.

(** Modelled from the spec: the "component-specific default" of each
    field (section 4.3), which the spec does not spell out. *)
Variable default_format default_source default_output_dir
         default_publication default_xsl_path : option string.

(** Modelled from the spec: the string parameters that a manifest node
    carries (section 6 names them without giving their XML form). *)
Variable manifest_stringparams : element -> gmap string string.

(** Modelled from the spec: "structural child/text lookups" in a manifest
    node that "tolerate missing optional children" (section 6). *)
Definition manifest_value (child : string) (node : option element) : option string :=
  match node with
  | None => None
  | Some n =>
      match find child n with
      | Some e => option_map strip (text e)
      | None => None
      end
  end.

(** Modelled from the spec: "override if override is explicitly set,
    else value parsed from manifestTargetNode, else a component-specific
    default" (section 4.3). An override is explicitly set when it is not
    [None]; the empty string is a value like any other. *)
Definition resolve_field (override manifest default : option string) : option string :=
  match override with
  | Some v => Some v
  | None =>
      match manifest with
      | Some m => Some m
      | None => default
      end
  end.

(** Modelled from the spec: [Target(xml_element=..., name=..., format=...,
    source=..., output_dir=..., publication=..., stringparams=...,
    xsl_path=...)], the field-by-field merge of section 4.3; string
    parameters are merged by key, the override's entry winning. *)
Definition Target_init (xml_element_ : option element)
    (name_ format_ source_ output_dir_ publication_ : option string)
    (stringparams_ : option (gmap string string))
    (xsl_path_ : option string) : Target :=
  MkTarget
    (resolve_field name_ (manifest_value "alias" xml_element_) None)
    (resolve_field format_ (manifest_value "format" xml_element_) default_format)
    (resolve_field source_ (manifest_value "source" xml_element_) default_source)
    (resolve_field output_dir_ (manifest_value "output-dir" xml_element_)
                   default_output_dir)
    (resolve_field publication_ (manifest_value "publication" xml_element_)
                   default_publication)
    (resolve_field xsl_path_ (manifest_value "xsl" xml_element_) default_xsl_path)
    (match stringparams_ with Some o => o | None => ∅ end
       ∪ match xml_element_ with Some n => manifest_stringparams n | None => ∅ end)
    xml_element_.

Variable fs : filesystem.
Variable import_cwd : string.
Variable abspath : string -> string.

(** Modelled from the spec: the address the operator is told to open. *)
Variable preview_url : string -> Z -> string.

(** Modelled from the spec: [Project.view] (sections 4.4 and 4.6) serves
    the target's output directory on the address its bind policy selects
    and on the caller's port, watching the target when asked to. The
    build that may precede is the builder's business and is left out. *)
Definition view (node : element) (access : access_policy) (port_ : Z)
    (watch : bool) (interrupt_after : nat) : M unit :=
  let t := Target_init (Some node) None None None None None None None in
  let directory := match output_dir t with Some d => d | None => EmptyString end in
  run_server fs import_cwd abspath directory (binding_of access) port_
             (preview_url (binding_of access) port_)
             (if watch then Some node else None) interrupt_after.

End Resolver.
End Project.

(** ** [pretext/cli.py] *)

Module Cli.
Import Py Lxml Utils.

(** The options of [pretext build] as click hands them to [build]: an
    option that was not given on the command line is [None]. *)
Record build_options : Type := BuildOptions {
  opt_target : option string;
  opt_format : option string;
  opt_source : option string;
  opt_output : option string;
  opt_stringparam : list (string * string);
  opt_xsl : option string;
  opt_publication : option string;
  opt_clean : bool;
  opt_generate : option string;
  opt_webwork : bool;
  opt_diagrams : bool;
  opt_diagrams_format : string;
  opt_only_assets : bool
}.

(** How far [build] gets before it hands over to [project.generate] and
    [project.build]. *)
Inductive resolution : Type :=
| Cancelled
| TargetNotFound
| Resolved (t : Project.Target).

(** [{p[0] : p[1] for p in stringparam}]: a later pair replaces an
    earlier one with the same key. *)
Definition stringparams_of (stringparam : list (string * string))
  : option (gmap string string) :=
  if (0 <? List.length stringparam)%nat
  then Some (fold_left (fun m p => <[ fst p := snd p ]> m) stringparam ∅)
  else None.

Definition access_name (access : Project.access_policy) : string :=
  match access with
  | Project.Public => "public"
  | Project.Private => "private"
  end.

Section Commands.

Variable fs : filesystem.
Variable import_cwd : string.
Variable abspath : string -> string.

Variable default_format default_source default_output_dir
         default_publication default_xsl_path : option string.
Variable manifest_stringparams : element -> gmap string string.
Variable preview_url : string -> Z -> string.

(** [Project().target(name=...)] followed by [.xml_element()]: the node
    of the manifest that the name selects, [None] when there is none.
    Both calls are taken to return: an exception of theirs, which would
    end the command where it is raised, is not modelled. *)
Variable project_target : option string -> option element.

Definition new_target := Project.Target_init
  default_format default_source default_output_dir default_publication
  default_xsl_path manifest_stringparams.

(** [build], up to the construction of the target it builds. *)
Definition build (o : build_options) : outcome resolution * list log_record :=
  if opt_diagrams o || negb (String.eqb (opt_diagrams_format o) "defaults")
     || opt_only_assets o || opt_webwork o
  then (Returns Cancelled,
        [(ERROR, "Command used an asset option that is now obsolete. Assets are now generated with `--generate`."%string);
         (ERROR, "Cancelling build. Check `--help` for details."%string)])
  else
    let target_name := opt_target o in
    let stringparams := stringparams_of (opt_stringparam o) in
    match project_path (isfile fs) import_cwd with
    | Raises e => (Raises e, [])
    | Uninterpreted => (Uninterpreted, [])
    | Returns None =>
        (Returns (Resolved
           (new_target None (opt_format o) (opt_format o) (opt_source o)
                       (opt_output o) (opt_publication o) stringparams None)),
         [(WARNING, "No project.ptx manifest was found. Run `pretext init` to generate one."%string);
          (WARNING, "Continuing using commandline arguments."%string)])
    | Returns (Some _) =>
        let log1 :=
          match target_name with
          | None => [(INFO, "Since no build target was supplied, the first target of the project.ptx manifest will be built."%string)]
          | Some _ => []
          end in
        match project_target target_name with
        | None =>
            (Returns TargetNotFound,
             log1 ++ [(CRITICAL, "Build target could not be found in project.ptx manifest."%string);
                      (CRITICAL, "Exiting without completing task."%string)])
        | Some node =>
            (Returns (Resolved
               (new_target (Some node) None (opt_format o) (opt_source o)
                           (opt_output o) (opt_publication o) stringparams
                           (opt_xsl o))),
             log1)
        end
    end.

Definition log_error (msg : string) : M unit :=
  fun w => (Returns tt,
            Session (logged w ++ [(ERROR, msg)]) (calls w)
                    (listening w) (server_thread w) (observer w)).

Definition target_missing (target_name : option string) : string :=
  String.append "Target `"
    (String.append (match target_name with Some n => n | None => "None" end)
                   "` could not be found.").

(** [view] *)
Definition view (target : option string) (access : Project.access_policy)
    (port_ : Z) (directory : option string) (watch build_ : bool)
    (interrupt_after : nat) : M unit :=
  let target_name := target in
  match directory with
  | Some d =>
      call_run_server fs import_cwd abspath
        [ArgStr d; ArgStr (access_name access); ArgInt port_] interrupt_after
  | None =>
      match project_target target_name with
      | Some node =>
          Project.view default_format default_source default_output_dir
            default_publication default_xsl_path manifest_stringparams
            fs import_cwd abspath preview_url node access port_ watch
            interrupt_after
      | None => log_error (target_missing target_name)
      end
  end.

End Commands.
End Cli.

(** * Properties *)

(** ** Paths: [dirname] only ever shortens *)

Module PathFacts.
Import Py PosixPath.

Definition str_prefix (a b : string) : Prop := exists t, b = a +:+ t.

Lemma app_cons (c : ascii) (a b : string) :
  String c a +:+ b = String c (a +:+ b).
Proof. reflexivity. Qed.

Lemma app_empty (b : string) : EmptyString +:+ b = b.
Proof. reflexivity. Qed.

Ltac str_simpl := simpl; rewrite ?app_cons, ?app_empty.

Lemma app_assoc (a b c : string) : (a +:+ b) +:+ c = a +:+ (b +:+ c).
Proof.
  induction a as [|x a IH]; str_simpl; [reflexivity|]. now rewrite IH.
Qed.

Lemma length_app (a b : string) :
  String.length (a +:+ b) = (String.length a + String.length b)%nat.
Proof.
  induction a as [|x a IH]; str_simpl; [reflexivity|]. simpl. now rewrite IH.
Qed.

Lemma str_prefix_cons (c : ascii) (a b : string) :
  str_prefix a b -> str_prefix (String c a) (String c b).
Proof. intros [t ->]. now exists t. Qed.

Lemma str_prefix_empty (b : string) : str_prefix EmptyString b.
Proof. now exists b. Qed.

Lemma str_prefix_trans (a b c : string) :
  str_prefix a b -> str_prefix b c -> str_prefix a c.
Proof. intros [t ->] [u ->]. exists (t +:+ u). apply app_assoc. Qed.

Lemma substring0_prefix (n : nat) (s : string) : str_prefix (substring 0 n s) s.
Proof.
  revert s. induction n as [|n IH]; intros [|c s]; simpl;
    auto using str_prefix_empty, str_prefix_cons.
Qed.

Lemma rstrip_char_prefix (c : ascii) (s : string) : str_prefix (rstrip_char c s) s.
Proof.
  induction s as [|a s IH]; simpl; [apply str_prefix_empty|].
  destruct (rstrip_char c s) as [|b r].
  - destruct (Ascii.eqb a c); [apply str_prefix_empty|].
    apply str_prefix_cons, str_prefix_empty.
  - now apply str_prefix_cons.
Qed.

Lemma dirname_prefix (p : string) : str_prefix (dirname p) p.
Proof.
  unfold dirname, slice_to.
  set (head := substring 0 _ p).
  assert (Hh : str_prefix head p) by apply substring0_prefix.
  destruct (_ && _); [|exact Hh].
  eapply str_prefix_trans; [apply rstrip_char_prefix | exact Hh].
Qed.

Lemma str_prefix_length (a b : string) :
  str_prefix a b ->
  (String.length a <= String.length b)%nat
  /\ (String.length a = String.length b -> a = b).
Proof.
  intros [t ->]. rewrite length_app. split; [lia|].
  intros H. assert (Ht : String.length t = O) by lia.
  destruct t; [|discriminate]. clear.
  induction a as [|c a IH]; str_simpl; [reflexivity|]. now rewrite <- IH.
Qed.

(** The measure that bounds the recursion of [project_path]. *)
Lemma dirname_shorter (p : string) :
  dirname p <> p -> (String.length (dirname p) < String.length p)%nat.
Proof.
  intros Hne. destruct (str_prefix_length _ _ (dirname_prefix p)) as [Hle Heq].
  destruct (Nat.eq_dec (String.length (dirname p)) (String.length p)) as [E|E].
  - now elim Hne; apply Heq.
  - lia.
Qed.

End PathFacts.

(** ** The manifest locator *)

Module LocatorFacts.
Import Py PosixPath Utils PathFacts.

Section Locator.
Variable isfile : string -> bool.

(** What [project_path] is meant to return from [dirpath]. *)
Definition nearest_manifest (dirpath : string) (r : option string) : Prop :=
  match r with
  | Some d =>
      exists n : nat,
        d = ascend n dirpath
        /\ has_manifest isfile d = true
        /\ forall m : nat, (m < n)%nat -> has_manifest isfile (ascend m dirpath) = false
  | None => forall n : nat, has_manifest isfile (ascend n dirpath) = false
  end.

Lemma ascend_root (dirpath : string) (n : nat) :
  dirname dirpath = dirpath -> ascend n dirpath = dirpath.
Proof.
  intros H. unfold ascend. induction n as [|n IH]; simpl; [reflexivity|].
  now rewrite IH.
Qed.

Lemma nearest_manifest_step (dirpath : string) (r : option string) :
  has_manifest isfile dirpath = false ->
  nearest_manifest (dirname dirpath) r -> nearest_manifest dirpath r.
Proof.
  intros Hno. unfold nearest_manifest, ascend. destruct r as [d|].
  - intros (n & -> & Hd & Hbelow). exists (S n).
    rewrite Nat.iter_succ_r. repeat split; [exact Hd|].
    intros [|m] Hm; [exact Hno|]. rewrite Nat.iter_succ_r. apply Hbelow. lia.
  - intros Hall [|n]; [exact Hno|]. rewrite Nat.iter_succ_r. apply Hall.
Qed.

Lemma project_path_rec_spec (depth : nat) :
  forall dirpath : string,
    (String.length dirpath < depth)%nat ->
    exists r, project_path_rec isfile depth dirpath = Returns r
              /\ nearest_manifest dirpath r.
Proof.
  induction depth as [|k IH]; intros dirpath Hlen; [lia|].
  simpl. destruct (has_manifest isfile dirpath) eqn:Hm.
  - exists (Some dirpath). split; [reflexivity|].
    exists O. repeat split; [exact Hm|]. intros m Hlt; lia.
  - destruct (String.eqb_spec (dirname dirpath) dirpath) as [Hroot|Hup].
    + exists None. split; [reflexivity|].
      intros n. now rewrite ascend_root.
    + pose proof (dirname_shorter _ Hup) as Hshort.
      destruct (IH (dirname dirpath)) as (r & Hr & Hspec); [lia|].
      exists r. split; [exact Hr|]. now apply nearest_manifest_step.
Qed.

(** More frames than needed never change the result. *)
Lemma project_path_rec_mono (depth : nat) :
  forall (dirpath : string) (r : option string) (extra : nat),
    project_path_rec isfile depth dirpath = Returns r ->
    project_path_rec isfile (depth + extra) dirpath = Returns r.
Proof.
  induction depth as [|k IH]; intros dirpath r extra; [discriminate|].
  simpl. destruct (has_manifest isfile dirpath); [trivial|].
  destruct (String.eqb _ _); [trivial|]. apply IH.
Qed.

End Locator.
End LocatorFacts.

(** ** Absolute paths in normal form *)

Module Rooted.
Import Py PosixPath.

(** One component of a path in normal form: a name that is not empty,
    holds no slash, and is neither [.] nor [..]. *)
Definition is_component (c : string) : bool :=
  negb (String.eqb c EmptyString) && negb (contains sep c)
  && negb (String.eqb c ".") && negb (String.eqb c "..").

(** The components, each behind one slash. *)
Fixpoint slashed (components : list string) : string :=
  match components with
  | [] => EmptyString
  | c :: rest => String sep (c +:+ slashed rest)
  end.

(** The absolute path of the directory that is reached from the root
    through [components], one directory after the other: [/] for the
    root. Its ancestors, itself included, are the directories reached
    through the leading parts of [components]. *)
Definition rooted (components : list string) : string :=
  match components with
  | [] => String sep EmptyString
  | _ => slashed components
  end.

(** The path at which the system looks for [p] on behalf of a process
    whose working directory is [cwd]. *)
Definition resolve (cwd p : string) : string :=
  if startswith sep p then p else join cwd p.

(** [os.path.isfile] in a process whose working directory is [cwd], on a
    disk whose files are given by their absolute paths. *)
Definition seen_from (cwd : string) (files : string -> bool) (p : string) : bool :=
  files (resolve cwd p).

End Rooted.

Module RootedFacts.
Import Py PosixPath Utils PathFacts Rooted.

Lemma app_empty_r (a : string) : a +:+ EmptyString = a.
Proof. induction a as [|x a IH]; str_simpl; [reflexivity | now rewrite IH]. Qed.

Lemma rfind_absent (c : ascii) (s : string) :
  contains c s = false -> rfind c s = -1.
Proof.
  induction s as [|a s IH]; simpl; [reflexivity|].
  intros H. apply orb_false_iff in H as [Ha Hs].
  rewrite (IH Hs), Ha. reflexivity.
Qed.

(** The last slash of a path whose last component holds none. *)
Lemma rfind_last_sep (pre c : string) :
  contains sep c = false ->
  rfind sep (pre +:+ String sep c) = Z.of_nat (String.length pre).
Proof.
  intros Hc. induction pre as [|a pre IH]; str_simpl.
  - simpl. rewrite (rfind_absent _ _ Hc). reflexivity.
  - simpl rfind. rewrite IH.
    destruct (0 <=? Z.of_nat (String.length pre)) eqn:E; [simpl String.length; lia|].
    apply Z.leb_gt in E. lia.
Qed.

Lemma substring_prefix (pre rest : string) :
  substring 0 (String.length pre) (pre +:+ rest) = pre.
Proof.
  induction pre as [|a pre IH]; str_simpl.
  - destruct rest; reflexivity.
  - simpl. now rewrite IH.
Qed.

Lemma slice_past_sep (pre c : string) :
  slice_to (Z.of_nat (String.length pre) + 1) (pre +:+ String sep c)
  = pre +:+ String sep EmptyString.
Proof.
  unfold slice_to.
  replace (Z.to_nat (Z.of_nat (String.length pre) + 1))
    with (String.length (pre +:+ String sep EmptyString))
    by (rewrite length_app; simpl; lia).
  replace (pre +:+ String sep c)
    with ((pre +:+ String sep EmptyString) +:+ c)
    by (now rewrite app_assoc, app_cons, app_empty).
  apply substring_prefix.
Qed.

Lemma rstrip_char_str_mul (c : ascii) (n : nat) :
  rstrip_char c (str_mul c n) = EmptyString.
Proof.
  induction n as [|n IH]; simpl; [reflexivity|].
  now rewrite IH, Ascii.eqb_refl.
Qed.

Lemma rstrip_char_cons (c a : ascii) (s : string) :
  rstrip_char c (String a s)
  = match rstrip_char c s with
    | EmptyString => if Ascii.eqb a c then EmptyString else String a EmptyString
    | r => String a r
    end.
Proof. reflexivity. Qed.

Lemma rstrip_char_sep_after (pre : string) :
  pre <> EmptyString -> endswith sep pre = false ->
  rstrip_char sep (pre +:+ String sep EmptyString) = pre.
Proof.
  induction pre as [|a pre IH]; [congruence|]. intros _ Hend.
  rewrite app_cons. destruct pre as [|b pre'].
  - rewrite app_empty. simpl in *. now rewrite Hend.
  - change (endswith sep (String b pre') = false) in Hend.
    rewrite rstrip_char_cons, IH by (discriminate || exact Hend).
    reflexivity.
Qed.

(** [dirname] takes the last component off. *)
Lemma dirname_child (pre c : string) :
  contains sep c = false -> pre <> EmptyString -> endswith sep pre = false ->
  dirname (pre +:+ String sep c) = pre.
Proof.
  intros Hc Hne Hend. unfold dirname.
  rewrite (rfind_last_sep _ _ Hc), slice_past_sep.
  pose proof (rstrip_char_sep_after pre Hne Hend) as Hstrip.
  destruct (String.eqb_spec (pre +:+ String sep EmptyString)
              (str_mul sep (String.length (pre +:+ String sep EmptyString))))
    as [E|_].
  - rewrite E, rstrip_char_str_mul in Hstrip. congruence.
  - destruct (String.eqb_spec (pre +:+ String sep EmptyString) EmptyString) as [E|_].
    + destruct pre; discriminate.
    + exact Hstrip.
Qed.

Lemma dirname_top (c : string) :
  contains sep c = false -> dirname (String sep c) = String sep EmptyString.
Proof.
  intros Hc. unfold dirname.
  pose proof (rfind_last_sep EmptyString c Hc) as H. rewrite app_empty in H.
  pose proof (slice_past_sep EmptyString c) as Hs. rewrite !app_empty in Hs.
  rewrite H, Hs. reflexivity.
Qed.

Lemma endswith_app (x : ascii) (a b : string) :
  b <> EmptyString -> endswith x (a +:+ b) = endswith x b.
Proof.
  intros Hb. induction a as [|y a IH]; str_simpl; [reflexivity|].
  simpl. rewrite IH. destruct (a +:+ b) eqn:E; [|reflexivity].
  destruct a; [now rewrite app_empty in E | discriminate].
Qed.

Lemma endswith_absent (x : ascii) (c : string) :
  contains x c = false -> endswith x c = false.
Proof.
  induction c as [|a c IH]; simpl; [reflexivity|]. intros H.
  apply orb_false_iff in H as [Ha Hc]. destruct c; [exact Ha | now apply IH].
Qed.

Definition named (c : string) : Prop :=
  c <> EmptyString /\ contains sep c = false.

Lemma is_component_named (c : string) : is_component c = true -> named c.
Proof.
  unfold is_component. intros H.
  apply andb_true_iff in H as [H _]. apply andb_true_iff in H as [H _].
  apply andb_true_iff in H as [Hne Hc].
  apply negb_true_iff in Hne, Hc. split; [|exact Hc].
  intros ->. discriminate.
Qed.

Lemma slashed_snoc (cs : list string) (c : string) :
  slashed (cs ++ [c]) = slashed cs +:+ String sep c.
Proof.
  induction cs as [|d cs IH]; simpl.
  - now rewrite app_empty_r.
  - rewrite IH, app_cons. now rewrite app_assoc.
Qed.

Lemma slashed_end (cs : list string) :
  cs <> [] -> Forall named cs ->
  slashed cs <> EmptyString /\ endswith sep (slashed cs) = false.
Proof.
  intros Hne Hall. split; [destruct cs; [congruence | discriminate]|].
  induction Hall as [|c cs [Hc Hs] Hrest IH]; [congruence|].
  simpl slashed. destruct cs as [|d cs'].
  - simpl slashed. rewrite app_empty_r.
    destruct c as [|a c']; [congruence|].
    change (endswith sep (String a c') = false). now apply endswith_absent.
  - rewrite <- app_cons, endswith_app by discriminate.
    apply IH. discriminate.
Qed.

Lemma rooted_snoc (cs : list string) (c : string) :
  rooted (cs ++ [c]) = slashed cs +:+ String sep c.
Proof.
  rewrite <- slashed_snoc. unfold rooted.
  destruct (cs ++ [c]) eqn:E; [|reflexivity]. now destruct cs.
Qed.

(** The parent of a directory is reached through all components but
    the last. *)
Lemma dirname_rooted (cs : list string) (c : string) :
  Forall named cs -> named c -> dirname (rooted (cs ++ [c])) = rooted cs.
Proof.
  intros Hcs [_ Hc]. rewrite rooted_snoc. destruct cs as [|d cs'].
  - simpl. now apply dirname_top.
  - destruct (slashed_end (d :: cs')) as [Hne Hend]; [discriminate | exact Hcs |].
    now apply dirname_child.
Qed.

(** A file directly in a directory. *)
Lemma join_rooted (cs : list string) (name : string) :
  Forall named cs -> startswith sep name = false ->
  join (rooted cs) name = rooted (cs ++ [name]).
Proof.
  intros Hcs Hname. rewrite rooted_snoc. unfold join. rewrite Hname.
  destruct cs as [|d cs'].
  - reflexivity.
  - destruct (slashed_end (d :: cs')) as [Hne Hend]; [discriminate | exact Hcs |].
    unfold rooted. rewrite Hend. reflexivity.
Qed.

(** The ascent of [project_path] from a path in normal form goes through
    the ancestors of the directory, one level at a time, and stays at
    the root. *)
Lemma ascend_rooted (cs : list string) :
  Forall named cs ->
  forall n : nat, ascend n (rooted cs) = rooted (take (List.length cs - n) cs).
Proof.
  induction cs as [|c cs IH] using rev_ind; intros Hcs n.
  - simpl. now apply LocatorFacts.ascend_root.
  - apply Forall_app in Hcs as [Hcs Hc]. inversion Hc as [|? ? Hc' _]; subst.
    rewrite List.length_app. simpl List.length. destruct n as [|n].
    + replace (List.length cs + 1 - 0)%nat with (List.length (cs ++ [c]))
        by (rewrite List.length_app; simpl; lia).
      now rewrite firstn_all.
    + unfold ascend. rewrite Nat.iter_succ_r.
      rewrite (dirname_rooted _ _ Hcs Hc').
      fold (ascend n (rooted cs)). rewrite (IH Hcs).
      replace (List.length cs + 1 - S n)%nat with (List.length cs - n)%nat by lia.
      rewrite take_app_le by lia. reflexivity.
Qed.

End RootedFacts.

Import Py PosixPath Utils.

(** A disk whose only manifest is [/home/author/book/project.ptx]. *)
Definition manifest_in_book (p : string) : bool :=
  String.eqb p "/home/author/book/project.ptx".

(** C2, as stated, fails: a start that is not an absolute path is not
    looked up above the working directory. In a process that works in
    [/home/author/book/source], the directory [docs] is
    [/home/author/book/source/docs], and its ancestor
    [/home/author/book] holds the manifest; [project_path] tests
    [docs/project.ptx] and [project.ptx], then meets the empty string,
    which is its own [dirname], and answers [None]. *)
Lemma project_path_misses_ancestors_of_relative_start :
  project_path (Rooted.seen_from "/home/author/book/source" manifest_in_book) "docs"
  = Returns None
  /\ Rooted.resolve "/home/author/book/source" "docs"
     = Rooted.rooted ["home"; "author"; "book"; "source"; "docs"]%string
  /\ manifest_in_book
       (Rooted.rooted (take 3 ["home"; "author"; "book"; "source"; "docs"]%string
                       ++ ["project.ptx"%string])) = true.
Proof. repeat split. Qed.

(** C2, amended. From every absolute starting directory in normal form,
    given by the components that lead to it from the root,
    [project_path] returns: it yields the nearest ancestor of the
    directory, itself included, that has the file [project.ptx] directly
    in it, no directory between the two having it; it yields Python's
    [None] when no ancestor has it, the root included. *)
Theorem project_path_nearest_ancestor_of_absolute_start :
  forall (isfile : string -> bool) (components : list string),
    forallb Rooted.is_component components = true ->
    exists r : option string,
      project_path isfile (Rooted.rooted components) = Returns r
      /\ match r with
         | Some d =>
             exists k : nat,
               (k <= List.length components)%nat
               /\ d = Rooted.rooted (take k components)
               /\ isfile (Rooted.rooted (take k components ++ ["project.ptx"%string]))
                  = true
               /\ forall j : nat,
                    (k < j <= List.length components)%nat ->
                    isfile (Rooted.rooted (take j components ++ ["project.ptx"%string]))
                    = false
         | None =>
             forall j : nat,
               (j <= List.length components)%nat ->
               isfile (Rooted.rooted (take j components ++ ["project.ptx"%string]))
               = false
         end.
Proof.
  intros isfile components Hvalid.
  assert (Hnamed : Forall RootedFacts.named components).
  { apply List.Forall_forall. intros c Hin. apply RootedFacts.is_component_named.
    rewrite forallb_forall in Hvalid. now apply Hvalid. }
  assert (Hlevel : forall n : nat,
             has_manifest isfile (ascend n (Rooted.rooted components))
             = isfile (Rooted.rooted
                         (take (List.length components - n) components
                          ++ ["project.ptx"%string]))).
  { intros n. unfold has_manifest, manifest_name.
    rewrite (RootedFacts.ascend_rooted _ Hnamed).
    apply f_equal, RootedFacts.join_rooted; [|reflexivity].
    apply Forall_take. exact Hnamed. }
  destruct (LocatorFacts.project_path_rec_spec isfile
              (S (String.length (Rooted.rooted components)))
              (Rooted.rooted components)) as (r & Hr & Hspec); [lia|].
  exists r. split; [exact Hr|]. destruct r as [d|].
  - destruct Hspec as (n & Hd & Hm & Hbelow).
    assert (Hn : (n <= List.length components)%nat).
    { destruct (Nat.le_gt_cases n (List.length components)) as [Hle|Hgt]; [exact Hle|].
      specialize (Hbelow (List.length components) Hgt).
      rewrite Hd, Hlevel in Hm. rewrite Hlevel in Hbelow.
      replace (List.length components - n)%nat
        with (List.length components - List.length components)%nat in Hm by lia.
      congruence. }
    exists (List.length components - n)%nat.
    split; [lia|]. split; [|split].
    + rewrite Hd. now apply RootedFacts.ascend_rooted.
    + rewrite Hd, Hlevel in Hm. exact Hm.
    + intros j Hj.
      specialize (Hbelow (List.length components - j)%nat ltac:(lia)).
      rewrite Hlevel in Hbelow.
      replace (List.length components - (List.length components - j))%nat
        with j in Hbelow by lia.
      exact Hbelow.
  - intros j Hj. specialize (Hspec (List.length components - j)%nat).
    rewrite Hlevel in Hspec.
    replace (List.length components - (List.length components - j))%nat
      with j in Hspec by lia.
    exact Hspec.
Qed.

Definition manifest_in_source (p : string) : bool :=
  String.eqb p "/home/author/book/source/project.ptx"
  || String.eqb p "/home/project.ptx".

Lemma project_path_nearest_ancestor_of_absolute_start_witness :
  exists r : option string,
    project_path manifest_in_source
      (Rooted.rooted ["home"; "author"; "book"; "source"; "ch1"; "figures"]%string)
    = Returns r
    /\ match r with
       | Some d =>
           exists k : nat,
             (k <= 6)%nat
             /\ d = Rooted.rooted
                      (take k ["home"; "author"; "book"; "source"; "ch1"; "figures"]%string)
             /\ manifest_in_source
                  (Rooted.rooted
                     (take k ["home"; "author"; "book"; "source"; "ch1"; "figures"]%string
                      ++ ["project.ptx"%string])) = true
             /\ forall j : nat,
                  (k < j <= 6)%nat ->
                  manifest_in_source
                    (Rooted.rooted
                       (take j ["home"; "author"; "book"; "source"; "ch1"; "figures"]%string
                        ++ ["project.ptx"%string])) = false
       | None =>
           forall j : nat,
             (j <= 6)%nat ->
             manifest_in_source
               (Rooted.rooted
                  (take j ["home"; "author"; "book"; "source"; "ch1"; "figures"]%string
                   ++ ["project.ptx"%string])) = false
       end.
Proof.
  exact (project_path_nearest_ancestor_of_absolute_start manifest_in_source
           ["home"; "author"; "book"; "source"; "ch1"; "figures"]%string eq_refl).
Defined.

(** ** The context manager *)

Import Lxml.

(** A body that removes the directory the block was entered from, then
    returns. *)
Definition remove_home (p : process) : outcome unit * process :=
  (Returns tt,
   Process (cwd p) (fun d => negb (String.eqb d "/home/author/book") && enterable p d)).

Definition at_home : process := Process "/home/author/book" (fun _ => true).

(** C10, as stated, fails: when the body removes the directory recorded
    on entry, [os.chdir] in the [finally] clause raises and the process
    stays in the directory of the block. *)
Lemma working_directory_not_restored_when_removed :
  working_directory "/tmp" remove_home at_home
  = (Raises (FileNotFoundError "/home/author/book"),
     Process "/tmp" (fun d => negb (String.eqb d "/home/author/book") && true))
  /\ cwd (snd (working_directory "/tmp" remove_home at_home)) <> cwd at_home.
Proof. split; [reflexivity | discriminate]. Qed.

(** C10, amended. For every path and every body: when [path] cannot be
    entered the body does not run and the process is left as it was;
    otherwise, when the directory recorded on entry can still be entered
    as the block is left, the current directory afterwards is the recorded
    one and the block ends as the body did, whether the body returned or
    raised. *)
Theorem working_directory_restores :
  forall (A : Type) (path : string) (body : process -> outcome A * process)
         (p : process),
    (enterable p path = false ->
       working_directory path body p = (Raises (FileNotFoundError path), p))
    /\ (enterable p path = true ->
        enterable (snd (body (Process path (enterable p)))) (cwd p) = true ->
        cwd (snd (working_directory path body p)) = cwd p
        /\ fst (working_directory path body p)
           = fst (body (Process path (enterable p)))).
Proof.
  intros A path_ body p. unfold working_directory, chdir, getcwd. split.
  - intros ->. reflexivity.
  - intros -> Hback. destruct (body _) as [result p2]. simpl in *.
    rewrite Hback. split; reflexivity.
Qed.

(** A body that raises after moving elsewhere. *)
Definition wander_and_fail (p : process) : outcome nat * process :=
  (Raises (RuntimeError "build failed"), Process "/var/tmp" (enterable p)).

Lemma working_directory_restores_witness :
  cwd (snd (working_directory "/tmp" wander_and_fail at_home)) = cwd at_home
  /\ fst (working_directory "/tmp" wander_and_fail at_home)
     = Raises (RuntimeError "build failed").
Proof.
  exact (proj2 (working_directory_restores nat "/tmp" wander_and_fail at_home)
               eq_refl eq_refl).
Defined.

(** ** The preview server's responses *)

Module HttpFacts.
Import Py Utils.

(** The head of a response under a version other than HTTP/0.9. *)
Definition head_of (r : reply) : list wire :=
  StatusLine (status r)
    :: HeaderLine "Server" (server_string r)
    :: HeaderLine "Date" (date_string r)
    :: map (fun kv => HeaderLine (fst kv) (snd kv)) (own_headers r)
    ++ no_cache_headers ++ [EndOfHeaders].

Section Versioned.

Variable ver : string.
Hypothesis Hver : String.eqb ver "HTTP/0.9" = false.

Lemma send_header_versioned (k v : string) (buf out : list wire) :
  send_header k v (Handler ver buf out) = Handler ver (buf ++ [HeaderLine k v]) out.
Proof. unfold send_header, is_http09. simpl. now rewrite Hver. Qed.

Lemma send_response_only_versioned (code : nat) (buf out : list wire) :
  send_response_only code (Handler ver buf out)
  = Handler ver (buf ++ [StatusLine code]) out.
Proof. unfold send_response_only, is_http09. simpl. now rewrite Hver. Qed.

Lemma base_end_headers_versioned (buf out : list wire) :
  base_end_headers (Handler ver buf out)
  = Handler ver [] (out ++ buf ++ [EndOfHeaders]).
Proof. unfold base_end_headers, is_http09. simpl. now rewrite Hver. Qed.

Lemma fold_send_header_versioned (hs : list (string * string)) :
  forall buf out : list wire,
    fold_left (fun acc kv => send_header (fst kv) (snd kv) acc) hs
              (Handler ver buf out)
    = Handler ver (buf ++ map (fun kv => HeaderLine (fst kv) (snd kv)) hs) out.
Proof.
  induction hs as [|[k v] hs IH]; intros buf out; simpl.
  - now rewrite app_nil_r.
  - rewrite send_header_versioned, IH. simpl. now rewrite <- app_assoc.
Qed.

Lemma end_headers_versioned (buf out : list wire) :
  end_headers (Handler ver buf out)
  = Handler ver [] (out ++ buf ++ no_cache_headers ++ [EndOfHeaders]).
Proof.
  unfold end_headers, send_my_headers.
  rewrite !send_header_versioned, base_end_headers_versioned.
  unfold no_cache_headers. now rewrite <- !app_assoc.
Qed.

Lemma announce_versioned (r : reply) :
  announce r (Handler ver [] []) = Handler ver [] (head_of r).
Proof.
  unfold announce, send_response, head_of.
  destruct r as [code srv date hs body]. simpl.
  rewrite send_response_only_versioned, !send_header_versioned.
  rewrite fold_send_header_versioned, end_headers_versioned. simpl.
  rewrite <- ?app_assoc. reflexivity.
Qed.

End Versioned.

Lemma fold_send_header_http09 (hs : list (string * string)) :
  forall buf out : list wire,
    fold_left (fun acc kv => send_header (fst kv) (snd kv) acc) hs
              (Handler "HTTP/0.9" buf out)
    = Handler "HTTP/0.9" buf out.
Proof. induction hs as [|[k v] hs IH]; intros buf out; simpl; [reflexivity | apply IH]. Qed.

Lemma announce_http09 (r : reply) (buf out : list wire) :
  announce r (Handler "HTTP/0.9" buf out) = Handler "HTTP/0.9" buf out.
Proof.
  unfold announce, send_response. destruct r as [code srv date hs body]. simpl.
  change (send_header "Date" date
            (send_header "Server" srv
               (send_response_only code (Handler "HTTP/0.9" buf out))))
    with (Handler "HTTP/0.9" buf out).
  rewrite fold_send_header_http09. reflexivity.
Qed.

(** What [announce] writes, by the version. *)
Lemma announce_by_version (v : string) (r : reply) :
  announce r (Handler v [] [])
  = Handler v [] (if String.eqb v "HTTP/0.9" then [] else head_of r).
Proof.
  destruct (String.eqb_spec v "HTTP/0.9") as [->|Hv].
  - apply announce_http09.
  - apply announce_versioned. now apply String.eqb_neq.
Qed.

Lemma head_has_no_cache_headers (r : reply) (rest : list wire) :
  has_no_cache_headers (head_of r ++ rest) = true.
Proof.
  unfold has_no_cache_headers, head_of, no_cache_headers.
  simpl forallb. rewrite !andb_true_r.
  simpl app. simpl existsb. rewrite !existsb_app. simpl.
  rewrite !orb_true_r. reflexivity.
Qed.

Lemma headers_by_version (v : string) (r : reply) (rest : list wire) :
  has_no_cache_headers rest = false ->
  has_no_cache_headers ((if String.eqb v "HTTP/0.9" then [] else head_of r) ++ rest)
  = negb (String.eqb v "HTTP/0.9").
Proof.
  intros Hrest. destruct (String.eqb v "HTTP/0.9"); simpl negb.
  - exact Hrest.
  - apply head_has_no_cache_headers.
Qed.

Section Sent.

Variable int : string -> option Z.
Variable site : string -> reply.
Variable error_page : refusal -> reply.

Lemma announce_sent (v : string) (r : reply) :
  has_no_cache_headers (wfile (announce r (Handler v [] [])))
  = negb (String.eqb v "HTTP/0.9").
Proof.
  rewrite announce_by_version. simpl wfile.
  rewrite <- (app_nil_r (if String.eqb v "HTTP/0.9" then [] else head_of r)).
  now apply headers_by_version.
Qed.

Lemma respond_sent (v : string) (r : reply) :
  has_no_cache_headers (wfile (respond r (Handler v [] [])))
  = negb (String.eqb v "HTTP/0.9").
Proof.
  unfold respond, write_body. rewrite announce_by_version. simpl wfile.
  now apply headers_by_version.
Qed.

Lemma send_error_sent (v : string) (why : refusal) (command : option string) :
  has_no_cache_headers (wfile (send_error error_page why command (Handler v [] [])))
  = negb (String.eqb v "HTTP/0.9").
Proof.
  unfold send_error.
  destruct command as [c|]; [destruct (String.eqb c "HEAD")|];
    first [apply announce_sent | apply (respond_sent v (error_page why))].
Qed.

(** The request lines that state a version: at least three words, of
    which the last is [HTTP/<major>.<minor>], two integers that make a
    version below (2, 0), and is not HTTP/0.9 letter for letter. *)
Definition states_version (req : request) : bool :=
  let ws := words (rstrip_crlf (raw_requestline req)) in
  (3 <=? List.length ws)%nat
  && match version_number int (List.last ws EmptyString) with
     | Some (_, number) =>
         negb (pair_ge number (2, 0))
         && negb (String.eqb (List.last ws EmptyString) "HTTP/0.9")
     | None => false
     end.

(** The version under which [parse_request] leaves the handler. *)
Definition left_at (p : parsed) : option string :=
  match p with
  | NoWords => None
  | Refused v _ _ => Some v
  | Accepted v _ _ => Some v
  end.

Lemma parse_request_version (req : request) :
  match left_at (parse_request int req) with
  | None => states_version req = false
  | Some v => negb (String.eqb v "HTTP/0.9") = states_version req
  end.
Proof.
  unfold parse_request, states_version.
  set (ws := words (rstrip_crlf (raw_requestline req))).
  set (n := List.length ws).
  destruct (n =? 0)%nat eqn:Hn.
  - apply Nat.eqb_eq in Hn. rewrite Hn. reflexivity.
  - destruct (3 <=? n)%nat eqn:H3.
    + destruct (version_number int (List.last ws EmptyString))
        as [[base number]|]; [|reflexivity].
      destruct (pair_ge number (2, 0)); [reflexivity|].
      simpl andb.
      destruct (negb _); [reflexivity|].
      destruct (_ && _); [reflexivity|].
      destruct (headers_accepted req); reflexivity.
    + simpl andb.
      destruct (negb _); [reflexivity|].
      destruct (_ && _); [reflexivity|].
      destruct (headers_accepted req); reflexivity.
Qed.

(** A response carries the three headers exactly when the request line
    is too long, or states a version. *)
Lemma handle_sent (req : request) :
  has_no_cache_headers (handle int site error_page req)
  = too_long req || states_version req.
Proof.
  unfold handle. destruct (too_long req) eqn:Hlong.
  - now rewrite send_error_sent.
  - destruct (String.eqb_spec (raw_requestline req) EmptyString) as [Hraw|_].
    + unfold states_version. rewrite Hraw. reflexivity.
    + pose proof (parse_request_version req) as Hv.
      destruct (parse_request int req) as [|v command why|v command path];
        simpl in Hv.
      * now rewrite Hv.
      * now rewrite send_error_sent.
      * destruct (String.eqb command "GET"); [now rewrite respond_sent|].
        destruct (String.eqb command "HEAD"); [now rewrite announce_sent|].
        now rewrite send_error_sent.
Qed.

End Sent.
End HttpFacts.

(** What is served at every path, and the page of every error. *)
Definition index_page (requested : string) : reply :=
  Reply 200 "SimpleHTTP/0.6" "Thu, 01 Jan 1970 00:00:00 GMT"
        [("Content-type", "text/html"); ("Content-Length", "7")]%string
        "<html/>".

Definition error_pages (why : refusal) : reply :=
  Reply (match why with
         | RequestUriTooLong => 414
         | InvalidHTTPVersion _ => 505
         | RequestHeaderFieldsTooLarge => 431
         | UnsupportedMethod _ => 501
         | _ => 400
         end)
        "SimpleHTTP/0.6" "Thu, 01 Jan 1970 00:00:00 GMT"
        [("Connection", "close"); ("Content-Type", "text/html;charset=utf-8");
         ("Content-Length", "6")]%string
        "<!DOC>".

(** [int] on the strings of decimal digits. *)
Fixpoint digits_value (acc : Z) (s : string) : option Z :=
  match s with
  | EmptyString => Some acc
  | String c s' =>
      let n := Z.of_nat (nat_of_ascii c) in
      if (48 <=? n) && (n <=? 57) then digits_value (10 * acc + (n - 48)) s'
      else None
  end.

Definition int_of_digits (s : string) : option Z :=
  match s with
  | EmptyString => None
  | _ => digits_value 0 s
  end.

(** A request line as it comes over the wire. *)
Definition line (s : string) : request :=
  Request (s +:+ String (ascii_of_nat 13) (String (ascii_of_nat 10) EmptyString)) true.

(** C5, as stated, fails: a request line without a version, [GET
    /index.html], is an HTTP/0.9 request, for which [send_header] and
    [end_headers] write nothing; the response is the bare body. *)
Lemma http09_response_has_no_headers :
  handle int_of_digits index_page error_pages (line "GET /index.html")
  = [Body "<html/>"]
  /\ has_no_cache_headers
       (handle int_of_digits index_page error_pages (line "GET /index.html"))
     = false.
Proof. split; reflexivity. Qed.

(** C5, amended. A response carries the three headers exactly when the
    request line states a version (at least three words, the last of
    them [HTTP/<major>.<minor>] with two integers below (2, 0) and not
    HTTP/0.9 letter for letter) or is too long to be read. Every other
    request (no version, a malformed one, HTTP/2.0 and above) is answered
    with [request_version] at HTTP/0.9, without any header. Under another
    version, what is served for a [GET] is the status line, the headers of
    the base classes, then [Cache-Control: no-cache, no-store,
    must-revalidate], [Pragma: no-cache] and [Expires: 0], then the end of
    the header block and the body, whatever the path. *)
Theorem response_carries_no_cache_headers :
  forall (int : string -> option Z) (site : string -> reply)
         (error_page : refusal -> reply) (req : request),
    has_no_cache_headers (handle int site error_page req)
    = too_long req || HttpFacts.states_version int req
    /\ forall version path : string,
         too_long req = false ->
         parse_request int req = Accepted version "GET" path ->
         version <> "HTTP/0.9"%string ->
         handle int site error_page req
         = StatusLine (status (site path))
             :: HeaderLine "Server" (server_string (site path))
             :: HeaderLine "Date" (date_string (site path))
             :: map (fun kv => HeaderLine (fst kv) (snd kv)) (own_headers (site path))
             ++ no_cache_headers
             ++ [EndOfHeaders; Body (payload (site path))].
Proof.
  intros int site error_page req. split; [apply HttpFacts.handle_sent|].
  intros version path_ Hlong Hparse Hver. unfold handle. rewrite Hlong.
  destruct (String.eqb_spec (raw_requestline req) EmptyString) as [Hraw|_].
  { destruct req as [raw ok]. simpl in Hraw. subst raw. discriminate. }
  rewrite Hparse. simpl String.eqb. unfold respond, write_body.
  rewrite HttpFacts.announce_versioned by now apply String.eqb_neq.
  unfold HttpFacts.head_of. simpl. rewrite <- !app_assoc. reflexivity.
Qed.

Lemma response_carries_no_cache_headers_witness :
  has_no_cache_headers
    (handle int_of_digits index_page error_pages (line "GET /missing.html HTTP/1.1"))
  = true.
Proof.
  exact (eq_trans
           (proj1 (response_carries_no_cache_headers int_of_digits index_page
                     error_pages (line "GET /missing.html HTTP/1.1")))
           eq_refl).
Defined.

(** ** The manifest store *)

Module StoreFacts.
Import Py PosixPath Lxml Utils PathFacts.

(** The [target] elements the queries range over, in document order:
    the [target] children of the [targets] children of the root. *)
Definition targets_of (doc : element) : list element :=
  flat_map (fun ts => List.filter (fun c => String.eqb (tag c) "target") (children ts))
           (List.filter (fun c => String.eqb (tag c) "targets") (children doc)).

(** Whether [t] has an [alias] child with a text node equal to [alias]. *)
Definition has_alias (alias : string) (t : element) : bool :=
  existsb (fun c => String.eqb (tag c) "alias"
                    && existsb (String.eqb alias) (text_nodes c))
          (children t).

Lemma select_targets (doc : element) :
  select ["targets"; "target"]%string [Node doc None]
  = flat_map (fun ts =>
                map (fun c => Node c (Some ts))
                    (List.filter (fun c => String.eqb (tag c) "target") (children ts)))
             (List.filter (fun c => String.eqb (tag c) "targets") (children doc)).
Proof.
  simpl. rewrite app_nil_r. unfold child_nodes at 2. simpl.
  induction (List.filter _ (children doc)) as [|ts l IH]; simpl; [reflexivity|].
  now rewrite IH.
Qed.

Lemma find_first_target (doc : element) :
  find "targets/target" doc = head (targets_of doc).
Proof.
  unfold find. change (is_tag_path "targets/target") with true. cbv iota.
  unfold findall, targets_of.
  change (split "/" "targets/target") with ["targets"; "target"]%string.
  rewrite select_targets.
  induction (List.filter _ (children doc)) as [|ts l IH]; simpl; [reflexivity|].
  rewrite map_app. destruct (List.filter _ (children ts)); simpl; [exact IH|reflexivity].
Qed.

(** Reading a literal: up to the first double quote. *)
Lemma cut_at_closing_quote (alias rest : string) :
  contains dquote alias = false ->
  cut dquote (alias +:+ String dquote rest) = Some (alias, rest).
Proof.
  induction alias as [|c a IH]; str_simpl; intros H.
  - reflexivity.
  - simpl in *. apply orb_false_iff in H as [Hc Ha].
    rewrite Hc, (IH Ha). reflexivity.
Qed.

Lemma literal_is_closed (alias rest : string) :
  contains dquote alias = false ->
  literals_closed InDouble (alias +:+ String dquote rest)
  = literals_closed Outside rest.
Proof.
  induction alias as [|c a IH]; str_simpl; intros H.
  - reflexivity.
  - simpl in *. apply orb_false_iff in H as [Hc Ha].
    rewrite Hc. exact (IH Ha).
Qed.

Lemma xml_compatible_app (a b : string) :
  xml_compatible (a +:+ b) = xml_compatible a && xml_compatible b.
Proof.
  induction a as [|c a IH]; str_simpl; [reflexivity|].
  simpl. now rewrite IH, andb_assoc.
Qed.

(** The expression is fit for XML when the alias is. *)
Lemma alias_xpath_compatible (alias : string) :
  xml_compatible (alias_xpath alias) = xml_compatible alias.
Proof.
  unfold alias_xpath.
  change (String dquote (alias +:+ String dquote "]"))
    with (String dquote EmptyString +:+ (alias +:+ String dquote "]")).
  rewrite !xml_compatible_app.
  change (xml_compatible "targets/target/alias[text()=") with true.
  change (xml_compatible (String dquote EmptyString)) with true.
  change (xml_compatible (String dquote "]")) with true.
  now rewrite andb_true_r.
Qed.

(** The expression that [target_xml] builds says what it is meant to
    say when the alias holds no double quote. *)
Lemma parse_alias_xpath (alias : string) :
  contains dquote alias = false ->
  parse_xpath (alias_xpath alias)
  = Returns (ChildrenWithText ["targets"; "target"; "alias"]%string alias).
Proof.
  intros H. unfold parse_xpath, alias_xpath.
  rewrite !app_cons, app_empty.
  simpl literals_closed. rewrite (literal_is_closed _ _ H).
  simpl. now rewrite (cut_at_closing_quote _ _ H).
Qed.

Definition alias_nodes (t : element) : list node :=
  map (fun c => Node c (Some t))
      (List.filter (fun c => String.eqb (tag c) "alias") (children t)).

Definition matching (alias : string) (t : element) : list node :=
  List.filter (text_equals alias) (alias_nodes t).

Lemma select_aliases (doc : element) :
  select ["targets"; "target"; "alias"]%string [Node doc None]
  = flat_map alias_nodes (targets_of doc).
Proof.
  change (select ["targets"; "target"; "alias"]%string [Node doc None])
    with (flat_map (child_nodes "alias")
            (select ["targets"; "target"]%string [Node doc None])).
  rewrite select_targets. unfold targets_of.
  induction (List.filter _ (children doc)) as [|ts l IH]; simpl; [reflexivity|].
  rewrite !flat_map_app, IH. f_equal.
  induction (List.filter _ (children ts)) as [|t l' IH']; simpl; [reflexivity|].
  now rewrite IH'.
Qed.

Lemma filter_flat_map {A B : Type} (p : B -> bool) (f : A -> list B) (l : list A) :
  List.filter p (flat_map f l) = flat_map (fun x => List.filter p (f x)) l.
Proof.
  induction l as [|x l IH]; simpl; [reflexivity|].
  now rewrite List.filter_app, IH.
Qed.

Lemma matching_parent (alias : string) (t : element) (n : node) :
  In n (matching alias t) -> node_parent n = Some t.
Proof.
  unfold matching, alias_nodes. intros Hin.
  apply List.filter_In in Hin as [Hin _].
  apply in_map_iff in Hin as (c & <- & _). reflexivity.
Qed.

Lemma matching_empty (alias : string) (t : element) :
  matching alias t = [] <-> has_alias alias t = false.
Proof.
  unfold matching, alias_nodes, has_alias, text_equals.
  induction (children t) as [|c cs IH]; simpl; [tauto|].
  destruct (String.eqb (tag c) "alias"); simpl; [|exact IH].
  destruct (existsb (String.eqb alias) (text_nodes c)); simpl; [|exact IH].
  split; discriminate.
Qed.

(** The first node that the query selects hangs under the first target
    with a matching alias. *)
Lemma first_match (alias : string) (ts : list element) :
  match flat_map (matching alias) ts with
  | [] => List.find (has_alias alias) ts = None
  | n :: _ => List.find (has_alias alias) ts = node_parent n
              /\ exists t, node_parent n = Some t
  end.
Proof.
  induction ts as [|t ts IH]; simpl; [reflexivity|].
  destruct (matching alias t) as [|n ns] eqn:Hm; simpl.
  - apply matching_empty in Hm. now rewrite Hm.
  - assert (Hne : has_alias alias t = true).
    { destruct (has_alias alias t) eqn:E; [reflexivity|].
      apply matching_empty in E. congruence. }
    rewrite Hne. assert (Hp : node_parent n = Some t).
    { apply (matching_parent alias). rewrite Hm. now left. }
    rewrite Hp. eauto.
Qed.

Section Lookup.

Variable fs : filesystem.
Variable import_cwd : string.
Variable doc : element.
Hypothesis Hdoc : project_xml fs import_cwd = Returns doc.

(** Without alias: the first target in document order, [None] when the
    manifest has no target; nothing is logged. *)
Lemma target_xml_default (dirpath : string) :
  target_xml fs import_cwd None dirpath = (Returns (head (targets_of doc)), []).
Proof.
  unfold target_xml. rewrite Hdoc. simpl. now rewrite find_first_target.
Qed.

(** With an alias free of double quotes and of control characters: the
    first target that has an [alias] child whose text is the alias; when
    there is none, [None] and one informational record. *)
Lemma target_xml_alias (alias dirpath : string) :
  contains dquote alias = false ->
  xml_compatible alias = true ->
  target_xml fs import_cwd (Some alias) dirpath
  = match List.find (has_alias alias) (targets_of doc) with
    | Some t => (Returns (Some t), [])
    | None => (Returns None, [(INFO, no_target_message alias)])
    end.
Proof.
  intros Hq Hc. unfold target_xml, xpath.
  rewrite Hdoc, alias_xpath_compatible, Hc, (parse_alias_xpath _ Hq).
  cbv beta iota delta [bind negb].
  rewrite select_aliases, filter_flat_map.
  fold (matching alias). pose proof (first_match alias (targets_of doc)) as H.
  destruct (flat_map (matching alias) (targets_of doc)) as [|n ns].
  - now rewrite H.
  - destruct H as [H [t Ht]]. rewrite H, Ht. simpl. unfold getparent.
    now rewrite Ht.
Qed.

(** With the alias made of one double quote, the expression is
    [targets/target/alias[text()=...]] with three quotes inside the
    brackets: the last one opens a literal that is never closed. *)
Lemma target_xml_quote (dirpath : string) :
  target_xml fs import_cwd (Some (String dquote EmptyString)) dirpath
  = (Raises XPathEvalError, []).
Proof. unfold target_xml. rewrite Hdoc. reflexivity. Qed.

(** A path at which [find] has an element is made of tag names. *)
Lemma find_path_some (xpath_ : string) (e : element) :
  find xpath_ doc = Some e -> find_path xpath_ doc = Returns (Some e).
Proof.
  unfold find_path, find. destruct (is_tag_path xpath_); [|discriminate].
  now intros ->.
Qed.

(** An element that is present with text: its text, stripped. *)
Lemma update_present (xpath_ : string) (default : option string)
    (e : element) (t : string) :
  find xpath_ doc = Some e -> text e = Some t ->
  update_from_project_xml fs import_cwd xpath_ default = Returns (Some (strip t)).
Proof.
  intros Hf Ht. unfold update_from_project_xml.
  rewrite Hdoc. cbv beta iota delta [bind]. rewrite (find_path_some _ _ Hf).
  simpl. now rewrite Ht.
Qed.

(** No element at a path made of tag names: the default, as given. *)
Lemma update_absent (xpath_ : string) (default : option string) :
  is_tag_path xpath_ = true ->
  find xpath_ doc = None ->
  update_from_project_xml fs import_cwd xpath_ default = Returns default.
Proof.
  intros Hp Hf. unfold update_from_project_xml, find_path.
  rewrite Hdoc, Hp. cbv beta iota delta [bind]. now rewrite Hf.
Qed.

(** An element that is present without text, such as [<latex/>]. *)
Lemma update_empty (xpath_ : string) (default : option string) (e : element) :
  find xpath_ doc = Some e -> text e = None ->
  update_from_project_xml fs import_cwd xpath_ default
  = Raises (AttributeError "'NoneType' object has no attribute 'strip'").
Proof.
  intros Hf Ht. unfold update_from_project_xml.
  rewrite Hdoc. cbv beta iota delta [bind]. rewrite (find_path_some _ _ Hf).
  simpl. now rewrite Ht.
Qed.

End Lookup.

End StoreFacts.

(** ** A sample project *)

Definition leaf (name value : string) : element :=
  Element name (Some value) [] None.

Definition sample_target (alias format : string) : element :=
  Element "target" None
    [leaf "alias" alias; leaf "format" format; leaf "source" " source/main.ptx ";
     leaf "publication" "publication/publication.ptx";
     leaf "output-dir" "output/web"; Element "xsl" None [] None]
    None.

(** A manifest with the targets [intro] and [exercises], and an empty
    [latex] element under [executables]. *)
Definition sample_manifest : element :=
  Element "project" None
    [Element "targets" None
       [sample_target "intro" "html"; sample_target "exercises" "pdf"] None;
     Element "executables" None [Element "latex" None [] None] None]
    None.

(** A disk whose only manifest is [/home/author/book/project.ptx]. *)
Definition sample_disk : filesystem :=
  Filesystem (String.eqb "/home/author/book/project.ptx")
             (fun _ => Returns sample_manifest).

Definition sample_cwd : string := "/home/author/book/source".

Lemma sample_project_xml : project_xml sample_disk sample_cwd = Returns sample_manifest.
Proof. reflexivity. Qed.

(** C3, at the input on which [target_xml] breaks it. When the manifest
    parses and the alias is the one-character string made of a double
    quote, the call raises [XPathEvalError]: it neither returns [None] nor
    logs. *)
Theorem target_xml_raises_on_quote :
  forall (fs : filesystem) (import_cwd dirpath : string) (doc : element),
    project_xml fs import_cwd = Returns doc ->
    target_xml fs import_cwd (Some (String dquote EmptyString)) dirpath
    = (Raises XPathEvalError, []).
Proof. intros fs import_cwd dirpath doc Hdoc. exact (StoreFacts.target_xml_quote fs import_cwd doc Hdoc dirpath). Qed.

Lemma target_xml_raises_on_quote_witness :
  target_xml sample_disk sample_cwd (Some (String dquote EmptyString)) sample_cwd
  = (Raises XPathEvalError, []).
Proof.
  exact (target_xml_raises_on_quote sample_disk sample_cwd sample_cwd
           sample_manifest sample_project_xml).
Defined.

(** C8, at the input on which [update_from_project_xml] breaks it. When
    the element at the path is present and has no text, the call raises
    [AttributeError] where the claim has it return the trimmed text. *)
Theorem update_from_project_xml_raises_on_empty :
  forall (fs : filesystem) (import_cwd xpath_ : string) (default : option string)
         (doc e : element),
    project_xml fs import_cwd = Returns doc ->
    find xpath_ doc = Some e ->
    text e = None ->
    update_from_project_xml fs import_cwd xpath_ default
    = Raises (AttributeError "'NoneType' object has no attribute 'strip'").
Proof.
  intros fs import_cwd xpath_ default doc e Hdoc Hf Ht.
  exact (StoreFacts.update_empty fs import_cwd doc Hdoc xpath_ default e Hf Ht).
Qed.

Lemma update_from_project_xml_raises_on_empty_witness :
  update_from_project_xml sample_disk sample_cwd "executables/latex" (Some "pdflatex")
  = Raises (AttributeError "'NoneType' object has no attribute 'strip'").
Proof.
  exact (update_from_project_xml_raises_on_empty sample_disk sample_cwd
           "executables/latex" (Some "pdflatex"%string) sample_manifest
           (Element "latex" None [] None) sample_project_xml eq_refl eq_refl).
Defined.

(** ** The preview session *)

Module SessionFacts.
Import Py PosixPath Lxml Utils.

(** A computation that leaves the server's socket alone. *)
Definition keeps_listening {A : Type} (m : M A) : Prop :=
  forall w : session, listening (snd (m w)) = listening w.

Lemma keeps_ret {A : Type} (a : A) : keeps_listening (ret a).
Proof. intros w. reflexivity. Qed.

Lemma keeps_lift {A : Type} (o : outcome A) : keeps_listening (lift o).
Proof. intros w. reflexivity. Qed.

Lemma keeps_seq {A B : Type} (m : M A) (k : A -> M B) :
  keeps_listening m -> (forall a, keeps_listening (k a)) -> keeps_listening (seq m k).
Proof.
  intros Hm Hk w. unfold seq. specialize (Hm w).
  destruct (m w) as [[a|e|] w']; simpl in *; [|exact Hm|exact Hm].
  now rewrite Hk.
Qed.

Lemma keeps_log_info (msg : string) : keeps_listening (log_info msg).
Proof. intros w. reflexivity. Qed.

Lemma keeps_sleep_until_interrupted (n : nat) :
  keeps_listening (sleep_until_interrupted n).
Proof.
  induction n as [|n IH]; simpl; [apply keeps_lift|].
  apply keeps_seq; [intros w; reflexivity | intros _; exact IH].
Qed.

Lemma keeps_try_except_interrupt (body handler : M unit) :
  keeps_listening body -> keeps_listening handler ->
  keeps_listening (try_except_interrupt body handler).
Proof.
  intros Hb Hh w. unfold try_except_interrupt. specialize (Hb w).
  destruct (body w) as [[a|e|] w']; simpl in *; try exact Hb.
  destruct e; simpl; try exact Hb. now rewrite Hh.
Qed.

Lemma keeps_observer_join : keeps_listening observer_join.
Proof. intros w. unfold observer_join. now destruct (observer w). Qed.

Create HintDb session.

#[local] Hint Resolve keeps_ret keeps_lift keeps_log_info
  keeps_sleep_until_interrupted keeps_observer_join : session.

Ltac keeps :=
  repeat first
    [ apply keeps_seq; [|intros ?]
    | apply keeps_try_except_interrupt
    | solve [auto with session]
    | solve [intros ?; reflexivity]
    | match goal with |- keeps_listening (match ?x with _ => _ end) => destruct x end ].

Section Session.

Variable fs : filesystem.
Variable import_cwd : string.
Variable abspath : string -> string.

Lemma keeps_start_watch (t : element) :
  keeps_listening (start_watch fs import_cwd abspath t).
Proof. unfold start_watch, watch_path. keeps. Qed.

(** Once started, the server thread keeps its socket to the end of
    [run_server], however the call ends. *)
Lemma run_server_listening (directory binding url : string) (port_ : Z)
    (watch_target : option element) (interrupt_after : nat) (w : session) :
  listening (snd (run_server fs import_cwd abspath directory binding port_ url
                             watch_target interrupt_after w))
  = Some (serve_forever directory binding port_).
Proof.
  unfold run_server.
  set (rest := seq (match watch_target with Some t => _ | None => _ end) _).
  assert (Hrest : keeps_listening rest).
  { subst rest. pose proof keeps_start_watch. keeps. }
  unfold seq at 1 2 3 4. simpl. now rewrite Hrest.
Qed.

Lemma sleep_until_interrupted_run (n : nat) :
  forall w : session,
    sleep_until_interrupted n w
    = (Raises KeyboardInterrupt,
       Session (logged w) (calls w ++ repeat Sleep n) (listening w)
               (server_thread w) (observer w)).
Proof.
  induction n as [|n IH]; intros [lg cs li st ob]; simpl.
  - unfold lift. now rewrite app_nil_r.
  - unfold seq, sleep. simpl. rewrite IH. simpl.
    now rewrite <- app_assoc.
Qed.

(** A handler that could be built has its source path from the target. *)
Lemma handler_source (t : element) (h : HTMLRebuildHandler) :
  HTMLRebuildHandler_init abspath t = Returns h ->
  text_strip (find "source" t) = Returns (ptxfile h).
Proof.
  unfold HTMLRebuildHandler_init.
  destruct (text_strip (find "source" t)) as [s|e|]; simpl; try discriminate.
  destruct (text_strip (find "output-dir" t)) as [o|e|]; simpl; try discriminate.
  destruct (text_strip (find "publication" t)) as [pb|e|]; simpl; try discriminate.
  now intros [= <-].
Qed.

(** The whole of a watched session, from the first log record to the
    return that follows the interruption. *)
Lemma run_server_watched (directory binding url : string) (port_ : Z)
    (t : element) (n : nat) (w : session) (root : string)
    (h : HTMLRebuildHandler) :
  project_path (isfile fs) import_cwd = Returns (Some root) ->
  HTMLRebuildHandler_init abspath t = Returns h ->
  run_server fs import_cwd abspath directory binding port_ url (Some t) n w
  = (Returns tt,
     Session
       (logged w
          ++ [(INFO, build_located directory); (INFO, url);
              (INFO, "Use [Ctrl]+[C] to halt the server."%string);
              (INFO, watching (abspath (join root (dirname (ptxfile h)))));
              (INFO, EmptyString); (INFO, "Closing server..."%string)])
       (calls w
          ++ [StartServerThread (serve_forever directory binding port_);
              ObserverSchedule h (join root (dirname (ptxfile h))) true;
              ObserverStart]
          ++ repeat Sleep n ++ [ObserverStop; ObserverJoin])
       (Some (serve_forever directory binding port_))
       Alive Terminated).
Proof.
  intros Hroot Hh. pose proof (handler_source _ _ Hh) as Hsrc.
  destruct w as [lg cs li st ob].
  unfold run_server, start_watch, watch_path.
  unfold seq, log_info, start_server_thread, lift, observer_schedule,
    observer_start, try_except_interrupt, made, set_observer. simpl.
  rewrite Hroot, Hsrc. simpl. rewrite Hh. simpl.
  rewrite sleep_until_interrupted_run. simpl.
  unfold observer_stop, observer_join, made, set_observer. simpl.
  rewrite <- !app_assoc. simpl. reflexivity.
Qed.

End Session.
End SessionFacts.

(** ** The commands *)

Import Cli.

(** C9, on every input of the branch. Whatever the directory, the access
    policy and the port, [view] with a directory calls [run_server] with
    three arguments for its five parameters: the call raises [TypeError]
    for the missing [url] and [watch_target], and the session is left as
    it was, no thread started and nothing logged. *)
Theorem view_directory_raises_type_error :
  forall (fs : filesystem) (import_cwd : string) (abspath : string -> string)
         (d1 d2 d3 d4 d5 : option string)
         (manifest_stringparams : element -> gmap string string)
         (preview_url : string -> Z -> string)
         (project_target : option string -> option element)
         (target : option string) (access : Project.access_policy) (port_ : Z)
         (directory : string) (watch build_ : bool) (interrupt_after : nat)
         (w : session),
    view fs import_cwd abspath d1 d2 d3 d4 d5 manifest_stringparams preview_url
         project_target target access port_ (Some directory) watch build_
         interrupt_after w
    = (Raises (TypeError
         "run_server() missing required positional arguments: 'url', 'watch_target'"),
       w).
Proof. reflexivity. Qed.

(** C6. Whenever [view] finds its target and no directory is given, the
    server thread it starts listens on the host of the bind policy,
    [localhost] for the private one and [0.0.0.0] for the public one, and
    on the port the caller gave; this holds however the rest of the
    session goes. *)
Theorem view_listens_where_policy_says :
  forall (fs : filesystem) (import_cwd : string) (abspath : string -> string)
         (d1 d2 d3 d4 d5 : option string)
         (manifest_stringparams : element -> gmap string string)
         (preview_url : string -> Z -> string)
         (project_target : option string -> option element)
         (target : option string) (access : Project.access_policy) (port_ : Z)
         (watch build_ : bool) (interrupt_after : nat) (w : session)
         (node : element),
    project_target target = Some node ->
    exists directory : string,
      listening (snd (view fs import_cwd abspath d1 d2 d3 d4 d5
                           manifest_stringparams preview_url project_target
                           target access port_ None watch build_
                           interrupt_after w))
      = Some (Listener directory
                (match access with
                 | Project.Private => "localhost"
                 | Project.Public => "0.0.0.0"
                 end)
                port_ true).
Proof.
  intros fs import_cwd abspath d1 d2 d3 d4 d5 msp preview_url project_target
         target access port_ watch build_ n w node Hnode.
  unfold view. rewrite Hnode. unfold Project.view.
  eexists. rewrite SessionFacts.run_server_listening.
  unfold serve_forever. now destruct access.
Qed.

Definition no_stringparams (node : element) : gmap string string := ∅.

Definition local_url (binding : string) (port_ : Z) : string :=
  String.append "http://" binding.

Definition first_target (target_name : option string) : option element :=
  Some (sample_target "intro" "html").

Lemma view_listens_where_policy_says_witness :
  exists directory : string,
    listening (snd (view sample_disk sample_cwd (String.append "/home/author/book/")
                         None None None None None no_stringparams local_url
                         first_target None Project.Public 8000 None false false 3
                         (Session [] [] None Unstarted Unstarted)))
    = Some (Listener directory "0.0.0.0" 8000 true).
Proof.
  exact (view_listens_where_policy_says sample_disk sample_cwd
           (String.append "/home/author/book/") None None None None None
           no_stringparams local_url first_target None Project.Public 8000
           false false 3 (Session [] [] None Unstarted Unstarted)
           (sample_target "intro" "html") eq_refl).
Defined.

(** C4. In a session that serves and watches, interrupted after any
    number of sleeps: [run_server] returns; the last two calls it made
    are [observer.stop()] and then [observer.join()]; when it returns the
    observer's thread has ended while the server's thread is still alive.
    [run_server] never stops the server, whose daemon thread ends with the
    process: the watcher is stopped and joined before the server stops. *)
Theorem watcher_joined_before_server_stops :
  forall (fs : filesystem) (import_cwd : string) (abspath : string -> string)
         (directory binding url : string) (port_ : Z) (watch_target : element)
         (interrupt_after : nat) (w : session) (root : string)
         (h : HTMLRebuildHandler),
    project_path (isfile fs) import_cwd = Returns (Some root) ->
    HTMLRebuildHandler_init abspath watch_target = Returns h ->
    let r := run_server fs import_cwd abspath directory binding port_ url
                        (Some watch_target) interrupt_after w in
    fst r = Returns tt
    /\ calls (snd r)
       = calls w
           ++ [StartServerThread (serve_forever directory binding port_);
               ObserverSchedule h (join root (dirname (ptxfile h))) true;
               ObserverStart]
           ++ repeat Sleep interrupt_after
           ++ [ObserverStop; ObserverJoin]
    /\ observer (snd r) = Terminated
    /\ server_thread (snd r) = Alive.
Proof.
  intros fs import_cwd abspath directory binding url port_ t n w root h Hroot Hh r.
  subst r.
  rewrite (SessionFacts.run_server_watched fs import_cwd abspath directory
             binding url port_ t n w root h Hroot Hh).
  repeat split.
Qed.

Definition under_book (relative : string) : string :=
  String.append "/home/author/book/" relative.

Lemma watcher_joined_before_server_stops_witness :
  let r := run_server sample_disk sample_cwd under_book "output/web" "localhost"
                      8000 "http://localhost:8000"
                      (Some (sample_target "intro" "html")) 2
                      (Session [] [] None Unstarted Unstarted) in
  fst r = Returns tt
  /\ calls (snd r)
     = [StartServerThread (Listener "output/web" "localhost" 8000 true);
        ObserverSchedule
          (RebuildHandler "source/main.ptx" "output/web"
             {[ "publisher"%string := "/home/author/book/publication/publication.ptx"%string ]})
          "/home/author/book/source" true;
        ObserverStart; Sleep; Sleep; ObserverStop; ObserverJoin]
  /\ observer (snd r) = Terminated
  /\ server_thread (snd r) = Alive.
Proof.
  exact (watcher_joined_before_server_stops sample_disk sample_cwd under_book
           "output/web" "localhost" "http://localhost:8000" 8000
           (sample_target "intro" "html") 2
           (Session [] [] None Unstarted Unstarted) "/home/author/book"
           (RebuildHandler "source/main.ptx" "output/web"
              {[ "publisher"%string := "/home/author/book/publication/publication.ptx"%string ]})
           eq_refl eq_refl).
Defined.

(** ** The rebuild handler *)

Module RebuildFacts.
Import Py Lxml Utils.

Section Dispatch.

Variable build_html : string -> string -> gmap string string -> gmap string string.

Definition rebuilding : log_record :=
  (INFO, "Changes to source found, rebuilding target..."%string).

Lemma dispatch_cons (ev : fs_event) (events : list fs_event) (w : watcher) :
  dispatch build_html (ev :: events) w
  = dispatch build_html events (on_any_event build_html ev w).
Proof. reflexivity. Qed.

(** Whatever the builder does to the mapping, the two paths stay. *)
Lemma dispatch_paths (events : list fs_event) :
  forall w : watcher,
    ptxfile (bound (dispatch build_html events w)) = ptxfile (bound w)
    /\ output (bound (dispatch build_html events w)) = output (bound w)
    /\ map (fun c => (call_ptxfile c, call_output c))
           (builds (dispatch build_html events w))
       = map (fun c => (call_ptxfile c, call_output c)) (builds w)
           ++ map (fun _ => (ptxfile (bound w), output (bound w))) events
    /\ watch_log (dispatch build_html events w)
       = watch_log w ++ map (fun _ => rebuilding) events.
Proof.
  induction events as [|ev events IH]; intros w.
  - simpl. now rewrite !app_nil_r.
  - rewrite dispatch_cons.
    destruct (IH (on_any_event build_html ev w)) as (Hp & Ho & Hc & Hl).
    rewrite Hp, Ho, Hc, Hl. unfold on_any_event. simpl.
    rewrite map_app. simpl. rewrite <- !app_assoc. repeat split.
Qed.

Hypothesis build_html_reads_only : forall s o d, build_html s o d = d.

Lemma on_any_event_bound (ev : fs_event) (w : watcher) :
  bound (on_any_event build_html ev w) = bound w.
Proof.
  unfold on_any_event. simpl. rewrite build_html_reads_only. now destruct (bound w).
Qed.

Lemma on_any_event_builds (ev : fs_event) (w : watcher) :
  builds (on_any_event build_html ev w)
  = builds w ++ [BuildCall (ptxfile (bound w)) (output (bound w))
                           (stringparams (bound w))].
Proof. reflexivity. Qed.

(** With a builder that leaves the mapping as it got it, every event
    adds the same call. *)
Lemma dispatch_calls (events : list fs_event) :
  forall w : watcher,
    bound (dispatch build_html events w) = bound w
    /\ builds (dispatch build_html events w)
       = builds w
           ++ map (fun _ => BuildCall (ptxfile (bound w)) (output (bound w))
                                      (stringparams (bound w))) events.
Proof.
  induction events as [|ev events IH]; intros w.
  - simpl. now rewrite app_nil_r.
  - rewrite dispatch_cons.
    destruct (IH (on_any_event build_html ev w)) as (Hb & Hc).
    rewrite Hb, Hc, on_any_event_bound, on_any_event_builds.
    simpl. now rewrite <- app_assoc.
Qed.

End Dispatch.
End RebuildFacts.

(** C7. Let the target have [source], [output-dir] and [publication]
    children with text. The handler is then built with the stripped
    source path, the stripped output directory and the mapping that sends
    [publisher] to the absolute path of the publication file, and nothing
    else. Every event, of any kind and on any path, logs once and calls
    the builder once, with that source path and that output directory;
    and when the builder does not write to the mapping it is handed, every
    call gets that same mapping and the handler ends as it began. *)
Theorem rebuild_calls_builder_with_bound_target :
  forall (abspath : string -> string)
         (build_html : string -> string -> gmap string string -> gmap string string)
         (target src out pub : element) (s o p : string)
         (events : list fs_event) (logged_before : list log_record),
    find "source" target = Some src -> text src = Some s ->
    find "output-dir" target = Some out -> text out = Some o ->
    find "publication" target = Some pub -> text pub = Some p ->
    let bound_params : gmap string string :=
      {[ "publisher"%string := abspath (strip p) ]} in
    let h := RebuildHandler (strip s) (strip o) bound_params in
    let after := dispatch build_html events (Watcher h logged_before []) in
    HTMLRebuildHandler_init abspath target = Returns h
    /\ map (fun c => (call_ptxfile c, call_output c)) (builds after)
       = map (fun _ => (strip s, strip o)) events
    /\ ((forall a b d, build_html a b d = d) ->
        builds after = map (fun _ => BuildCall (strip s) (strip o) bound_params) events
        /\ bound after = h).
Proof.
  intros abspath build_html target src out pub s o p events lg
         Hs Hs' Ho Ho' Hp Hp' bound_params h after.
  split; [|split].
  - unfold HTMLRebuildHandler_init, text_strip.
    rewrite Hs, Hs', Ho, Ho', Hp, Hp'. reflexivity.
  - destruct (RebuildFacts.dispatch_paths build_html events (Watcher h lg []))
      as (_ & _ & Hc & _). exact Hc.
  - intros Hpure.
    destruct (RebuildFacts.dispatch_calls build_html Hpure events (Watcher h lg []))
      as (Hb & Hc). split; [exact Hc | exact Hb].
Qed.

Definition keep_params (ptx out : string) (d : gmap string string)
  : gmap string string := d.

Definition some_events : list fs_event :=
  [FsEvent Modified "/home/author/book/source/main.ptx" false;
   FsEvent Deleted "/home/author/book/source/notes.txt~" false;
   FsEvent Created "/home/author/book/source/images" true].

Lemma rebuild_calls_builder_with_bound_target_witness :
  builds (dispatch keep_params some_events
            (Watcher (RebuildHandler "source/main.ptx" "output/web"
                        {[ "publisher"%string := under_book "publication/publication.ptx" ]})
                     [] []))
  = [BuildCall "source/main.ptx" "output/web"
       {[ "publisher"%string := under_book "publication/publication.ptx" ]};
     BuildCall "source/main.ptx" "output/web"
       {[ "publisher"%string := under_book "publication/publication.ptx" ]};
     BuildCall "source/main.ptx" "output/web"
       {[ "publisher"%string := under_book "publication/publication.ptx" ]}].
Proof.
  exact (proj1 (proj2 (proj2
    (rebuild_calls_builder_with_bound_target under_book keep_params
       (sample_target "intro" "html")
       (leaf "source" " source/main.ptx ")
       (leaf "output-dir" "output/web")
       (leaf "publication" "publication/publication.ptx")
       " source/main.ptx " "output/web" "publication/publication.ptx"
       some_events [] eq_refl eq_refl eq_refl eq_refl eq_refl eq_refl))
    (fun _ _ _ => eq_refl))).
Defined.

(** ** Target resolution *)

(** What a resolved field owes to the two sides: the override when one
    was given, and otherwise the manifest's value when it has one. *)
Definition override_else_manifest (override manifest resolved : option string)
  : Prop :=
  match override with
  | Some v => resolved = Some v
  | None => forall m : string, manifest = Some m -> resolved = Some m
  end.

(** C1. When [build] runs in a project and finds its target in the
    manifest, it resolves a Target of which each of the fields format,
    source, output directory, publication path and transform path is the
    command-line value when that option was given, be it the empty
    string, and is the manifest node's value when the option was not
    given and the node has one. *)
Theorem build_target_merges_fieldwise :
  forall (fs : filesystem) (import_cwd : string)
         (d1 d2 d3 d4 d5 : option string)
         (manifest_stringparams : element -> gmap string string)
         (project_target : option string -> option element)
         (o : build_options) (root : string) (node : element),
    opt_diagrams o || negb (String.eqb (opt_diagrams_format o) "defaults")
      || opt_only_assets o || opt_webwork o = false ->
    project_path (isfile fs) import_cwd = Returns (Some root) ->
    project_target (opt_target o) = Some node ->
    exists (t : Project.Target) (records : list log_record),
      build fs import_cwd d1 d2 d3 d4 d5 manifest_stringparams project_target o
      = (Returns (Resolved t), records)
      /\ override_else_manifest (opt_format o)
           (Project.manifest_value "format" (Some node)) (Project.format t)
      /\ override_else_manifest (opt_source o)
           (Project.manifest_value "source" (Some node)) (Project.source t)
      /\ override_else_manifest (opt_output o)
           (Project.manifest_value "output-dir" (Some node)) (Project.output_dir t)
      /\ override_else_manifest (opt_publication o)
           (Project.manifest_value "publication" (Some node)) (Project.publication t)
      /\ override_else_manifest (opt_xsl o)
           (Project.manifest_value "xsl" (Some node)) (Project.xsl_path t).
Proof.
  intros fs import_cwd d1 d2 d3 d4 d5 msp project_target o root node
         Hflags Hroot Hnode.
  unfold build. rewrite Hflags, Hroot, Hnode.
  eexists. eexists. split; [reflexivity|].
  unfold new_target, Project.Target_init, override_else_manifest,
    Project.resolve_field. simpl.
  repeat split.
  all: match goal with
       | |- match ?x with _ => _ end => destruct x; [reflexivity|]
       end.
  all: intros m Hm; now rewrite Hm.
Qed.

(** The options of [pretext build -f pdf]. *)
Definition only_format_pdf : build_options :=
  BuildOptions None (Some "pdf"%string) None None [] None None
               false None false false "defaults" false.

Lemma build_target_merges_fieldwise_witness :
  exists (t : Project.Target) (records : list log_record),
    build sample_disk sample_cwd None None None None None no_stringparams
          first_target only_format_pdf
    = (Returns (Resolved t), records)
    /\ Project.format t = Some "pdf"%string
    /\ (forall m : string, Some "source/main.ptx"%string = Some m ->
          Project.source t = Some m)
    /\ (forall m : string, Some "output/web"%string = Some m ->
          Project.output_dir t = Some m)
    /\ (forall m : string, Some "publication/publication.ptx"%string = Some m ->
          Project.publication t = Some m)
    /\ (forall m : string, None = Some m -> Project.xsl_path t = Some m).
Proof.
  exact (build_target_merges_fieldwise sample_disk sample_cwd None None None None
           None no_stringparams first_target only_format_pdf "/home/author/book"
           (sample_target "intro" "html") eq_refl eq_refl eq_refl).
Defined.

(** The example of the specification: a manifest target with format
    [html] and a source, built with the override [-f pdf]. *)
Example build_pdf_of_html_target :
  exists t records,
    build sample_disk sample_cwd None None None None None no_stringparams
          first_target only_format_pdf
    = (Returns (Resolved t), records)
    /\ Project.format t = Some "pdf"%string
    /\ Project.source t = Some "source/main.ptx"%string.
Proof. eexists. eexists. split; [reflexivity|]. split; reflexivity. Qed.

(** * Further properties *)

(** ** More on the manifest locator *)

Module LocatorMore.
Import Py PosixPath Utils PathFacts LocatorFacts.

Lemma ascend_prefix (n : nat) (dirpath : string) :
  str_prefix (ascend n dirpath) dirpath.
Proof.
  unfold ascend. induction n as [|n IH]; simpl.
  - exists EmptyString. clear. induction dirpath as [|c s IH]; str_simpl;
      [reflexivity | now rewrite <- IH].
  - eapply str_prefix_trans; [apply dirname_prefix | exact IH].
Qed.

Lemma startswith_prefix (c : ascii) (a b : string) :
  str_prefix a b -> startswith c b = false -> startswith c a = false.
Proof.
  intros [t ->]. destruct a as [|x a]; [reflexivity|]. now rewrite app_cons.
Qed.

(** Two runs of the recursion that both return agree. *)
Lemma project_path_rec_agree (isfile : string -> bool) (d1 d2 : nat)
    (dirpath : string) (r1 r2 : option string) :
  project_path_rec isfile d1 dirpath = Returns r1 ->
  project_path_rec isfile d2 dirpath = Returns r2 ->
  r1 = r2.
Proof.
  intros H1 H2.
  apply (project_path_rec_mono isfile d1 dirpath r1 d2) in H1.
  apply (project_path_rec_mono isfile d2 dirpath r2 d1) in H2.
  rewrite (Nat.add_comm d2 d1) in H2. congruence.
Qed.

End LocatorMore.

(** X1. A directory that [project_path] returns is a project root in
    its own right: asked again from that directory, [project_path]
    returns it. *)
Theorem project_path_idempotent :
  forall (isfile : string -> bool) (dirpath d : string),
    project_path isfile dirpath = Returns (Some d) ->
    project_path isfile d = Returns (Some d).
Proof.
  intros isfile dirpath d H.
  destruct (LocatorFacts.project_path_rec_spec isfile
              (S (String.length dirpath)) dirpath) as (r & Hr & Hspec); [lia|].
  unfold project_path in H. rewrite Hr in H. injection H as ->.
  destruct Hspec as (n & _ & Hm & _).
  unfold project_path. simpl. now rewrite Hm.
Qed.

Definition book_only (p : string) : bool :=
  String.eqb p "/home/author/book/project.ptx".

Lemma project_path_idempotent_witness :
  project_path book_only "/home/author/book" = Returns (Some "/home/author/book"%string).
Proof.
  exact (project_path_idempotent book_only "/home/author/book/source/ch1"
           "/home/author/book" eq_refl).
Defined.

(** X2. The directory that [project_path] returns is a leading part of
    the path it was given; in particular, from a relative path the answer
    is relative: the search never climbs above the directory the path is
    relative to. *)
Theorem project_path_answer_is_leading_part :
  forall (isfile : string -> bool) (dirpath d : string),
    project_path isfile dirpath = Returns (Some d) ->
    (exists rest : string, dirpath = String.append d rest)
    /\ (startswith "/" dirpath = false -> startswith "/" d = false).
Proof.
  intros isfile dirpath d H.
  destruct (LocatorFacts.project_path_rec_spec isfile
              (S (String.length dirpath)) dirpath) as (r & Hr & Hspec); [lia|].
  unfold project_path in H. rewrite Hr in H. injection H as ->.
  destruct Hspec as (n & -> & _).
  pose proof (LocatorMore.ascend_prefix n dirpath) as Hp.
  split; [exact Hp|]. now apply LocatorMore.startswith_prefix.
Qed.

Definition chapter_only (p : string) : bool := String.eqb p "book/project.ptx".

Lemma project_path_answer_is_leading_part_witness :
  (exists rest : string, "book/source/ch1"%string = String.append "book" rest)
  /\ (startswith "/" "book/source/ch1" = false -> startswith "/" "book" = false).
Proof.
  exact (project_path_answer_is_leading_part chapter_only "book/source/ch1"
           "book" eq_refl).
Defined.

(** ** More on the manifest store *)

Module StoreMore.
Import Py PosixPath Lxml Utils PathFacts.

Lemma select_nothing (steps : list string) : select steps [] = [].
Proof. induction steps as [|s steps IH]; simpl; [reflexivity | exact IH]. Qed.

Lemma split_not_nil (c : ascii) (s : string) : split c s <> [].
Proof.
  induction s as [|a s IH]; simpl; [discriminate|].
  destruct (Ascii.eqb a c); [discriminate|].
  destruct (split c s); discriminate.
Qed.

(** No path leads anywhere in [ET.Element("project")]. *)
Lemma find_in_empty_project (xpath_ : string) : find xpath_ empty_project = None.
Proof.
  unfold find, findall. destruct (is_tag_path xpath_); [|reflexivity].
  destruct (split "/" xpath_) as [|s steps] eqn:E.
  - now apply split_not_nil in E.
  - simpl. now rewrite select_nothing.
Qed.

(** Strings of whitespace, and strings with whitespace at an end. *)
Fixpoint all_space (s : string) : bool :=
  match s with
  | EmptyString => true
  | String c s' => isspace c && all_space s'
  end.

Definition starts_with_space (s : string) : bool :=
  match s with
  | String c _ => isspace c
  | EmptyString => false
  end.

Fixpoint ends_with_space (s : string) : bool :=
  match s with
  | EmptyString => false
  | String c EmptyString => isspace c
  | String _ s' => ends_with_space s'
  end.

Lemma lstrip_splits (s : string) :
  exists l : string,
    s = l +:+ lstrip s /\ all_space l = true /\ starts_with_space (lstrip s) = false.
Proof.
  induction s as [|c s (l & Hl & Hsp & Hst)]; simpl.
  - exists EmptyString. repeat split.
  - destruct (isspace c) eqn:Hc.
    + exists (String c l). rewrite app_cons, <- Hl. simpl. rewrite Hc, Hsp.
      repeat split. exact Hst.
    + exists EmptyString. simpl. rewrite Hc. repeat split.
Qed.

Lemma rstrip_splits (s : string) :
  exists r : string,
    s = rstrip s +:+ r /\ all_space r = true /\ ends_with_space (rstrip s) = false.
Proof.
  induction s as [|c s (r & Hr & Hsp & Hend)]; simpl.
  - exists EmptyString. repeat split.
  - destruct (rstrip s) as [|c' s'] eqn:E.
    + rewrite app_empty in Hr. subst r. destruct (isspace c) eqn:Hc.
      * exists (String c s). rewrite app_empty. simpl. rewrite Hc, Hsp.
        repeat split.
      * exists s. rewrite app_cons, app_empty. simpl. rewrite Hc.
        repeat split. exact Hsp.
    + exists r. rewrite app_cons, <- Hr. repeat split; [exact Hsp|].
      simpl in *. exact Hend.
Qed.

Lemma rstrip_keeps_start (s : string) :
  starts_with_space s = false -> starts_with_space (rstrip s) = false.
Proof.
  destruct s as [|c s]; simpl; [reflexivity|]. intros Hc.
  destruct (rstrip s); simpl; [now rewrite Hc | exact Hc].
Qed.

(** [strip] removes whitespace from both ends and nothing else. *)
Lemma strip_splits (s : string) :
  exists l r : string,
    s = l +:+ strip s +:+ r
    /\ all_space l = true /\ all_space r = true
    /\ starts_with_space (strip s) = false
    /\ ends_with_space (strip s) = false.
Proof.
  destruct (lstrip_splits s) as (l & Hl & Hsl & Hst).
  destruct (rstrip_splits (lstrip s)) as (r & Hr & Hsr & Hend).
  exists l, r. unfold strip. rewrite <- Hr, <- Hl.
  repeat split; try assumption. now apply rstrip_keeps_start.
Qed.

End StoreMore.

(** X4. Outside any project (no manifest on the ascent from the import
    directory) the store answers as an empty manifest would: [target_xml]
    without alias returns [None] and logs nothing; with an alias free of
    double quotes and of control characters it returns [None] and logs
    one informational record; [update_from_project_xml] returns the
    default for every path made of tag names. *)
Theorem no_manifest_behaves_as_empty_project :
  forall (fs : filesystem) (import_cwd : string),
    project_path (isfile fs) import_cwd = Returns None ->
    (forall dirpath : string,
        target_xml fs import_cwd None dirpath = (Returns None, []))
    /\ (forall alias dirpath : string,
          contains dquote alias = false ->
          xml_compatible alias = true ->
          target_xml fs import_cwd (Some alias) dirpath
          = (Returns None, [(INFO, no_target_message alias)]))
    /\ (forall (xpath_ : string) (default : option string),
          is_tag_path xpath_ = true ->
          update_from_project_xml fs import_cwd xpath_ default = Returns default).
Proof.
  intros fs import_cwd Hnone.
  assert (Hdoc : project_xml fs import_cwd = Returns empty_project).
  { unfold project_xml. now rewrite Hnone. }
  split; [|split].
  - intros dirpath. now rewrite (StoreFacts.target_xml_default fs import_cwd _ Hdoc).
  - intros alias dirpath Hq Hc.
    now rewrite (StoreFacts.target_xml_alias fs import_cwd _ Hdoc alias dirpath Hq Hc).
  - intros xpath_ default Hp.
    apply (StoreFacts.update_absent fs import_cwd _ Hdoc); [exact Hp|].
    apply StoreMore.find_in_empty_project.
Qed.

Definition bare_disk : filesystem :=
  Filesystem (fun _ => false) (fun _ => Raises XMLSyntaxError).

Lemma no_manifest_behaves_as_empty_project_witness :
  (forall dirpath : string,
      target_xml bare_disk "/tmp/scratch" None dirpath = (Returns None, []))
  /\ (forall alias dirpath : string,
        contains dquote alias = false ->
        xml_compatible alias = true ->
        target_xml bare_disk "/tmp/scratch" (Some alias) dirpath
        = (Returns None, [(INFO, no_target_message alias)]))
  /\ (forall (xpath_ : string) (default : option string),
        is_tag_path xpath_ = true ->
        update_from_project_xml bare_disk "/tmp/scratch" xpath_ default
        = Returns default).
Proof.
  exact (no_manifest_behaves_as_empty_project bare_disk "/tmp/scratch" eq_refl).
Defined.

(** X5. Inside a project, [project_xml] parses exactly the manifest that
    [project_path] located: the file [project.ptx] of the returned
    directory, which [os.path.isfile] reported as a file. *)
Theorem project_xml_parses_located_manifest :
  forall (fs : filesystem) (dirpath root : string),
    project_path (isfile fs) dirpath = Returns (Some root) ->
    project_xml fs dirpath = parse fs (join root "project.ptx")
    /\ isfile fs (join root "project.ptx") = true.
Proof.
  intros fs dirpath root H. split.
  - unfold project_xml. rewrite H. simpl. now destruct (parse fs _).
  - destruct (LocatorFacts.project_path_rec_spec (isfile fs)
                (S (String.length dirpath)) dirpath) as (r & Hr & Hspec); [lia|].
    unfold project_path in H. rewrite Hr in H. injection H as ->.
    now destruct Hspec as (n & _ & Hm & _).
Qed.

Lemma project_xml_parses_located_manifest_witness :
  project_xml sample_disk sample_cwd
  = parse sample_disk (join "/home/author/book" "project.ptx")
  /\ isfile sample_disk (join "/home/author/book" "project.ptx") = true.
Proof.
  exact (project_xml_parses_located_manifest sample_disk sample_cwd
           "/home/author/book" eq_refl).
Defined.

(** X6. A manifest that is found and does not parse stops every lookup:
    the exception of [ET.parse] leaves [target_xml], with or without
    alias, and [update_from_project_xml] uncaught, and nothing is
    logged. *)
Theorem manifest_parse_error_propagates :
  forall (fs : filesystem) (import_cwd root : string) (e : exn),
    project_path (isfile fs) import_cwd = Returns (Some root) ->
    parse fs (join root "project.ptx") = Raises e ->
    (forall (alias : option string) (dirpath : string),
        target_xml fs import_cwd alias dirpath = (Raises e, []))
    /\ (forall (xpath_ : string) (default : option string),
          update_from_project_xml fs import_cwd xpath_ default = Raises e).
Proof.
  intros fs import_cwd root e Hroot Hparse.
  assert (Hdoc : project_xml fs import_cwd = Raises e).
  { unfold project_xml, manifest_name. rewrite Hroot.
    cbv beta iota delta [bind join_opt]. exact Hparse. }
  split.
  - intros [alias|] dirpath; unfold target_xml; now rewrite Hdoc.
  - intros xpath_ default. unfold update_from_project_xml. now rewrite Hdoc.
Qed.

Definition broken_disk : filesystem :=
  Filesystem (String.eqb "/home/author/book/project.ptx")
             (fun _ => Raises XMLSyntaxError).

Lemma manifest_parse_error_propagates_witness :
  (forall (alias : option string) (dirpath : string),
      target_xml broken_disk sample_cwd alias dirpath = (Raises XMLSyntaxError, []))
  /\ (forall (xpath_ : string) (default : option string),
        update_from_project_xml broken_disk sample_cwd xpath_ default
        = Raises XMLSyntaxError).
Proof.
  exact (manifest_parse_error_propagates broken_disk sample_cwd
           "/home/author/book" XMLSyntaxError eq_refl eq_refl).
Defined.

(** X7. With a manifest that parses and no alias, [target_xml] returns
    the first [target] child of a [targets] child of the root, in document
    order, and [None] when there is no such element; it logs nothing. *)
Theorem target_xml_without_alias_gives_first_target :
  forall (fs : filesystem) (import_cwd dirpath : string) (doc : element),
    project_xml fs import_cwd = Returns doc ->
    target_xml fs import_cwd None dirpath
    = (Returns (head (StoreFacts.targets_of doc)), []).
Proof.
  intros fs import_cwd dirpath doc Hdoc.
  exact (StoreFacts.target_xml_default fs import_cwd doc Hdoc dirpath).
Qed.

Lemma target_xml_without_alias_gives_first_target_witness :
  target_xml sample_disk sample_cwd None "/elsewhere"
  = (Returns (Some (sample_target "intro" "html")), []).
Proof.
  exact (target_xml_without_alias_gives_first_target sample_disk sample_cwd
           "/elsewhere" sample_manifest eq_refl).
Defined.

(** X8. With a manifest that parses and an alias that holds neither a
    double quote nor a control character other than the tab, the line
    feed and the carriage return, [target_xml] returns the first target,
    in document order, that has an [alias] child with a text node equal to
    the alias, character for character, and then logs nothing; when no
    target has one it returns [None] and logs exactly one informational
    record. An alias with such a control character never reaches the
    manifest: the call raises [ValueError]. *)
Theorem target_xml_with_alias_gives_first_match :
  forall (fs : filesystem) (import_cwd dirpath alias : string) (doc : element),
    project_xml fs import_cwd = Returns doc ->
    (contains dquote alias = false ->
     xml_compatible alias = true ->
     match List.find (StoreFacts.has_alias alias) (StoreFacts.targets_of doc) with
     | Some t =>
         target_xml fs import_cwd (Some alias) dirpath = (Returns (Some t), [])
         /\ In t (StoreFacts.targets_of doc)
         /\ StoreFacts.has_alias alias t = true
     | None =>
         target_xml fs import_cwd (Some alias) dirpath
         = (Returns None, [(INFO, no_target_message alias)])
         /\ forall t : element,
              In t (StoreFacts.targets_of doc) -> StoreFacts.has_alias alias t = false
     end)
    /\ (xml_compatible alias = false ->
        target_xml fs import_cwd (Some alias) dirpath
        = (Raises (ValueError not_xml_compatible), [])).
Proof.
  intros fs import_cwd dirpath alias doc Hdoc. split.
  - intros Hq Hc.
    rewrite (StoreFacts.target_xml_alias fs import_cwd doc Hdoc alias dirpath Hq Hc).
    destruct (List.find _ _) as [t|] eqn:E.
    + apply List.find_some in E as [Hin Ha]. repeat split; assumption.
    + split; [reflexivity|]. intros t Hin. exact (List.find_none _ _ E t Hin).
  - intros Hc. unfold target_xml, xpath.
    rewrite Hdoc, StoreFacts.alias_xpath_compatible, Hc. reflexivity.
Qed.

Lemma target_xml_with_alias_gives_first_match_witness :
  target_xml sample_disk sample_cwd (Some "exercises") sample_cwd
  = (Returns (Some (sample_target "exercises" "pdf")), [])
  /\ In (sample_target "exercises" "pdf") (StoreFacts.targets_of sample_manifest)
  /\ StoreFacts.has_alias "exercises" (sample_target "exercises" "pdf") = true.
Proof.
  exact (proj1 (target_xml_with_alias_gives_first_match sample_disk sample_cwd
                  sample_cwd "exercises" sample_manifest eq_refl)
               eq_refl eq_refl).
Defined.

(** X9. For a path made of tag names and a manifest that parses: when
    the element at the path is present with text,
    [update_from_project_xml] returns that text less the whitespace at
    its two ends: the text is the returned value between two runs of
    whitespace, and the returned value neither starts nor ends with
    whitespace. When no element is at the path, it returns the default
    as given. *)
Theorem update_from_project_xml_trims_both_ends :
  forall (fs : filesystem) (import_cwd xpath_ : string) (default : option string)
         (doc : element),
    project_xml fs import_cwd = Returns doc ->
    is_tag_path xpath_ = true ->
    match find xpath_ doc with
    | None => update_from_project_xml fs import_cwd xpath_ default = Returns default
    | Some e =>
        forall t : string,
          text e = Some t ->
          exists v before after : string,
            update_from_project_xml fs import_cwd xpath_ default = Returns (Some v)
            /\ t = String.append before (String.append v after)
            /\ StoreMore.all_space before = true
            /\ StoreMore.all_space after = true
            /\ StoreMore.starts_with_space v = false
            /\ StoreMore.ends_with_space v = false
    end.
Proof.
  intros fs import_cwd xpath_ default doc Hdoc Hp.
  destruct (find xpath_ doc) as [e|] eqn:Hf.
  - intros t Ht.
    destruct (StoreMore.strip_splits t) as (l & r & Heq & Hl & Hr & Hs & He).
    exists (strip t), l, r. repeat split; try assumption.
    exact (StoreFacts.update_present fs import_cwd doc Hdoc xpath_ default e t Hf Ht).
  - exact (StoreFacts.update_absent fs import_cwd doc Hdoc xpath_ default Hp Hf).
Qed.

Lemma update_from_project_xml_trims_both_ends_witness :
  exists v before after : string,
    update_from_project_xml sample_disk sample_cwd "targets/target/source" None
    = Returns (Some v)
    /\ " source/main.ptx "%string = String.append before (String.append v after)
    /\ StoreMore.all_space before = true
    /\ StoreMore.all_space after = true
    /\ StoreMore.starts_with_space v = false
    /\ StoreMore.ends_with_space v = false.
Proof.
  exact (update_from_project_xml_trims_both_ends sample_disk sample_cwd
           "targets/target/source" None sample_manifest eq_refl eq_refl
           " source/main.ptx " eq_refl).
Defined.

(** ** More on the rebuild handler *)

Module RebuildMore.
Import Py Lxml Utils.

(** A child element with text. *)
Definition has_text (child : string) (target : element) : Prop :=
  exists (e : element) (t : string), find child target = Some e /\ text e = Some t.

Lemma text_strip_returns (child : string) (target : element) :
  (exists s, text_strip (find child target) = Returns s) <-> has_text child target.
Proof.
  unfold text_strip, has_text. split.
  - intros [s H]. destruct (find child target) as [e|]; [|discriminate].
    destruct (text e) as [t|] eqn:Ht; [|discriminate]. now exists e, t.
  - intros (e & t & -> & ->). now exists (strip t).
Qed.

Lemma text_strip_raises (child : string) (target : element) :
  (exists s, text_strip (find child target) = Returns s)
  \/ (exists msg, text_strip (find child target) = Raises (AttributeError msg)).
Proof.
  unfold text_strip. destruct (find child target) as [e|]; [|right; eauto].
  destruct (text e); [left|right]; eauto.
Qed.

Section Shared.

Variable build_html : string -> string -> gmap string string -> gmap string string.

(** The content of the handler's mapping from call to call. *)
Lemma dispatch_mappings (events : list fs_event) :
  forall w : watcher,
    builds (dispatch build_html events w)
    = builds w
        ++ map (fun k => BuildCall (ptxfile (bound w)) (output (bound w))
                  (Nat.iter k (build_html (ptxfile (bound w)) (output (bound w)))
                            (stringparams (bound w))))
               (List.seq 0%nat (List.length events)).
Proof.
  induction events as [|ev events IH]; intros w.
  - simpl. now rewrite app_nil_r.
  - rewrite RebuildFacts.dispatch_cons, IH. unfold on_any_event. simpl.
    rewrite <- app_assoc. simpl. do 2 f_equal.
    rewrite <- List.seq_shift, map_map. apply map_ext. intros k.
    now rewrite Nat.iter_succ_r.
Qed.

End Shared.
End RebuildMore.

(** X10. [HTMLRebuildHandler(target)] can be built exactly when the
    target has a [source], an [output-dir] and a [publication] child,
    each with text; for every other target the constructor raises
    [AttributeError]. *)
Theorem rebuild_handler_needs_three_children_with_text :
  forall (abspath : string -> string) (target : element),
    ((exists h, HTMLRebuildHandler_init abspath target = Returns h)
     <-> RebuildMore.has_text "source" target
         /\ RebuildMore.has_text "output-dir" target
         /\ RebuildMore.has_text "publication" target)
    /\ ((exists h, HTMLRebuildHandler_init abspath target = Returns h)
        \/ (exists msg,
              HTMLRebuildHandler_init abspath target = Raises (AttributeError msg))).
Proof.
  intros abspath target.
  pose proof (RebuildMore.text_strip_returns "source" target) as Hs.
  pose proof (RebuildMore.text_strip_returns "output-dir" target) as Ho.
  pose proof (RebuildMore.text_strip_returns "publication" target) as Hp.
  unfold HTMLRebuildHandler_init.
  destruct (RebuildMore.text_strip_raises "source" target) as [[s Es]|[m Es]];
    rewrite Es in *; simpl.
  2: { split; [split|right; eauto].
       - intros [h H]; discriminate.
       - intros (H1 & _). apply Hs in H1 as [x Hx]. discriminate. }
  destruct (RebuildMore.text_strip_raises "output-dir" target) as [[o Eo]|[m Eo]];
    rewrite Eo in *; simpl.
  2: { split; [split|right; eauto].
       - intros [h H]; discriminate.
       - intros (_ & H1 & _). apply Ho in H1 as [x Hx]. discriminate. }
  destruct (RebuildMore.text_strip_raises "publication" target) as [[p Ep]|[m Ep]];
    rewrite Ep in *; simpl.
  2: { split; [split|right; eauto].
       - intros [h H]; discriminate.
       - intros (_ & _ & H1). apply Hp in H1 as [x Hx]. discriminate. }
  split; [split|left; eauto].
  - intros _. repeat split; [apply Hs|apply Ho|apply Hp]; eauto.
  - eauto.
Qed.

(** X11. The handler hands its own mapping to the builder, never a
    copy: the [k]-th rebuild (counting from zero) is called with the
    mapping as [k] earlier calls of the builder have left it, while the
    source path and the output directory are those of the handler in
    every call. *)
Theorem rebuild_mapping_is_shared_with_builder :
  forall (build_html : string -> string -> gmap string string -> gmap string string)
         (h : HTMLRebuildHandler) (events : list fs_event)
         (logged_before : list log_record),
    builds (dispatch build_html events (Watcher h logged_before []))
    = map (fun k => BuildCall (ptxfile h) (output h)
                      (Nat.iter k (build_html (ptxfile h) (output h))
                                (stringparams h)))
          (List.seq 0%nat (List.length events)).
Proof.
  intros build_html h events lg.
  now rewrite RebuildMore.dispatch_mappings.
Qed.

(** ** More on the preview session *)

(** X12. A session without watch target never touches the observer:
    [run_server] logs its three opening records, starts the server
    thread, sleeps until interrupted, logs the two closing records and
    returns, the observer's thread being as it was and neither [stop] nor
    [join] having been called. *)
Theorem run_server_unwatched_leaves_observer_alone :
  forall (fs : filesystem) (import_cwd : string) (abspath : string -> string)
         (directory binding url : string) (port_ : Z) (interrupt_after : nat)
         (w : session),
    run_server fs import_cwd abspath directory binding port_ url None
               interrupt_after w
    = (Returns tt,
       Session
         (logged w
            ++ [(INFO, build_located directory); (INFO, url);
                (INFO, "Use [Ctrl]+[C] to halt the server."%string);
                (INFO, EmptyString); (INFO, "Closing server..."%string)])
         (calls w
            ++ StartServerThread (serve_forever directory binding port_)
               :: repeat Sleep interrupt_after)
         (Some (serve_forever directory binding port_))
         Alive (observer w)).
Proof.
  intros fs import_cwd abspath directory binding url port_ n [lg cs li st ob].
  unfold run_server.
  unfold Utils.seq, log_info, start_server_thread, ret, try_except_interrupt, made.
  simpl. rewrite SessionFacts.sleep_until_interrupted_run. simpl.
  rewrite <- !app_assoc. reflexivity.
Qed.

(** X13. A watch target without [source] child makes [run_server] raise
    [AttributeError] once the server thread is running: the thread has
    been started and stays alive, the three opening records are logged,
    and the observer is neither created nor started. *)
Theorem run_server_bad_watch_target_leaves_server_running :
  forall (fs : filesystem) (import_cwd : string) (abspath : string -> string)
         (directory binding url : string) (port_ : Z) (watch_target : element)
         (interrupt_after : nat) (w : session),
    find "source" watch_target = None ->
    run_server fs import_cwd abspath directory binding port_ url
               (Some watch_target) interrupt_after w
    = (Raises (AttributeError "'NoneType' object has no attribute 'text'"),
       Session
         (logged w
            ++ [(INFO, build_located directory); (INFO, url);
                (INFO, "Use [Ctrl]+[C] to halt the server."%string)])
         (calls w ++ [StartServerThread (serve_forever directory binding port_)])
         (Some (serve_forever directory binding port_))
         Alive (observer w)).
Proof.
  intros fs import_cwd abspath directory binding url port_ t n [lg cs li st ob] Hsrc.
  destruct (LocatorFacts.project_path_rec_spec (isfile fs)
              (S (String.length import_cwd)) import_cwd) as (r & Hr & _); [lia|].
  unfold run_server, start_watch, watch_path.
  unfold Utils.seq, log_info, start_server_thread, lift, made. simpl.
  unfold project_path. rewrite Hr, Hsrc. simpl.
  rewrite <- !app_assoc. reflexivity.
Qed.

Lemma run_server_bad_watch_target_leaves_server_running_witness :
  run_server sample_disk sample_cwd under_book "output/web" "localhost" 8000
             "http://localhost:8000" (Some (leaf "target" "intro")) 4
             (Session [] [] None Unstarted Unstarted)
  = (Raises (AttributeError "'NoneType' object has no attribute 'text'"),
     Session
       [(INFO, build_located "output/web"); (INFO, "http://localhost:8000"%string);
        (INFO, "Use [Ctrl]+[C] to halt the server."%string)]
       [StartServerThread (serve_forever "output/web" "localhost" 8000)]
       (Some (serve_forever "output/web" "localhost" 8000))
       Alive Unstarted).
Proof.
  exact (run_server_bad_watch_target_leaves_server_running sample_disk sample_cwd
           under_book "output/web" "localhost" "http://localhost:8000" 8000
           (leaf "target" "intro") 4 (Session [] [] None Unstarted Unstarted)
           eq_refl).
Defined.

(** X14. A call of [run_server] with a number of positional arguments
    other than five raises [TypeError] before the body runs: the session
    is left exactly as it was. *)
Theorem run_server_call_needs_five_arguments :
  forall (fs : filesystem) (import_cwd : string) (abspath : string -> string)
         (args : list arg) (interrupt_after : nat) (w : session),
    List.length args <> 5%nat ->
    exists msg : string,
      call_run_server fs import_cwd abspath args interrupt_after w
      = (Raises (TypeError msg), w).
Proof.
  intros fs import_cwd abspath args n w Hlen.
  unfold call_run_server, bind_positional, run_server_parameters, Utils.seq, lift.
  simpl List.length.
  destruct (Nat.ltb_spec (List.length args) 5) as [Hlt|Hge].
  - eexists. reflexivity.
  - destruct (Nat.ltb_spec 5 (List.length args)) as [Hgt|Hle]; [|lia].
    eexists. reflexivity.
Qed.

Lemma run_server_call_needs_five_arguments_witness :
  exists msg : string,
    call_run_server sample_disk sample_cwd under_book
      [ArgStr "output"; ArgStr "localhost"; ArgInt 8000;
       ArgStr "http://localhost:8000"; ArgNone; ArgNone] 0
      (Session [] [] None Unstarted Unstarted)
    = (Raises (TypeError msg), Session [] [] None Unstarted Unstarted).
Proof.
  exact (run_server_call_needs_five_arguments sample_disk sample_cwd under_book
           [ArgStr "output"; ArgStr "localhost"; ArgInt 8000;
            ArgStr "http://localhost:8000"; ArgNone; ArgNone] 0
           (Session [] [] None Unstarted Unstarted) ltac:(discriminate)).
Defined.

(** ** More on the preview server *)



(** ** More on the commands *)

Module CliMore.
Import Py Lxml Utils Cli.

Lemma find_app {A : Type} (f : A -> bool) (l1 l2 : list A) :
  List.find f (l1 ++ l2)
  = match List.find f l1 with
    | Some x => Some x
    | None => List.find f l2
    end.
Proof.
  induction l1 as [|x l1 IH]; simpl; [reflexivity|].
  destruct (f x); [reflexivity | exact IH].
Qed.

(** The value that the last pair with key [k] gives it. *)
Definition last_value (k : string) (pairs : list (string * string)) : option string :=
  option_map snd (List.find (fun p => String.eqb (fst p) k) (rev pairs)).

Lemma fold_insert_lookup (pairs : list (string * string)) :
  forall (acc : gmap string string) (k : string),
    fold_left (fun m p => <[ fst p := snd p ]> m) pairs acc !! k
    = match last_value k pairs with
      | Some v => Some v
      | None => acc !! k
      end.
Proof.
  unfold last_value.
  induction pairs as [|[k' v'] pairs IH]; intros acc k; simpl; [reflexivity|].
  rewrite IH, find_app. simpl.
  destruct (List.find _ (rev pairs)) as [[k2 v2]|]; simpl; [reflexivity|].
  destruct (String.eqb_spec k' k) as [->|Hne]; simpl.
  - apply lookup_insert_eq.
  - now apply lookup_insert_ne.
Qed.

(** [o] with another value of the [--xsl] option. *)
Definition with_xsl (x : option string) (o : build_options) : build_options :=
  BuildOptions (opt_target o) (opt_format o) (opt_source o) (opt_output o)
               (opt_stringparam o) x (opt_publication o) (opt_clean o)
               (opt_generate o) (opt_webwork o) (opt_diagrams o)
               (opt_diagrams_format o) (opt_only_assets o).

End CliMore.

(** X16. The [--stringparam] pairs become a mapping in which each key
    has the value of the last pair that names it; with no pair at all,
    the mapping handed on is [None], not an empty [dict]. *)
Theorem stringparams_last_pair_wins :
  forall pairs : list (string * string),
    match stringparams_of pairs with
    | None => pairs = []
    | Some m =>
        pairs <> []
        /\ forall k : string, m !! k = CliMore.last_value k pairs
    end.
Proof.
  intros [|p pairs]; [reflexivity|].
  unfold stringparams_of. simpl (0 <? _)%nat. cbv iota.
  split; [discriminate|]. intros k.
  rewrite CliMore.fold_insert_lookup, lookup_empty.
  now destruct (CliMore.last_value k (p :: pairs)).
Qed.

(** X18. Outside a project the [--xsl] option has no effect on [build]:
    the target made from the command line is the same with any value of
    the option, or none. *)
Theorem build_without_manifest_ignores_xsl :
  forall (fs : filesystem) (import_cwd : string)
         (d1 d2 d3 d4 d5 : option string)
         (manifest_stringparams : element -> gmap string string)
         (project_target : option string -> option element)
         (o : build_options) (x : option string),
    project_path (isfile fs) import_cwd = Returns None ->
    build fs import_cwd d1 d2 d3 d4 d5 manifest_stringparams project_target
          (CliMore.with_xsl x o)
    = build fs import_cwd d1 d2 d3 d4 d5 manifest_stringparams project_target o.
Proof.
  intros fs import_cwd d1 d2 d3 d4 d5 msp project_target o x Hnone.
  unfold build. rewrite Hnone. reflexivity.
Qed.

Lemma build_without_manifest_ignores_xsl_witness :
  build bare_disk "/tmp/scratch" None None None None None no_stringparams
        first_target (CliMore.with_xsl (Some "custom.xsl"%string) only_format_pdf)
  = build bare_disk "/tmp/scratch" None None None None None no_stringparams
          first_target only_format_pdf.
Proof.
  exact (build_without_manifest_ignores_xsl bare_disk "/tmp/scratch" None None None
           None None no_stringparams first_target only_format_pdf
           (Some "custom.xsl"%string) eq_refl).
Defined.

(** * The rest of [utils.py] and [cli.py] *)

(** ** Exceptions of the functions below *)

Module Exc.

(** The exceptions raised by the functions of this part, each with what
    the handlers read from it. *)
Inductive exc : Type :=
| KeyError (key : string)
| ValueError (msg : string)
| UsageError (message : string)
| IOError
| XMLSyntaxError (error_log : string)
| XIncludeError (error_log : string)
| DocumentInvalid (error_log : string)
| SystemExit.

Inductive res (A : Type) : Type :=
| Ok (a : A)
| Err (e : exc).

Arguments Ok {A} a.
Arguments Err {A} e.

End Exc.

(** ** [nstag] and [raise_cli_error] *)

Module Text.
Import Py Exc.

(** [NSMAP] *)
Definition NSMAP : gmap string string :=
  <[ "xi"%string := "http://www.w3.org/2001/XInclude"%string ]>
    {[ "xml"%string := "http://www.w3.org/XML/1998/namespace"%string ]}.

(** [nstag(prefix, suffix)]: [NSMAP[prefix]] raises [KeyError] for a
    prefix that is not a key. *)
Definition nstag (prefix suffix : string) : res string :=
  match NSMAP !! prefix with
  | Some uri => Ok (String.append "{" (String.append uri (String.append "}" suffix)))
  | None => Err (KeyError prefix)
  end.

(** [" ".join(message.split())], with [Py.words] for [split]. *)
Definition single_spaced (message : string) : string :=
  String.concat " " (words message).

(** [raise_cli_error(message)]: the call never returns; its value here
    is the exception it raises. *)
Definition raise_cli_error (message : string) : exc :=
  UsageError (single_spaced message).

(** [message] without its whitespace. *)
Fixpoint unspaced (s : string) : string :=
  match s with
  | EmptyString => EmptyString
  | String c s' => if isspace c then unspaced s' else String c (unspaced s')
  end.

(** No whitespace at either end and no two whitespace characters in a
    row. *)
Fixpoint no_double_space (s : string) : bool :=
  match s with
  | EmptyString => true
  | String c s' =>
      match s' with
      | String c' _ => negb (isspace c && isspace c') && no_double_space s'
      | EmptyString => true
      end
  end.

End Text.

Module TextFacts.
Import Py Exc Text PathFacts.

Lemma NSMAP_lookup (prefix : string) :
  NSMAP !! prefix
  = if String.eqb prefix "xi" then Some "http://www.w3.org/2001/XInclude"%string
    else if String.eqb prefix "xml"
         then Some "http://www.w3.org/XML/1998/namespace"%string
         else None.
Proof.
  unfold NSMAP.
  destruct (String.eqb_spec prefix "xi") as [->|Hxi].
  - apply lookup_insert_eq.
  - rewrite lookup_insert_ne by congruence.
    destruct (String.eqb_spec prefix "xml") as [->|Hxml].
    + apply lookup_singleton_eq.
    + apply lookup_singleton_ne. congruence.
Qed.

(** A word: not empty, and free of whitespace. *)
Fixpoint spaceless (s : string) : bool :=
  match s with
  | EmptyString => true
  | String c s' => negb (isspace c) && spaceless s'
  end.

Definition is_word (w : string) : Prop := w <> EmptyString /\ spaceless w = true.

Lemma prepend_words (c : ascii) (ws : list string) :
  isspace c = false -> Forall is_word ws -> Forall is_word (prepend c ws).
Proof.
  intros Hc Hws. unfold is_word.
  destruct Hws as [|w ws [_ Hw] Hrest]; simpl.
  - constructor; [|constructor]. split; [discriminate|]. simpl. now rewrite Hc.
  - constructor; [|exact Hrest]. split; [discriminate|]. simpl. now rewrite Hc, Hw.
Qed.

Lemma words_are_words (s : string) : Forall is_word (words s).
Proof.
  induction s as [|c s IH]; simpl; [constructor|].
  destruct (isspace c) eqn:Hc; [exact IH|].
  assert (Hone : is_word (String c EmptyString)).
  { split; [discriminate|]. simpl. now rewrite Hc. }
  destruct s as [|c' s']; [constructor; [exact Hone | constructor]|].
  destruct (isspace c'); [now constructor | now apply prepend_words].
Qed.

Lemma words_of_word_then (w rest : string) :
  is_word w ->
  words (w +:+ String " " rest) = w :: words rest.
Proof.
  intros [Hne Hw]. induction w as [|c w IH]; [congruence|].
  simpl in Hw. apply andb_true_iff in Hw as [Hc Hw].
  apply negb_true_iff in Hc. rewrite app_cons. simpl. rewrite Hc.
  destruct w as [|c' w'].
  - rewrite app_empty. reflexivity.
  - rewrite app_cons. simpl in Hw. apply andb_true_iff in Hw as [Hc' Hw'].
    apply negb_true_iff in Hc'. rewrite Hc'.
    rewrite <- app_cons, IH; [reflexivity | discriminate |].
    simpl. now rewrite Hc', Hw'.
Qed.

Lemma words_of_word (w : string) : is_word w -> words w = [w].
Proof.
  intros [Hne Hw]. induction w as [|c w IH]; [congruence|].
  simpl in Hw. apply andb_true_iff in Hw as [Hc Hw].
  apply negb_true_iff in Hc. simpl. rewrite Hc.
  destruct w as [|c' w']; [reflexivity|].
  simpl in Hw. apply andb_true_iff in Hw as [Hc' Hw'].
  apply negb_true_iff in Hc'. rewrite Hc'.
  rewrite IH; [reflexivity | discriminate |]. simpl. now rewrite Hc', Hw'.
Qed.

Lemma concat_cons2 (w w' : string) (ws : list string) :
  String.concat " " (w :: w' :: ws)
  = w +:+ String " " (String.concat " " (w' :: ws)).
Proof. reflexivity. Qed.

(** Splitting undoes joining with single spaces. *)
Lemma words_of_joined (ws : list string) :
  Forall is_word ws -> words (String.concat " " ws) = ws.
Proof.
  induction ws as [|w ws IH]; intros Hws; [reflexivity|].
  inversion Hws as [|? ? Hw Hrest]; subst.
  destruct ws as [|w' ws'].
  - simpl. now apply words_of_word.
  - rewrite concat_cons2, words_of_word_then by exact Hw.
    now rewrite IH.
Qed.

Lemma unspaced_app (a b : string) : unspaced (a +:+ b) = unspaced a +:+ unspaced b.
Proof.
  induction a as [|c a IH]; [reflexivity|]. rewrite app_cons. simpl.
  destruct (isspace c); [exact IH|]. now rewrite app_cons, IH.
Qed.

Definition run_together (ws : list string) : string :=
  fold_right (fun w acc => unspaced w +:+ acc) EmptyString ws.

Lemma unspaced_joined (ws : list string) :
  unspaced (String.concat " " ws) = run_together ws.
Proof.
  induction ws as [|w ws IH]; [reflexivity|].
  destruct ws as [|w' ws'].
  - simpl. clear. induction (unspaced w) as [|c u IHu]; [reflexivity|].
    now rewrite app_cons, <- IHu.
  - rewrite concat_cons2, unspaced_app.
    change (unspaced (String " " (String.concat " " (w' :: ws'))))
      with (unspaced (String.concat " " (w' :: ws'))).
    now rewrite IH.
Qed.

Lemma run_together_words (s : string) : run_together (words s) = unspaced s.
Proof.
  induction s as [|c s IH]; [reflexivity|]. simpl.
  destruct (isspace c) eqn:Hc; [exact IH|].
  destruct s as [|c' s'].
  - simpl. now rewrite Hc.
  - remember (String c' s') as s eqn:Es.
    destruct (isspace c') eqn:Hc'.
    + simpl. rewrite Hc, IH. reflexivity.
    + rewrite <- IH. destruct (words s) as [|w ws]; simpl.
      * now rewrite Hc.
      * now rewrite Hc.
Qed.

(** What joining words with single spaces looks like. *)
Definition tidy (s : string) : Prop :=
  no_double_space s = true
  /\ StoreMore.starts_with_space s = false
  /\ StoreMore.ends_with_space s = false.

Lemma no_double_space_cons2 (c c' : ascii) (s : string) :
  no_double_space (String c (String c' s))
  = negb (isspace c && isspace c') && no_double_space (String c' s).
Proof. reflexivity. Qed.

Lemma ends_with_space_cons2 (c c' : ascii) (s : string) :
  StoreMore.ends_with_space (String c (String c' s))
  = StoreMore.ends_with_space (String c' s).
Proof. reflexivity. Qed.

Lemma isspace_space : isspace " " = true.
Proof. reflexivity. Qed.

Lemma word_then_tidy (w rest : string) :
  is_word w -> rest <> EmptyString -> tidy rest ->
  tidy (w +:+ String " " rest).
Proof.
  intros [Hne Hw] Hrest (Hd & Hs & He). unfold tidy.
  induction w as [|c w IH]; [congruence|].
  simpl in Hw. apply andb_true_iff in Hw as [Hc Hw].
  apply negb_true_iff in Hc. rewrite app_cons.
  destruct w as [|c' w'].
  - clear IH. rewrite app_empty. destruct rest as [|r rest']; [congruence|].
    change (isspace r = false) in Hs.
    rewrite !no_double_space_cons2, !ends_with_space_cons2.
    rewrite Hc, Hs, Hd, isspace_space. repeat split; [exact Hc | exact He].
  - destruct IH as (IHd & IHs & IHe); [discriminate | exact Hw |].
    rewrite app_cons in *.
    rewrite no_double_space_cons2, ends_with_space_cons2, Hc, IHd.
    repeat split; [exact Hc | exact IHe].
Qed.

Lemma word_tidy (w : string) : is_word w -> tidy w.
Proof.
  intros [Hne Hw]. unfold tidy. induction w as [|c w IH]; [congruence|].
  simpl in Hw. apply andb_true_iff in Hw as [Hc Hw].
  apply negb_true_iff in Hc.
  destruct w as [|c' w'].
  - simpl. rewrite Hc. repeat split.
  - destruct IH as (IHd & IHs & IHe); [discriminate | exact Hw |].
    rewrite no_double_space_cons2, ends_with_space_cons2, Hc, IHd.
    repeat split; [exact Hc | exact IHe].
Qed.

Lemma joined_tidy (ws : list string) :
  Forall is_word ws -> tidy (String.concat " " ws).
Proof.
  induction ws as [|w ws IH]; intros Hws; [repeat split|].
  inversion Hws as [|? ? Hw Hrest]; subst.
  destruct ws as [|w' ws'].
  - simpl. now apply word_tidy.
  - rewrite concat_cons2. apply word_then_tidy; [exact Hw | | now apply IH].
    inversion Hrest as [|? ? [Hne' _] _]; subst.
    destruct ws' as [|w'' ws'']; [exact Hne'|].
    rewrite concat_cons2. destruct w'; [congruence | discriminate].
Qed.

(** [message] is made of the words [ws], in this order: whitespace may
    come before the first and after the last, and a run of at least one
    whitespace character stands between two of them. *)
Inductive spaced_out : list string -> string -> Prop :=
| spaced_end (gap : string) :
    StoreMore.all_space gap = true -> spaced_out [] gap
| spaced_word (gap w rest : string) (ws : list string) :
    StoreMore.all_space gap = true ->
    is_word w ->
    StoreMore.starts_with_space rest = true \/ rest = EmptyString ->
    spaced_out ws rest ->
    spaced_out (w :: ws) (gap +:+ w +:+ rest).

Lemma spaced_push (c : ascii) (ws : list string) (s : string) :
  isspace c = true -> spaced_out ws s -> spaced_out ws (String c s).
Proof.
  intros Hc H. destruct H as [gap Hgap|gap w rest ws Hgap Hw Hrest Hws].
  - apply spaced_end. simpl. now rewrite Hc.
  - rewrite <- app_cons. apply spaced_word; try assumption.
    simpl. now rewrite Hc.
Qed.

Lemma spaced_glue (c : ascii) (ws : list string) (s : string) :
  isspace c = false -> StoreMore.starts_with_space s = false -> s <> EmptyString ->
  spaced_out ws s -> spaced_out (prepend c ws) (String c s).
Proof.
  intros Hc Hs Hne H. destruct H as [gap Hgap|gap w rest ws Hgap [Hw1 Hw2] Hrest Hws].
  - destruct gap as [|g gap]; [congruence|]. simpl in Hs, Hgap.
    rewrite Hs in Hgap. discriminate.
  - destruct gap as [|g gap].
    + rewrite app_empty. simpl prepend.
      change (String c (w +:+ rest)) with (EmptyString +:+ String c w +:+ rest).
      apply spaced_word; try assumption.
      split; [discriminate|]. simpl. now rewrite Hc, Hw2.
    + rewrite app_cons in Hs. simpl in Hs, Hgap. rewrite Hs in Hgap. discriminate.
Qed.

(** [words] finds the words of a string. *)
Lemma words_spaced_out (s : string) : spaced_out (words s) s.
Proof.
  induction s as [|c s IH]; [now apply spaced_end|].
  simpl words. destruct (isspace c) eqn:Hc; [now apply spaced_push|].
  assert (Hone : is_word (String c EmptyString)).
  { split; [discriminate|]. simpl. now rewrite Hc. }
  destruct s as [|c' s'].
  - change (String c EmptyString)
      with (EmptyString +:+ String c EmptyString +:+ EmptyString) at 2.
    apply spaced_word; [reflexivity | exact Hone | now right | now apply spaced_end].
  - destruct (isspace c') eqn:Hc'.
    + change (String c (String c' s'))
        with (EmptyString +:+ String c EmptyString +:+ String c' s').
      apply spaced_word; [reflexivity | exact Hone | now left | exact IH].
    + apply spaced_glue; [exact Hc | exact Hc' | discriminate | exact IH].
Qed.

End TextFacts.

(** X19. [nstag] puts the namespace of the prefix, in braces, before
    the suffix: the XInclude namespace for [xi], the XML namespace for
    [xml]. It raises [KeyError] for every other prefix, and for no other;
    two calls that return the same tag had the same prefix and the same
    suffix. *)
Theorem nstag_is_injective :
  forall prefix suffix : string,
    Text.nstag "xi" suffix
    = Exc.Ok (String.append "{http://www.w3.org/2001/XInclude}" suffix)
    /\ Text.nstag "xml" suffix
       = Exc.Ok (String.append "{http://www.w3.org/XML/1998/namespace}" suffix)
    /\ (Text.nstag prefix suffix = Exc.Err (Exc.KeyError prefix)
        <-> prefix <> "xi"%string /\ prefix <> "xml"%string)
    /\ forall (prefix' suffix' tag_ : string),
         Text.nstag prefix suffix = Exc.Ok tag_ ->
         Text.nstag prefix' suffix' = Exc.Ok tag_ ->
         prefix = prefix' /\ suffix = suffix'.
Proof.
  intros prefix suffix. unfold Text.nstag.
  split; [|split; [|split]].
  - rewrite TextFacts.NSMAP_lookup. reflexivity.
  - rewrite TextFacts.NSMAP_lookup. reflexivity.
  - rewrite TextFacts.NSMAP_lookup.
    destruct (String.eqb_spec prefix "xi") as [->|Hxi].
    { split; [discriminate | intros [H _]; congruence]. }
    destruct (String.eqb_spec prefix "xml") as [->|Hxml].
    { split; [discriminate | intros [_ H]; congruence]. }
    split; [now split | reflexivity].
  - intros prefix' suffix' tag_. rewrite !TextFacts.NSMAP_lookup.
    destruct (String.eqb_spec prefix "xi") as [->|Hxi];
      [|destruct (String.eqb_spec prefix "xml") as [->|Hxml]; [|discriminate]];
      (destruct (String.eqb_spec prefix' "xi") as [->|Hxi'];
        [|destruct (String.eqb_spec prefix' "xml") as [->|Hxml']; [|discriminate]]);
      intros H1 H2; rewrite <- H1 in H2; vm_compute in H2;
      first [discriminate | injection H2 as ->; split; reflexivity].
Qed.

(** X20. [raise_cli_error] raises a [UsageError] whose message is made
    of the words of the given one, in their order, with exactly one space
    between two of them and nothing at the ends, the words being the
    stretches without whitespace that whitespace or an end of the message
    bounds on either side. So every run of whitespace between two words
    has become one space, the runs at the ends are gone, the characters
    other than whitespace are kept in their order, and a message that went
    through once comes out unchanged the second time. *)
Theorem raise_cli_error_single_spaces :
  forall message : string,
    exists (ws : list string) (tidied : string),
      TextFacts.spaced_out ws message
      /\ tidied = String.concat " " ws
      /\ Text.raise_cli_error message = Exc.UsageError tidied
      /\ Text.no_double_space tidied = true
      /\ StoreMore.starts_with_space tidied = false
      /\ StoreMore.ends_with_space tidied = false
      /\ Text.unspaced tidied = Text.unspaced message
      /\ Text.raise_cli_error tidied = Exc.UsageError tidied.
Proof.
  intros message. exists (words message), (Text.single_spaced message).
  pose proof (TextFacts.words_are_words message) as Hw.
  destruct (TextFacts.joined_tidy _ Hw) as (Hd & Hs & He).
  unfold Text.raise_cli_error, Text.single_spaced in *.
  split; [apply TextFacts.words_spaced_out|].
  repeat split; try assumption.
  - now rewrite TextFacts.unspaced_joined, TextFacts.run_together_words.
  - now rewrite TextFacts.words_of_joined.
Qed.

(** ** [pretext new] *)

Module Scaffold.
Import Py PosixPath Utils Exc.

(** [s[i:]] for [0 <= i]. *)
Fixpoint slice_from (i : nat) (s : string) : string :=
  match i, s with
  | O, _ => s
  | S k, String _ s' => slice_from k s'
  | S _, EmptyString => EmptyString
  end.

(** [posixpath.basename(p)]: [p[p.rfind(sep) + 1:]] *)
Definition basename (p : string) : string :=
  slice_from (Z.to_nat (rfind sep p + 1)) p.

(** [l.index(x)], [None] standing for its [ValueError]. *)
Fixpoint index_of (x : string) (l : list string) : option nat :=
  match l with
  | [] => None
  | y :: l' => if String.eqb y x then Some O else option_map S (index_of x l')
  end.

(** The answer of [project_path], which always returns (see
    [LocatorFacts.project_path_rec_spec]). *)
Definition project_root (isfile : string -> bool) (dirpath : string) : option string :=
  match project_path isfile dirpath with
  | Returns r => r
  | _ => None
  end.

(** Where the template comes from: [requests.get(url_template)] or the
    packaged [templates/<template>.zip]. *)
Inductive archive_source : Type :=
| FromUrl (url : string)
| FromFile (path : string).

(** What [new] does on the disk once it has decided to generate. *)
Record generation : Type := Generation {
  extracted : list string;
  copied_from : string;
  copied_to : string;
  requirements_file : string;
  requirements_text : string
}.

Inductive scaffolding : Type :=
| NotGenerated
| Generated (g : generation).

Section New.

Variable isfile : string -> bool.
Variable abspath : string -> string.

(** [static.path] of the package, applied to path parts, and [cli_version()]. *)
Variable static_path : list string -> string.
Variable cli_version : string.

(** [ZipFile(...).namelist()] of the archive obtained from a source. *)
Variable namelist : archive_source -> list string.

(** The name of the [TemporaryDirectory]. *)
Variable tmpdirname : string.

Definition already_exists (root : string) : string :=
  String.append "A project already exists in `" (String.append root "`.").

Definition generating (directory_fullpath template : string) : string :=
  String.append "Generating new PreTeXt project in `"
    (String.append directory_fullpath
      (String.append "` using `" (String.append template "` template."))).

Definition success_open (directory_fullpath : string) : string :=
  String.append "Success! Open `"
    (String.append directory_fullpath "/source/main.ptx` to edit your document").

Definition then_try (directory_fullpath : string) : string :=
  String.append "Then try to `pretext build` and `pretext view` from within `"
    (String.append directory_fullpath "`.").

(** [new(template, directory, url_template)]. Failures of the network,
    of the archive reader and of the disk are not modelled. *)
Definition new (template directory : string) (url_template : option string)
  : res scaffolding * list log_record :=
  let directory_fullpath := abspath directory in
  match project_root isfile directory_fullpath with
  | Some root =>
      (Ok NotGenerated,
       [(WARNING, already_exists root);
        (WARNING, "No new project will be generated."%string)])
  | None =>
      let log1 := [(INFO, generating directory_fullpath template)] in
      let archive :=
        match url_template with
        | Some url => FromUrl url
        | None => FromFile (static_path ["templates"%string;
                                         String.append template ".zip"])
        end in
      let filenames := map basename (namelist archive) in
      match index_of "project.ptx" filenames with
      | None => (Err (ValueError "'project.ptx' is not in list"), log1)
      | Some project_ptx_index =>
          let project_ptx_path :=
            nth project_ptx_index (namelist archive) EmptyString in
          let project_dir_path := dirname project_ptx_path in
          let members :=
            List.filter (String.prefix project_dir_path) (namelist archive) in
          let tmpsubdirname := join tmpdirname project_dir_path in
          (Ok (Generated
                 (Generation members tmpsubdirname directory
                    (join directory_fullpath "requirements.txt")
                    (String.append "pretextbook == " cli_version))),
           log1 ++ [(INFO, success_open directory_fullpath);
                    (INFO, then_try directory_fullpath)])
      end
  end.

End New.
End Scaffold.

Module ScaffoldFacts.
Import Py PosixPath Utils Exc Scaffold PathFacts.

Lemma prefix_of_str_prefix (a b : string) :
  str_prefix a b -> String.prefix a b = true.
Proof.
  intros [t ->]. induction a as [|c a IH]; [now destruct t|].
  rewrite app_cons. simpl. destruct (ascii_dec c c); [exact IH | congruence].
Qed.

(** [index_of] finds the first position that holds [x]. *)
Lemma index_of_some (x : string) (l : list string) (i : nat) :
  index_of x l = Some i ->
  nth_error l i = Some x
  /\ forall j : nat, (j < i)%nat -> nth_error l j <> Some x.
Proof.
  revert i. induction l as [|y l IH]; intros i; simpl; [discriminate|].
  destruct (String.eqb_spec y x) as [->|Hne].
  - intros [= <-]. split; [reflexivity|]. intros j Hj. lia.
  - destruct (index_of x l) as [k|]; [|discriminate].
    intros [= <-]. destruct (IH k eq_refl) as [Hk Hbefore].
    split; [exact Hk|]. intros [|j] Hj; simpl; [congruence|].
    apply Hbefore. lia.
Qed.

Lemma index_of_none (x : string) (l : list string) :
  index_of x l = None <-> ~ In x l.
Proof.
  split.
  - induction l as [|y l IH]; simpl; [tauto|].
    destruct (String.eqb_spec y x) as [->|Hne]; [discriminate|].
    destruct (index_of x l) as [k|]; [discriminate|].
    intros _ [H|H]; [congruence | now apply IH].
  - intros Hnot. destruct (index_of x l) as [i|] eqn:E; [|reflexivity].
    apply index_of_some in E as [E _]. apply nth_error_In in E. contradiction.
Qed.

Lemma nth_error_map_basename (l : list string) (i : nat) :
  nth_error (map basename l) i = Some "project.ptx"%string ->
  exists f, nth_error l i = Some f
            /\ nth i l EmptyString = f
            /\ basename f = "project.ptx"%string.
Proof.
  revert i. induction l as [|y l IH]; intros [|i]; simpl; try discriminate.
  - intros [= H]. now exists y.
  - apply IH.
Qed.

Lemma project_root_some (isfile : string -> bool) (dirpath : string) :
  (exists n, has_manifest isfile (ascend n dirpath) = true) ->
  exists root, project_root isfile dirpath = Some root
               /\ has_manifest isfile root = true.
Proof.
  intros [n Hn]. unfold project_root, project_path.
  destruct (LocatorFacts.project_path_rec_spec isfile
              (S (String.length dirpath)) dirpath) as (r & Hr & Hspec); [lia|].
  rewrite Hr. destruct r as [root|].
  - exists root. split; [reflexivity|]. now destruct Hspec as (m & _ & Hm & _).
  - simpl in Hspec. rewrite Hspec in Hn. discriminate.
Qed.

End ScaffoldFacts.

Lemma project_root_none (isfile : string -> bool) (dirpath : string) :
  (forall n, isfile (join (ascend n dirpath) "project.ptx") = false) ->
  Scaffold.project_root isfile dirpath = None.
Proof.
  intros Hall. unfold Scaffold.project_root, project_path.
  destruct (LocatorFacts.project_path_rec_spec isfile
              (S (String.length dirpath)) dirpath) as (r & Hr & Hspec); [lia|].
  rewrite Hr. destruct r as [root|]; [|reflexivity].
  destruct Hspec as (m & -> & Hm & _). unfold has_manifest, manifest_name in Hm.
  rewrite Hall in Hm. discriminate.
Qed.

(** The archive that [new] opens. *)
Definition chosen_archive (static_path : list string -> string)
    (template : string) (url_template : option string) : Scaffold.archive_source :=
  match url_template with
  | Some url => Scaffold.FromUrl url
  | None => Scaffold.FromFile
              (static_path ["templates"%string; String.append template ".zip"])
  end.

(** X21. [new] never generates inside a project: when the directory
    asked for, or a directory above it, holds [project.ptx], the command
    logs two warnings, the first naming the project found, and touches
    neither the archive nor the disk. *)
Theorem new_refuses_inside_a_project :
  forall (isfile : string -> bool) (abspath : string -> string)
         (static_path : list string -> string) (cli_version : string)
         (namelist : Scaffold.archive_source -> list string) (tmpdirname : string)
         (template directory : string) (url_template : option string) (n : nat),
    isfile (join (ascend n (abspath directory)) "project.ptx") = true ->
    exists root : string,
      Scaffold.new isfile abspath static_path cli_version namelist tmpdirname
                   template directory url_template
      = (Exc.Ok Scaffold.NotGenerated,
         [(WARNING, Scaffold.already_exists root);
          (WARNING, "No new project will be generated."%string)])
      /\ isfile (join root "project.ptx") = true.
Proof.
  intros isfile abspath static_path cli_version namelist tmpdirname
         template directory url_template n Hn.
  destruct (ScaffoldFacts.project_root_some isfile (abspath directory))
    as (root & Hroot & Hm); [now exists n|].
  exists root. unfold Scaffold.new. rewrite Hroot. now split.
Qed.

Definition book_zip (source : Scaffold.archive_source) : list string :=
  ["README.md"; "book/"; "book/project.ptx"; "book/source/main.ptx";
   "book-extras/notes.txt"; "article/project.ptx"]%string.

Definition packaged (parts : list string) : string :=
  String.append "/usr/lib/pretext/static/" (String.concat "/" parts).

Lemma new_refuses_inside_a_project_witness :
  exists root : string,
    Scaffold.new book_only under_book packaged "0.3.0" book_zip "/tmp/tmpab12"
                 "book" "source/new-project" None
    = (Exc.Ok Scaffold.NotGenerated,
       [(WARNING, Scaffold.already_exists root);
        (WARNING, "No new project will be generated."%string)])
    /\ book_only (join root "project.ptx") = true.
Proof.
  exact (new_refuses_inside_a_project book_only under_book packaged "0.3.0"
           book_zip "/tmp/tmpab12" "book" "source/new-project" None 2 eq_refl).
Defined.

(** X22. Outside any project and with an archive that has a member
    named [project.ptx], [new] generates: the manifest it takes is the
    first such member of the archive; the members it extracts are exactly
    those whose name starts with the name of that manifest's directory,
    the manifest among them; the tree it copies to the directory is the
    manifest's directory under the temporary directory; and the
    requirements file names the running version. *)
Theorem new_extracts_the_tree_of_the_first_manifest :
  forall (isfile : string -> bool) (abspath : string -> string)
         (static_path : list string -> string) (cli_version : string)
         (namelist : Scaffold.archive_source -> list string) (tmpdirname : string)
         (template directory : string) (url_template : option string),
    (forall n, isfile (join (ascend n (abspath directory)) "project.ptx") = false) ->
    In "project.ptx"%string
       (map Scaffold.basename
            (namelist (chosen_archive static_path template url_template))) ->
    exists (g : Scaffold.generation) (records : list log_record)
           (manifest : string) (i : nat),
      Scaffold.new isfile abspath static_path cli_version namelist tmpdirname
                   template directory url_template
      = (Exc.Ok (Scaffold.Generated g), records)
      /\ nth_error (namelist (chosen_archive static_path template url_template)) i
         = Some manifest
      /\ Scaffold.basename manifest = "project.ptx"%string
      /\ (forall (j : nat) (f : string),
            (j < i)%nat ->
            nth_error (namelist (chosen_archive static_path template url_template)) j
            = Some f ->
            Scaffold.basename f <> "project.ptx"%string)
      /\ In manifest (Scaffold.extracted g)
      /\ (forall f : string,
            In f (Scaffold.extracted g)
            <-> In f (namelist (chosen_archive static_path template url_template))
                /\ String.prefix (dirname manifest) f = true)
      /\ Scaffold.copied_from g = join tmpdirname (dirname manifest)
      /\ Scaffold.copied_to g = directory
      /\ Scaffold.requirements_file g = join (abspath directory) "requirements.txt"
      /\ Scaffold.requirements_text g = String.append "pretextbook == " cli_version.
Proof.
  intros isfile abspath static_path cli_version namelist tmpdirname
         template directory url_template Hnone Hin.
  unfold Scaffold.new. rewrite (project_root_none _ _ Hnone).
  fold (chosen_archive static_path template url_template).
  set (names := namelist (chosen_archive static_path template url_template)) in *.
  destruct (Scaffold.index_of "project.ptx" (map Scaffold.basename names))
    as [i|] eqn:Ei.
  2: { apply ScaffoldFacts.index_of_none in Ei. contradiction. }
  destruct (ScaffoldFacts.index_of_some _ _ _ Ei) as [Hi Hbefore].
  destruct (ScaffoldFacts.nth_error_map_basename _ _ Hi) as (f & Hf & Hnth & Hbase).
  rewrite Hnth. do 2 eexists. exists f, i.
  split; [reflexivity|]. simpl.
  split; [exact Hf|]. split; [exact Hbase|].
  split.
  { intros j f' Hj Hf' Hb. apply (Hbefore j Hj).
    rewrite nth_error_map, Hf'. simpl. now rewrite Hb. }
  assert (Hfilter : forall x, In x (List.filter (String.prefix (dirname f)) names)
                              <-> In x names /\ String.prefix (dirname f) x = true).
  { intros x. apply List.filter_In. }
  split.
  { apply Hfilter. split; [now apply nth_error_In in Hf|].
    apply ScaffoldFacts.prefix_of_str_prefix, PathFacts.dirname_prefix. }
  split; [exact Hfilter|]. repeat split.
Qed.

Definition nowhere (p : string) : bool := false.

Lemma new_extracts_the_tree_of_the_first_manifest_witness :
  exists (g : Scaffold.generation) (records : list log_record)
         (manifest : string) (i : nat),
    Scaffold.new nowhere under_book packaged "0.3.0" book_zip "/tmp/tmpab12"
                 "book" "new-pretext-project" None
    = (Exc.Ok (Scaffold.Generated g), records)
    /\ nth_error (book_zip (chosen_archive packaged "book" None)) i = Some manifest
    /\ Scaffold.basename manifest = "project.ptx"%string
    /\ (forall (j : nat) (f : string),
          (j < i)%nat ->
          nth_error (book_zip (chosen_archive packaged "book" None)) j = Some f ->
          Scaffold.basename f <> "project.ptx"%string)
    /\ In manifest (Scaffold.extracted g)
    /\ (forall f : string,
          In f (Scaffold.extracted g)
          <-> In f (book_zip (chosen_archive packaged "book" None))
              /\ String.prefix (dirname manifest) f = true)
    /\ Scaffold.copied_from g = join "/tmp/tmpab12" (dirname manifest)
    /\ Scaffold.copied_to g = "new-pretext-project"%string
    /\ Scaffold.requirements_file g
       = join (under_book "new-pretext-project") "requirements.txt"
    /\ Scaffold.requirements_text g = String.append "pretextbook == " "0.3.0".
Proof.
  exact (new_extracts_the_tree_of_the_first_manifest nowhere under_book packaged
           "0.3.0" book_zip "/tmp/tmpab12" "book" "new-pretext-project" None
           (fun _ => eq_refl)
           (or_intror (or_intror (or_introl eq_refl)))).
Defined.

(** X23. Outside any project and with an archive that has no member
    named [project.ptx], [new] raises [ValueError] once it has logged
    that it is generating: nothing is extracted or written. *)
Theorem new_needs_a_manifest_in_the_archive :
  forall (isfile : string -> bool) (abspath : string -> string)
         (static_path : list string -> string) (cli_version : string)
         (namelist : Scaffold.archive_source -> list string) (tmpdirname : string)
         (template directory : string) (url_template : option string),
    (forall n, isfile (join (ascend n (abspath directory)) "project.ptx") = false) ->
    (forall f : string,
        In f (namelist (chosen_archive static_path template url_template)) ->
        Scaffold.basename f <> "project.ptx"%string) ->
    Scaffold.new isfile abspath static_path cli_version namelist tmpdirname
                 template directory url_template
    = (Exc.Err (Exc.ValueError "'project.ptx' is not in list"),
       [(INFO, Scaffold.generating (abspath directory) template)]).
Proof.
  intros isfile abspath static_path cli_version namelist tmpdirname
         template directory url_template Hnone Hno.
  unfold Scaffold.new. rewrite (project_root_none _ _ Hnone).
  fold (chosen_archive static_path template url_template).
  destruct (Scaffold.index_of _ _) as [i|] eqn:Ei; [|reflexivity].
  apply ScaffoldFacts.index_of_some in Ei as [Hi _].
  apply ScaffoldFacts.nth_error_map_basename in Hi as (f & Hf & _ & Hb).
  apply nth_error_In in Hf. now elim (Hno f Hf).
Qed.

Definition notes_zip (source : Scaffold.archive_source) : list string :=
  ["README.md"; "notes/project.ptx.bak"]%string.

Lemma new_needs_a_manifest_in_the_archive_witness :
  Scaffold.new nowhere under_book packaged "0.3.0" notes_zip "/tmp/tmpab12"
               "hello" "new-pretext-project" (Some "https://example.org/t.zip"%string)
  = (Exc.Err (Exc.ValueError "'project.ptx' is not in list"),
     [(INFO, Scaffold.generating (under_book "new-pretext-project") "hello")]).
Proof.
  refine (new_needs_a_manifest_in_the_archive nowhere under_book packaged "0.3.0"
            notes_zip "/tmp/tmpab12" "hello" "new-pretext-project"
            (Some "https://example.org/t.zip"%string) (fun _ => eq_refl) _).
  intros f [<-|[<-|[]]]; discriminate.
Defined.

(** ** [xml_syntax_check] and [schema_validate] *)

Module Validation.
Import Py PosixPath Exc.

(** What the two checks leave behind: the records logged and the files
    written, each with its content. *)
Record report : Type := Report {
  records : list log_record;
  files : list (string * string)
}.

Section Checks.

(** A parsed document; lxml decides what it is. *)
Variable tree : Type.

(** [ET.parse(xmlfile)] and [source_xml.xinclude()], which works in
    place: the tree after the pass, or the exception raised. *)
Variable parse : string -> res tree.
Variable xinclude : tree -> res tree.

(** [for i in range(n): source_xml.xinclude()] *)
Fixpoint xinclude_passes (n : nat) (t : tree) : res tree :=
  match n with
  | O => Ok t
  | S k =>
      match xinclude t with
      | Ok t' => xinclude_passes k t'
      | Err e => Err e
      end
  end.

(** [xml_syntax_check(xmlfile)]; [quit()] raises [SystemExit]. *)
Definition xml_syntax_check (xmlfile : string) : res unit * report :=
  let attempt :=
    match parse xmlfile with
    | Ok source_xml => xinclude_passes 25 source_xml
    | Err e => Err e
    end in
  match attempt with
  | Ok _ =>
      (Ok tt, Report [(INFO, "XML syntax appears well formed."%string)] [])
  | Err IOError =>
      (Ok tt, Report [(ERROR, "Invalid File"%string)] [])
  | Err (XMLSyntaxError error_log) =>
      (Err SystemExit,
       Report [(ERROR, "XML Syntax Error, see error_syntax.log. Quitting..."%string)]
              [("error_syntax.log"%string, error_log)])
  | Err (XIncludeError error_log) =>
      (Err SystemExit,
       Report [(ERROR, "XML Syntax Error with instance of xinclude; see error_syntax.log. Quitting..."%string)]
              [("error_syntax.log"%string, error_log)])
  | Err e => (Err e, Report [] [])
  end.

(** A compiled RelaxNG schema. *)
Variable schema : Type.

(** [static.__file__], [ET.RelaxNG(file=...)] and
    [relaxng.assertValid(source_xml)]. *)
Variable static_file : string.
Variable load_schema : string -> res schema.
Variable assert_valid : schema -> tree -> res unit.

(** [schema_validate(xmlfile)] *)
Definition schema_validate (xmlfile : string) : res unit * report :=
  let static_dir := dirname static_file in
  let schemarngfile := join (join static_dir "schema") "pretext.rng" in
  match load_schema schemarngfile with
  | Err e => (Err e, Report [] [])
  | Ok relaxng =>
      match parse xmlfile with
      | Err e => (Err e, Report [] [])
      | Ok source_xml =>
          match assert_valid relaxng source_xml with
          | Ok _ =>
              (Ok tt,
               Report [(INFO, "PreTeXt source passed schema validation."%string)] [])
          | Err (DocumentInvalid error_log) =>
              (Ok tt,
               Report [(WARNING, "PreTeXt document did not pass schema validation; unexpected output may result. See error_schema.log for hints.  Continuing with build."%string)]
                      [("error_schema.log"%string, error_log)])
          | Err e => (Err e, Report [] [])
          end
      end
  end.

Lemma xinclude_passes_add (a b : nat) :
  forall t : tree,
    xinclude_passes (a + b) t
    = match xinclude_passes a t with
      | Ok t' => xinclude_passes b t'
      | Err e => Err e
      end.
Proof.
  induction a as [|a IH]; intros t; simpl; [reflexivity|].
  destruct (xinclude t) as [t'|e]; [apply IH | reflexivity].
Qed.

End Checks.
End Validation.

(** X24. [xml_syntax_check] runs the XInclude pass twenty-five times
    and no more. A document on which the first failing pass is among them
    makes the check quit, after one error record and with the error log
    written to [error_syntax.log]; a document on which the first failing
    pass would come later is reported as well formed and nothing is
    written. *)
Theorem xml_syntax_check_stops_after_25_passes :
  forall (tree : Type) (parse : string -> Exc.res tree)
         (xinclude : tree -> Exc.res tree) (xmlfile : string)
         (t t_k : tree) (k : nat) (error_log : string),
    parse xmlfile = Exc.Ok t ->
    Validation.xinclude_passes tree xinclude k t = Exc.Ok t_k ->
    xinclude t_k = Exc.Err (Exc.XIncludeError error_log) ->
    ((k < 25)%nat ->
       Validation.xml_syntax_check tree parse xinclude xmlfile
       = (Exc.Err Exc.SystemExit,
          Validation.Report
            [(ERROR, "XML Syntax Error with instance of xinclude; see error_syntax.log. Quitting..."%string)]
            [("error_syntax.log"%string, error_log)]))
    /\ ((25 <= k)%nat ->
        Validation.xml_syntax_check tree parse xinclude xmlfile
        = (Exc.Ok tt,
           Validation.Report [(INFO, "XML syntax appears well formed."%string)] [])).
Proof.
  intros tree parse xinclude xmlfile t t_k k error_log Hparse Hk Hfail.
  unfold Validation.xml_syntax_check. rewrite Hparse. split; intros Hlt.
  - replace 25%nat with (k + (1 + (24 - k)))%nat by lia.
    rewrite Validation.xinclude_passes_add, Hk. simpl. now rewrite Hfail.
  - replace k with (25 + (k - 25))%nat in Hk by lia.
    rewrite Validation.xinclude_passes_add in Hk.
    destruct (Validation.xinclude_passes tree xinclude 25 t); [reflexivity|discriminate].
Qed.

(** A document that nests inclusions: the number of levels left. *)
Definition unfold_level (levels : nat) : Exc.res nat :=
  match levels with
  | O => Exc.Err (Exc.XIncludeError "could not load chapter.ptx")
  | S k => Exc.Ok k
  end.

Lemma xml_syntax_check_stops_after_25_passes_witness :
  Validation.xml_syntax_check nat (fun _ => Exc.Ok 3%nat) unfold_level "main.ptx"
  = (Exc.Err Exc.SystemExit,
     Validation.Report
       [(ERROR, "XML Syntax Error with instance of xinclude; see error_syntax.log. Quitting..."%string)]
       [("error_syntax.log"%string, "could not load chapter.ptx"%string)]).
Proof.
  exact (proj1 (xml_syntax_check_stops_after_25_passes nat (fun _ => Exc.Ok 3%nat)
                  unfold_level "main.ptx" 3%nat 0%nat 3%nat
                  "could not load chapter.ptx" eq_refl eq_refl eq_refl)
               ltac:(lia)).
Defined.

(** X25. The two checks treat the same failure differently. A file that
    cannot be read is tolerated by [xml_syntax_check], which logs one
    error and returns, and a file that does not parse makes it quit; from
    [schema_validate] either failure escapes uncaught, with nothing logged
    or written, once the schema has loaded. *)
Theorem parse_failure_is_handled_by_syntax_check_only :
  forall (tree schema : Type) (parse : string -> Exc.res tree)
         (xinclude : tree -> Exc.res tree) (static_file : string)
         (load_schema : string -> Exc.res schema)
         (assert_valid : schema -> tree -> Exc.res unit)
         (xmlfile : string) (rng : schema),
    load_schema (join (join (dirname static_file) "schema") "pretext.rng")
    = Exc.Ok rng ->
    (parse xmlfile = Exc.Err Exc.IOError ->
       Validation.xml_syntax_check tree parse xinclude xmlfile
       = (Exc.Ok tt, Validation.Report [(ERROR, "Invalid File"%string)] [])
       /\ Validation.schema_validate tree parse schema static_file load_schema
            assert_valid xmlfile
          = (Exc.Err Exc.IOError, Validation.Report [] []))
    /\ (forall error_log : string,
          parse xmlfile = Exc.Err (Exc.XMLSyntaxError error_log) ->
          Validation.xml_syntax_check tree parse xinclude xmlfile
          = (Exc.Err Exc.SystemExit,
             Validation.Report
               [(ERROR, "XML Syntax Error, see error_syntax.log. Quitting..."%string)]
               [("error_syntax.log"%string, error_log)])
          /\ Validation.schema_validate tree parse schema static_file load_schema
               assert_valid xmlfile
             = (Exc.Err (Exc.XMLSyntaxError error_log), Validation.Report [] [])).
Proof.
  intros tree schema parse xinclude static_file load_schema assert_valid
         xmlfile rng Hrng.
  unfold Validation.xml_syntax_check, Validation.schema_validate.
  rewrite Hrng. split.
  - intros ->. split; reflexivity.
  - intros error_log ->. split; reflexivity.
Qed.

Lemma parse_failure_is_handled_by_syntax_check_only_witness :
  Validation.xml_syntax_check nat (fun _ => Exc.Err Exc.IOError) unfold_level
    "missing.ptx"
  = (Exc.Ok tt, Validation.Report [(ERROR, "Invalid File"%string)] [])
  /\ Validation.schema_validate nat (fun _ => Exc.Err Exc.IOError) unit
       "/usr/lib/pretext/static/__init__.py" (fun _ => Exc.Ok tt)
       (fun _ _ => Exc.Ok tt) "missing.ptx"
     = (Exc.Err Exc.IOError, Validation.Report [] []).
Proof.
  exact (proj1 (parse_failure_is_handled_by_syntax_check_only nat unit
                  (fun _ => Exc.Err Exc.IOError) unfold_level
                  "/usr/lib/pretext/static/__init__.py" (fun _ => Exc.Ok tt)
                  (fun _ _ => Exc.Ok tt) "missing.ptx" tt eq_refl)
               eq_refl).
Defined.

(** ** [pretext init] *)

Module Init.
Import Py PosixPath Utils Exc Scaffold.

(** A file written: by [shutil.copyfile(src, dst)], which
    [shutil.copy] comes down to, or by [open(dst, "w")] followed by
    [write(text)]. *)
Inductive write : Type :=
| CopyFile (src dst : string)
| WriteText (dst text : string).

Definition destination (w : write) : string :=
  match w with
  | CopyFile _ dst => dst
  | WriteText dst _ => dst
  end.

(** How far [init] has got: the paths at which [os.path.isfile] holds
    by now, the writes done, and the records logged. *)
Record progress : Type := Progress {
  present : string -> bool;
  done : list write;
  told : list log_record
}.

Definition act : Type := progress -> res unit * progress.

Definition andthen (a b : act) : act :=
  fun p =>
    match a p with
    | (Ok _, p') => b p'
    | (Err e, p') => (Err e, p')
    end.

Definition when (b : bool) (a : act) : act :=
  if b then a else fun p => (Ok tt, p).

Definition say (lvl : level) (msg : string) : act :=
  fun p => (Ok tt, Progress (present p) (done p) (told p ++ [(lvl, msg)])).

(** The four files, and the names used instead when one is there. *)
Definition canonical_names : list string :=
  ["project.ptx"; "requirements.txt"; join "publication" "publication.ptx";
   ".gitignore"]%string.

Definition stamped_manifest (timestamp : string) : string :=
  String.append "project-" (String.append timestamp ".ptx").
Definition stamped_requirements (timestamp : string) : string :=
  String.append "requirments-" (String.append timestamp ".txt").
Definition stamped_publication (timestamp : string) : string :=
  join "publication"
       (String.append "publication-" (String.append timestamp ".ptx")).
Definition stamped_gitignore (timestamp : string) : string :=
  String.append ".gitignore-" timestamp.

Definition stamped_names (timestamp : string) : list string :=
  [stamped_manifest timestamp; stamped_requirements timestamp;
   stamped_publication timestamp; stamped_gitignore timestamp].

Section Init.

Variable abspath : string -> string.
Variable static_path : list string -> string.
Variable cli_version : string.

(** [datetime.datetime.now().strftime('%Y%m%d-%H%M%S')] *)
Variable timestamp : string.

Variable import_cwd : string.

(** [os.path.isdir], and whether a write to a path that is no directory
    goes through; it raises otherwise, as it does under a directory that
    is missing. *)
Variable isdir : string -> bool.
Variable writable : string -> bool.

(** [shutil.copyfile] and [open(dst, "w")]: a file is written at the
    very path; the call raises when the path is a directory. *)
Definition perform (w : write) : act :=
  fun p =>
    if negb (isdir (destination w)) && writable (destination w)
    then (Ok tt,
          Progress (fun q => String.eqb q (destination w) || present p q)
                   (done p ++ [w]) (told p))
    else (Err IOError, p).

(** [shutil.copy(src, dst)]:
    [if os.path.isdir(dst): dst = os.path.join(dst, os.path.basename(src))
     copyfile(src, dst)]
    The mode bits that [copymode] sets are not modelled. *)
Definition shutil_copy (src dst : string) : act :=
  perform (CopyFile src (if isdir dst then join dst (basename src) else dst)).

(** [path = os.path.abspath(canonical)], replaced by
    [os.path.abspath(stamped)] when [os.path.isfile(path)]: what follows
    gets the path and whether it was replaced. *)
Definition placing (canonical stamped : string) (k : string -> bool -> act) : act :=
  fun p =>
    let taken := present p (abspath canonical) in
    k (if taken then abspath stamped else abspath canonical) taken p.

Definition nl : string := String (ascii_of_nat 10) EmptyString.

Definition for_comparison (start path_ : string) : string :=
  String.append start (String.append path_ (String.append " for comparison." nl)).

Definition manifest_kept : string -> string :=
  for_comparison "You already have a project.ptx file at, so the one suggested by PreTeXt will been created as ".
Definition requirements_kept : string -> string :=
  for_comparison "You already have a requirements.txt file; the one suggested by PreTeXt will be created as ".
Definition publication_kept : string -> string :=
  for_comparison "You already have a publication file, so the one suggested by PreTeXt will been created as ".
Definition gitignore_kept : string -> string :=
  for_comparison "You already have a .gitignore file, so the one suggested by PreTeXt will be created at ".

Definition generating_manifest (path_ : string) : string :=
  String.append "Generating `" (String.append path_ "`.").

Definition publication_created (project_pub_path project_manifest_path : string)
  : string :=
  String.append "Publication file created at "
    (String.append project_pub_path
      (String.append ".  If you use another publication file, move it or update "
        (String.append project_manifest_path
           " to point to the location of the file (and delete the new publication file)."))).

Definition success (project_manifest_path : string) : string :=
  String.append "Success! Open "
    (String.append project_manifest_path " to edit your project manifest.").

(** [init], from the time stamp on. *)
Definition generate : act :=
  placing "project.ptx" (stamped_manifest timestamp)
    (fun project_manifest_path taken =>
  andthen (when taken (say WARNING (manifest_kept project_manifest_path)))
 (andthen (say INFO (generating_manifest project_manifest_path))
 (andthen (perform (CopyFile (static_path ["templates"; "project.ptx"]%string)
                             project_manifest_path))
 (placing "requirements.txt" (stamped_requirements timestamp)
    (fun requirements_path taken_r =>
  andthen (when taken_r (say WARNING (requirements_kept requirements_path)))
 (andthen (perform (WriteText requirements_path
                              (String.append "pretextbook == " cli_version)))
 (placing (join "publication" "publication.ptx") (stamped_publication timestamp)
    (fun project_pub_path taken_p =>
  andthen (when taken_p (say WARNING (publication_kept project_pub_path)))
 (andthen (shutil_copy (static_path ["templates"; "publication.ptx"]%string)
                       project_pub_path)
 (andthen (say INFO (publication_created project_pub_path project_manifest_path))
 (placing ".gitignore" (stamped_gitignore timestamp)
    (fun project_gitignore_path taken_g =>
  andthen (when taken_g (say WARNING (gitignore_kept project_gitignore_path)))
 (andthen (perform (CopyFile (static_path ["templates"; ".gitignore"]%string)
                             project_gitignore_path))
 (andthen (say INFO (String.append "Created .gitignore file." nl))
 (andthen (say INFO (success project_manifest_path))
          (say INFO "Edit your <target/>s to point to your main PreTeXt source file.")
 ))))))))))))))).

(** [init(force)] on a disk where [os.path.isfile] is [isfile]. *)
Definition init (force : bool) (isfile : string -> bool) : res unit * progress :=
  let start := Progress isfile [] [] in
  match project_root isfile import_cwd with
  | Some root =>
      if negb force
      then
        andthen (say WARNING (already_exists root))
                (say WARNING "No project.ptx manifest will be generated.  Use `pretext init -f` to force re-initialization.")
                start
      else generate start
  | None => generate start
  end.

End Init.
End Init.

Module InitFacts.
Import Py PosixPath Utils Exc Scaffold Init.

Section Invariant.

Variable abspath : string -> string.
Variable static_path : list string -> string.
Variable cli_version timestamp : string.
Variable isdir : string -> bool.
Variable writable : string -> bool.

(** The disk as [init] found it. *)
Variable isfile : string -> bool.

(** A path that may be written: nothing was there at the start, or it
    is one of the time-stamped paths. *)
Definition free (path_ : string) : Prop :=
  isfile path_ = false \/ In path_ (map abspath (stamped_names timestamp)).

(** What was there stays there, and every write went to a free path. *)
Definition careful (p : progress) : Prop :=
  (forall q, isfile q = true -> present p q = true)
  /\ (forall w, In w (done p) -> free (destination w)).

Definition keeps_careful (a : act) : Prop :=
  forall p, careful p -> careful (snd (a p)).

Lemma careful_say (lvl : level) (msg : string) : keeps_careful (say lvl msg).
Proof. intros p Hp. exact Hp. Qed.

Lemma careful_when (b : bool) (a : act) :
  keeps_careful a -> keeps_careful (when b a).
Proof. intros Ha. destruct b; [exact Ha | intros p Hp; exact Hp]. Qed.

Lemma careful_andthen (a b : act) :
  keeps_careful a -> keeps_careful b -> keeps_careful (andthen a b).
Proof.
  intros Ha Hb p Hp. unfold andthen. specialize (Ha p Hp).
  destruct (a p) as [[u|e] p']; simpl in *; [now apply Hb | exact Ha].
Qed.

Lemma careful_perform (w : write) :
  free (destination w) -> keeps_careful (perform isdir writable w).
Proof.
  intros Hw p [Hkeep Hdone]. unfold perform.
  destruct (negb (isdir (destination w)) && writable (destination w));
    [|now split].
  split.
  - intros q Hq. cbn [snd present]. apply orb_true_iff. right. now apply Hkeep.
  - intros w' Hin. cbn [snd done] in Hin.
    apply in_app_or in Hin as [Hin|[<-|[]]]; [now apply Hdone | exact Hw].
Qed.

(** [shutil.copy] to a path that is no directory writes at that path. *)
Lemma careful_shutil_copy (src dst : string) :
  isdir dst = false -> free dst -> keeps_careful (shutil_copy isdir writable src dst).
Proof.
  intros Hdir Hfree. unfold shutil_copy. rewrite Hdir. now apply careful_perform.
Qed.

Lemma careful_placing (canonical stamped : string) (k : string -> bool -> act) :
  In stamped (stamped_names timestamp) ->
  (forall path_ taken,
      free path_ ->
      path_ = abspath canonical \/ path_ = abspath stamped ->
      keeps_careful (k path_ taken)) ->
  keeps_careful (placing abspath canonical stamped k).
Proof.
  intros Hs Hk p Hp. unfold placing. apply Hk; [| |exact Hp].
  - destruct (present p (abspath canonical)) eqn:E.
    + right. now apply in_map.
    + left. destruct (isfile (abspath canonical)) eqn:F; [|reflexivity].
      destruct Hp as [Hkeep _]. rewrite (Hkeep _ F) in E. discriminate.
  - destruct (present p (abspath canonical)); [now right | now left].
Qed.

(** The publication file is copied with [shutil.copy]: neither path it
    may be given is a directory. *)
Hypothesis publication_is_no_directory :
  isdir (abspath (join "publication" "publication.ptx")) = false.
Hypothesis stamped_publication_is_no_directory :
  isdir (abspath (stamped_publication timestamp)) = false.

Lemma careful_generate :
  keeps_careful (generate abspath static_path cli_version timestamp isdir writable).
Proof.
  unfold generate.
  repeat first
    [ apply careful_say
    | apply careful_when
    | apply careful_andthen
    | apply careful_perform; assumption
    | apply careful_shutil_copy;
        [ match goal with
          | H : _ = _ \/ _ = _ |- _ => destruct H as [->| ->]; assumption
          end
        | assumption ]
    | apply careful_placing;
        [unfold stamped_names; simpl; tauto | intros ? ? ? ?] ].
Qed.

End Invariant.

Lemma stamped_names_are_new (timestamp : string) :
  Forall2 (fun stamped canonical : string => stamped <> canonical)
          (stamped_names timestamp) canonical_names.
Proof.
  unfold stamped_names, canonical_names, stamped_manifest, stamped_requirements,
    stamped_publication, stamped_gitignore.
  repeat constructor; intros H; vm_compute in H; discriminate.
Qed.

End InitFacts.

(** X26. [init] writes over none of the four files it looks for,
    provided the path of the publication file, which [shutil.copy] is
    given, is no directory. Whatever else is on the disk, and whether the
    run is forced or not, each file it then writes is either at a path
    at which there was no file when it started, or at the absolute path
    of one of the four time-stamped names; and a time-stamped name never
    is the name of the file it stands in for. *)
Theorem init_writes_beside_existing_files :
  forall (abspath : string -> string) (static_path : list string -> string)
         (cli_version timestamp import_cwd : string)
         (isdir writable : string -> bool)
         (force : bool) (isfile : string -> bool) (w : Init.write),
    isdir (abspath (join "publication" "publication.ptx")) = false ->
    isdir (abspath (Init.stamped_publication timestamp)) = false ->
    In w (Init.done (snd (Init.init abspath static_path cli_version timestamp
                                    import_cwd isdir writable force isfile))) ->
    (isfile (Init.destination w) = false
     \/ In (Init.destination w) (map abspath (Init.stamped_names timestamp)))
    /\ Forall2 (fun stamped canonical : string => stamped <> canonical)
               (Init.stamped_names timestamp) Init.canonical_names.
Proof.
  intros abspath static_path cli_version timestamp import_cwd isdir writable force
         isfile w Hpub Hstamped Hin.
  split; [|apply InitFacts.stamped_names_are_new].
  assert (Hstart : InitFacts.careful abspath timestamp isfile
                     (Init.Progress isfile [] [])).
  { split; [intros q Hq; exact Hq | intros w' []]. }
  pose proof (InitFacts.careful_generate abspath static_path cli_version
                timestamp isdir writable isfile Hpub Hstamped _ Hstart) as Hgen.
  unfold Init.init in Hin.
  destruct (Scaffold.project_root isfile import_cwd) as [root|];
    [destruct force; simpl in Hin|].
  - now apply (proj2 Hgen).
  - destruct Hin.
  - now apply (proj2 Hgen).
Qed.

Definition has_manifest_already (p : string) : bool :=
  String.eqb p (under_book "project.ptx").

Definition anywhere (p : string) : bool := true.

Definition nowhere_a_directory (p : string) : bool := false.

Lemma init_writes_beside_existing_files_witness :
  (has_manifest_already
     (Init.destination
        (Init.CopyFile (packaged ["templates"; "project.ptx"]%string)
                       (under_book "project-20200101-120000.ptx"))) = false
   \/ In (Init.destination
            (Init.CopyFile (packaged ["templates"; "project.ptx"]%string)
                           (under_book "project-20200101-120000.ptx")))
         (map under_book (Init.stamped_names "20200101-120000")))
  /\ Forall2 (fun stamped canonical : string => stamped <> canonical)
             (Init.stamped_names "20200101-120000") Init.canonical_names.
Proof.
  exact (init_writes_beside_existing_files under_book packaged "0.3.0"
           "20200101-120000" "/home/author/book" nowhere_a_directory anywhere true
           has_manifest_already
           (Init.CopyFile (packaged ["templates"; "project.ptx"]%string)
                          (under_book "project-20200101-120000.ptx"))
           eq_refl eq_refl (or_introl eq_refl)).
Defined.

(** X27. Without [--force], [init] leaves an existing project alone:
    when the import directory or a directory above it holds
    [project.ptx], it logs two warnings, the first naming the project,
    and writes nothing. *)
Theorem init_keeps_an_existing_project :
  forall (abspath : string -> string) (static_path : list string -> string)
         (cli_version timestamp import_cwd : string)
         (isdir writable : string -> bool)
         (isfile : string -> bool) (n : nat),
    isfile (join (ascend n import_cwd) "project.ptx") = true ->
    exists root : string,
      Init.init abspath static_path cli_version timestamp import_cwd isdir writable
                false isfile
      = (Exc.Ok tt,
         Init.Progress isfile []
           [(WARNING, Scaffold.already_exists root);
            (WARNING, "No project.ptx manifest will be generated.  Use `pretext init -f` to force re-initialization."%string)])
      /\ isfile (join root "project.ptx") = true.
Proof.
  intros abspath static_path cli_version timestamp import_cwd isdir writable isfile
         n Hn.
  destruct (ScaffoldFacts.project_root_some isfile import_cwd)
    as (root & Hroot & Hm); [now exists n|].
  exists root. unfold Init.init. rewrite Hroot. now split.
Qed.

Lemma init_keeps_an_existing_project_witness :
  exists root : string,
    Init.init under_book packaged "0.3.0" "20200101-120000"
              "/home/author/book/source" nowhere_a_directory anywhere false book_only
    = (Exc.Ok tt,
       Init.Progress book_only []
         [(WARNING, Scaffold.already_exists root);
          (WARNING, "No project.ptx manifest will be generated.  Use `pretext init -f` to force re-initialization."%string)])
    /\ book_only (join root "project.ptx") = true.
Proof.
  exact (init_keeps_an_existing_project under_book packaged "0.3.0"
           "20200101-120000" "/home/author/book/source" nowhere_a_directory anywhere
           book_only 1 eq_refl).
Defined.
